(** * Room detection for raster floor plans: a shallow embedding

    The two detection scripts of the repository,
    [server/src/scripts/roomDetection.py] (seed-anchored flood fill) and
    [server/src/scripts/enhancedRoomDetection.py] (wall reconstruction), are
    embedded as Rocq functions and the properties of their classifier,
    candidate filter, overlap resolver and result record are proved.

    Numbers.  Python [int] is [Z].  Python [float] is modelled by exact
    rationals [Q]: a literal such as [0.003] stands for 3/1000 and the
    arithmetic is exact.  Division raises [ZeroDivisionError] on a zero
    divisor, as in Python.  One product is modelled in double precision,
    [0.7 * min(...)] in the overlap test of [roomDetection.py]: there the
    rounding of the double product decides the comparison with an integer
    (the double [0.7 * 1400] lies below 980), see [F64].

    OpenCV.  The calls into [cv2] are not part of the repository; they are
    the fields of the class [OpenCV] and every definition is parametric in
    them. *)

From Stdlib Require Import ZArith QArith Qminmax Qround Qabs Qpower Lqa Lia.
From Stdlib Require Import List Bool String Ascii DecimalString Permutation Sorted.
From Stdlib Require DecimalNat.
Import ListNotations.

Open Scope Q_scope.

(** ** Python values *)

(** Exceptions raised by the scripts and by the builtins they call;
    [CvError] is [cv2.error]. *)
Inductive exn : Type :=
| FileNotFoundError
| ValueError
| ZeroDivisionError
| KeyError
| CvError.

Inductive result (A : Type) : Type :=
| Ok (a : A)
| Raise (e : exn).

Arguments Ok {A} a.
Arguments Raise {A} e.

Definition bind {A B : Type} (m : result A) (k : A -> result B) : result B :=
  match m with
  | Ok a => k a
  | Raise e => Raise e
  end.

Declare Scope py_scope.
Delimit Scope py_scope with py.
Notation "x <- m ;; k" := (bind m (fun x => k))
  (at level 61, m at next level, right associativity) : py_scope.

(** ** Double precision *)

(** Rounding to IEEE 754 binary64, the [float] of Python: 53 significant
    bits, round to nearest, a tie going to the even significand.  The
    exponent range is not bounded: overflow to infinity and subnormal
    numbers are not modelled. *)
Module F64.

(** [ilog2 x] is the binary exponent of a positive [x]: the integer [l]
    with [2^l <= x < 2^(l+1)]. *)
Definition ilog2 (x : Q) : Z :=
  let d := (Z.log2 (Qnum x) - Z.log2 (Zpos (Qden x)))%Z in
  if Qle_bool (2 ^ d) x then d else (d - 1)%Z.

(** Rounding to the nearest integer, a tie going to the even one. *)
Definition nearest_even (y : Q) : Z :=
  let f := Qfloor y in
  match Qcompare (y - inject_Z f) (1 # 2) with
  | Lt => f
  | Gt => (f + 1)%Z
  | Eq => if Z.even f then f else (f + 1)%Z
  end.

(** The double nearest to [x]. *)
Definition round (x : Q) : Q :=
  if Qeq_bool x 0 then 0
  else
    let e := (ilog2 (Qabs x) - 52)%Z in
    let m := nearest_even (Qabs x / 2 ^ e) in
    if Qle_bool 0 x then inject_Z m * 2 ^ e else - (inject_Z m * 2 ^ e).

(** A float literal of the source, the conversion of an [int] operand, and
    the product of two doubles. *)
Definition literal (x : Q) : Q := round x.
Definition of_int (n : Z) : Q := round (inject_Z n).
Definition mul (x y : Q) : Q := round (x * y).

(** Half a unit in the last place, relative to the rounded number. *)
Definition ulp_half : Q := 1 # 9007199254740992.

End F64.

Module Py.

(** [x < y] on floats. *)
Definition lt (x y : Q) : bool := negb (Qle_bool y x).

(** [x > y] on floats. *)
Definition gt (x y : Q) : bool := lt y x.

(** [a / b], true division. *)
Definition truediv (a b : Q) : result Q :=
  if Qeq_bool b 0 then Raise ZeroDivisionError else Ok (a / b).

(** The builtin [min(a, b)]: the first argument unless the second is
    strictly smaller. *)
Definition min (a b : Q) : Q := if lt b a then b else a.

(** [int(x)] on a float: truncation toward zero. *)
Definition int (x : Q) : Z := Z.quot (Qnum x) (Zpos (Qden x)).

(** [float(n)] on an int. *)
Definition float (n : Z) : Q := inject_Z n.

Section Sequences.
Context {A : Type} (key : A -> Q).

(** [sorted(l, key=key, reverse=True)].  The sort is stable: among equal
    keys the original order is kept, also under [reverse=True].  An element
    is inserted behind the strictly greater keys only. *)
Fixpoint insert_reverse (a : A) (l : list A) : list A :=
  match l with
  | [] => [a]
  | b :: l' =>
      if lt (key a) (key b) then b :: insert_reverse a l' else a :: b :: l'
  end.

Definition sorted_reverse (l : list A) : list A :=
  fold_right insert_reverse [] l.

(** The scan of [max(l, key=key)]: the running best is replaced only by a
    strictly greater key, so the first maximal element is returned. *)
Fixpoint max_scan (best : A) (l : list A) : A :=
  match l with
  | [] => best
  | a :: l' => max_scan (if lt (key best) (key a) then a else best) l'
  end.

(** [max(l, key=key)] raises [ValueError] on an empty sequence. *)
Definition max_key (l : list A) : result A :=
  match l with
  | [] => Raise ValueError
  | a :: l' => Ok (max_scan a l')
  end.
End Sequences.

(** [s.lower()] and [s.capitalize()] on ASCII text. *)
Definition lower_ascii (c : ascii) : ascii :=
  let n := nat_of_ascii c in
  if (65 <=? n)%nat && (n <=? 90)%nat then ascii_of_nat (n + 32) else c.

Definition upper_ascii (c : ascii) : ascii :=
  let n := nat_of_ascii c in
  if (97 <=? n)%nat && (n <=? 122)%nat then ascii_of_nat (n - 32) else c.

Fixpoint lower (s : string) : string :=
  match s with
  | EmptyString => EmptyString
  | String c s' => String (lower_ascii c) (lower s')
  end.

Definition capitalize (s : string) : string :=
  match s with
  | EmptyString => EmptyString
  | String c s' => String (upper_ascii c) (lower s')
  end.

(** [sub in s] on strings. *)
Fixpoint contains (sub s : string) : bool :=
  String.prefix sub s ||
  match s with
  | EmptyString => false
  | String _ s' => contains sub s'
  end.

(** [re.search('(a1|a2|...)', s)]: the leftmost position at which some
    alternative matches, and there the first alternative that matches. *)
Fixpoint search_alternatives (alts : list string) (s : string)
  : option string :=
  match find (fun a => String.prefix a s) alts with
  | Some a => Some a
  | None =>
      match s with
      | EmptyString => None
      | String _ s' => search_alternatives alts s'
      end
  end.

(** [str(n)] for a natural number. *)
Definition str (n : nat) : string :=
  NilEmpty.string_of_uint (Nat.to_uint n).

(** Values stored in the room dictionaries. *)
Inductive value : Type :=
| VStr (s : string)
| VInt (n : Z)
| VFloat (q : Q)
| VPoints (pts : list (Z * Z)).

(** A [dict] with string keys, in insertion order. *)
Definition dict : Type := list (string * value).

Fixpoint getitem {V : Type} (d : list (string * V)) (k : string) : result V :=
  match d with
  | [] => Raise KeyError
  | (k', v) :: d' => if String.eqb k' k then Ok v else getitem d' k
  end.

Fixpoint get (d : dict) (k : string) : option value :=
  match d with
  | [] => None
  | (k', v) :: d' => if String.eqb k' k then Some v else get d' k
  end.

(** [d[k] = v]: replaces the value of a present key in place, appends a new
    key at the end. *)
Fixpoint setitem (d : dict) (k : string) (v : value) : dict :=
  match d with
  | [] => [(k, v)]
  | (k', v') :: d' =>
      if String.eqb k' k then (k', v) :: d' else (k', v') :: setitem d' k v
  end.

Definition keys (d : dict) : list string := map fst d.

End Py.

Notation "x <? y" := (Py.lt x y) (at level 70, no associativity) : py_scope.
Notation "x >? y" := (Py.gt x y) (at level 70, no associativity) : py_scope.
Open Scope string_scope.
Open Scope py_scope.

(** ** The libraries the scripts call *)

Inductive ThresholdType : Type := THRESH_BINARY | THRESH_BINARY_INV.
Inductive MorphType : Type := MORPH_OPEN | MORPH_CLOSE.

(** The [cv2] and [numpy] operations used by the two scripts.  [Image] is a
    decoded colour image, [Raster] a single-channel array of the same
    height and width, [Contour] a point array as [cv2.findContours] returns
    it.  Arguments that are the same constant at every call site are
    omitted. *)
Class OpenCV : Type := {
  Image : Type;
  Raster : Type;
  Contour : Type;
  (** [a.shape[:2]], as [(height, width)] *)
  shape : Image -> Z * Z;
  raster_shape : Raster -> Z * Z;
  (** [a[row, col]] *)
  pixel : Raster -> Z -> Z -> Z;
  (** [cv2.imread], [None] for a file that does not decode *)
  imread : string -> option Image;
  cvtColor_BGR2RGB : Image -> Image;
  cvtColor_RGB2GRAY : Image -> Raster;
  cvtColor_BGR2GRAY : Image -> Raster;
  threshold : Raster -> Z -> Z -> ThresholdType -> Raster;
  adaptiveThreshold : Raster -> Raster;
  (** [cv2.morphologyEx(a, op, np.ones((k, k)))] *)
  morphologyEx : Raster -> MorphType -> Z -> Raster;
  (** [cv2.floodFill(a, mask, seed, value)], the array after the fill *)
  floodFill : Raster -> Z * Z -> Z -> Raster;
  inRange : Raster -> Z -> Z -> Raster;
  (** [cv2.rectangle(a, p1, p2, colour, -1)], the array after the drawing *)
  rectangle : Raster -> Z * Z -> Z * Z -> Z -> Raster;
  (** [cv2.findContours(a, RETR_EXTERNAL, CHAIN_APPROX_SIMPLE)] *)
  findContours : Raster -> list Contour;
  boundingRect : Contour -> Z * Z * Z * Z;
  contourArea : Contour -> Q;
  tolist : Contour -> list (Z * Z);
  GaussianBlur : Raster -> Raster;
  Canny : Raster -> Raster;
  dilate : Raster -> Raster;
  zeros_like : Raster -> Raster;
  fillPoly : Raster -> list (Z * Z) -> Z -> Raster;
  bitwise_and : Raster -> Raster -> Raster;
  (** [cv2.HoughLinesP], [None] when no segment is found *)
  HoughLinesP : Raster -> option (list (Z * Z * Z * Z));
  zeros : Z -> Z -> Raster;
  (** [cv2.line(a, p1, p2, 255, 2)], the array after the drawing *)
  line : Raster -> Z * Z -> Z * Z -> Raster;
  (** [cv2.arcLength(c, True)] and [cv2.approxPolyDP(c, epsilon, True)] *)
  arcLength : Contour -> Q;
  approxPolyDP : Contour -> Q -> Contour
}.

(** The operating system and the random source: [os.path.exists],
    [Path(p).stem], and [uuid.uuid4()], whose [n]-th call yields the 32
    hexadecimal digits [uuid4 n].  The first eight characters of
    [str(uuid.uuid4())] are the first eight of these digits. *)
Class Host : Type := {
  path_exists : string -> bool;
  stem : string -> string;
  uuid4 : nat -> string
}.

(** ** The seed-anchored script, [roomDetection.py] *)

Module RoomDetection.

Section Script.
Context {cv : OpenCV} {host : Host}.

(** [load_image(image_path)] *)
Definition load_image (image_path : string) : result Image :=
  if negb (path_exists image_path) then Raise FileNotFoundError
  else
    match imread image_path with
    | None => Raise ValueError
    | Some image => Ok (cvtColor_BGR2RGB image)
    end.

(** [preprocess_for_text_detection(image)] *)
Definition preprocess_for_text_detection (image : Image) : Raster * Raster :=
  let gray := cvtColor_RGB2GRAY image in
  let binary := adaptiveThreshold gray in
  let cleaned := morphologyEx binary MORPH_OPEN 2 in
  (cleaned, gray).

(** The loop of [detect_text_regions] over the contours found. *)
Fixpoint text_regions_of (width height : Z) (contours : list Contour)
  : list (Z * Z * Z * Z) :=
  match contours with
  | [] => []
  | contour :: rest =>
      let '(x, y, w, h) := boundingRect contour in
      let area := contourArea contour in
      let keep :=
        (area <? 5000) && (area >? 100)
        && (Py.float w <? Py.float width * 0.2)
        && (Py.float h <? Py.float height * 0.2)
        && (let aspect_ratio :=
              if (0 <? h)%Z then Py.float w / Py.float h else 0 in
            (0.2 <? aspect_ratio) && (aspect_ratio <? 5.0)) in
      if keep then (x, y, w, h) :: text_regions_of width height rest
      else text_regions_of width height rest
  end.

(** [detect_text_regions(image)], called on the grayscale array. *)
Definition detect_text_regions (gray : Raster) : list (Z * Z * Z * Z) :=
  let binary := threshold gray 150 255 THRESH_BINARY_INV in
  let contours := findContours binary in
  let '(height, width) := raster_shape gray in
  text_regions_of width height contours.

(** The seed loop of [get_room_contour]: the first seed point within bounds
    whose pixel in [binary] is 255. *)
Fixpoint first_seed (binary : Raster) (width height : Z)
  (seed_points : list (Z * Z)) : option (Z * Z) :=
  match seed_points with
  | [] => None
  | (sx, sy) :: rest =>
      if ((0 <=? sx)%Z && (sx <? width)%Z && (0 <=? sy)%Z && (sy <? height)%Z
          && (pixel binary sy sx =? 255)%Z)%bool
      then Some (sx, sy)
      else first_seed binary width height rest
  end.

(** Steps 1 and 2 of [get_room_contour]: the binarised image. *)
Definition binarize (image : Image) : Raster :=
  let gray := cvtColor_RGB2GRAY image in
  threshold gray 200 255 THRESH_BINARY.

(** Step 2 of [get_room_contour]: the seed point of the flood fill. *)
Definition seed_point (image : Image) (text_region : Z * Z * Z * Z)
  : Z * Z :=
  let '(height, width) := shape image in
  let binary := binarize image in
  let '(x, y, w, h) := text_region in
  let center_x := (x + w / 2)%Z in
  let center_y := (y + h / 2)%Z in
  let seed_points :=
    [ (center_x, (center_y - h)%Z);
      (center_x, (center_y + h)%Z);
      ((center_x - w)%Z, center_y);
      ((center_x + w)%Z, center_y) ] in
  match first_seed binary width height seed_points with
  | Some p => p
  | None => (center_x, center_y)
  end.

(** Steps 3 to 5 of [get_room_contour]: the mask of the flooded region with
    the text box filled in. *)
Definition room_mask (image : Image) (text_region : Z * Z * Z * Z)
  : Raster :=
  let binary := binarize image in
  let '(x, y, w, h) := text_region in
  let flood_value := 128%Z in
  let flood_image := floodFill binary (seed_point image text_region)
                       flood_value in
  let room_mask := inRange flood_image flood_value flood_value in
  rectangle room_mask (x, y) ((x + w)%Z, (y + h)%Z) 255.

(** [get_room_contour(image, text_region)] *)
Definition get_room_contour (image : Image) (text_region : Z * Z * Z * Z)
  : result (option Contour) :=
  let contours := findContours (room_mask image text_region) in
  match contours with
  | [] => Ok None
  | _ :: _ =>
      largest <- Py.max_key contourArea contours ;;
      Ok (Some largest)
  end.

End Script.

(** [classify_room_type(area, aspect_ratio, total_area)] *)
Definition classify_room_type (area aspect_ratio total_area : Q)
  : result string :=
  area_ratio <- Py.truediv area total_area ;;
  if area_ratio >? 0.25 then
    if aspect_ratio >? 3.0 then Ok "hallway" else Ok "hall"
  else if area_ratio >? 0.15 then
    if (0.7 <? aspect_ratio) && (aspect_ratio <? 1.3) then Ok "conference"
    else if aspect_ratio >? 2.0 then Ok "hallway"
    else Ok "classroom"
  else if area_ratio >? 0.05 then
    if (0.7 <? aspect_ratio) && (aspect_ratio <? 1.3) then Ok "office"
    else if aspect_ratio >? 3.0 then Ok "hallway"
    else Ok "laboratory"
  else if area_ratio >? 0.02 then
    if (0.7 <? aspect_ratio) && (aspect_ratio <? 1.3) then Ok "storage"
    else if aspect_ratio >? 2.5 then Ok "corridor"
    else Ok "office"
  else
    if (0.7 <? aspect_ratio) && (aspect_ratio <? 1.3) then Ok "utility"
    else if aspect_ratio >? 3.0 then Ok "corridor"
    else Ok "storage".

(** A room dictionary, with the keys of the literal in
    [process_floorplan]. *)
Record Room : Type := {
  id : string;
  name : string;
  type : string;
  x : Z;
  y : Z;
  width : Z;
  height : Z;
  area : Z;
  aspect_ratio : Q;
  confidence : Q;
  contour : list (Z * Z)
}.

(** [room.items()], in the insertion order of the literal. *)
Definition items (room : Room) : Py.dict :=
  [ ("id", Py.VStr (id room));
    ("name", Py.VStr (name room));
    ("type", Py.VStr (type room));
    ("x", Py.VInt (x room));
    ("y", Py.VInt (y room));
    ("width", Py.VInt (width room));
    ("height", Py.VInt (height room));
    ("area", Py.VInt (area room));
    ("aspect_ratio", Py.VFloat (aspect_ratio room));
    ("confidence", Py.VFloat (confidence room));
    ("contour", Py.VPoints (contour room)) ].

(** The persisted result record of [process_floorplan]. *)
Module Result.
Record t : Type := {
  source : string;
  width : Z;
  height : Z;
  floor : string;
  rooms : list Py.dict;
  processingComplete : bool
}.
End Result.

(** The intersection area of the bounding boxes of two rooms, as the
    overlap loop computes it. *)
Definition overlap_area (room existing : Room) : Z :=
  let '(x1, y1, w1, h1) := (x room, y room, width room, height room) in
  let '(x2, y2, w2, h2) :=
    (x existing, y existing, width existing, height existing) in
  let overlap_x := Z.max 0 (Z.min (x1 + w1) (x2 + w2) - Z.max x1 x2) in
  let overlap_y := Z.max 0 (Z.min (y1 + h1) (y2 + h2) - Z.max y1 y2) in
  (overlap_x * overlap_y)%Z.

(** The test [overlap_area > 0.7 * min(room['area'], existing['area'])].
    The areas are [int]s: the smaller one is converted to a double and
    multiplied by the double [0.7], and Python compares the integer
    [overlap_area] with the rounded product exactly. *)
Definition significant_overlap (room existing : Room) : bool :=
  Py.float (overlap_area room existing)
  >? F64.mul (F64.literal 0.7)
       (F64.of_int (Z.min (area room) (area existing))).

(** The inner loop over [filtered_rooms], with its [break]. *)
Fixpoint should_add (room : Room) (filtered_rooms : list Room) : bool :=
  match filtered_rooms with
  | [] => true
  | existing :: rest =>
      if significant_overlap room existing then false
      else should_add room rest
  end.

(** The outer loop over the sorted rooms. *)
Fixpoint dedup_loop (sorted_rooms filtered_rooms : list Room) : list Room :=
  match sorted_rooms with
  | [] => filtered_rooms
  | room :: rest =>
      dedup_loop rest
        (if should_add room filtered_rooms then filtered_rooms ++ [room]
         else filtered_rooms)
  end.

(** The overlap removal of [process_floorplan]. *)
Definition remove_duplicates (rooms : list Room) : list Room :=
  dedup_loop (Py.sorted_reverse (fun r => Py.float (area r)) rooms) [].

(** The loop that copies a room without its contour. *)
Fixpoint copy_items (items : Py.dict) (room_dict : Py.dict) : Py.dict :=
  match items with
  | [] => room_dict
  | (k, v) :: rest =>
      copy_items rest
        (if negb (String.eqb k "contour") then Py.setitem room_dict k v
         else room_dict)
  end.

Definition rooms_json (filtered_rooms : list Room) : list Py.dict :=
  map (fun room => copy_items (items room) []) filtered_rooms.

Section Pipeline.
Context {cv : OpenCV} {host : Host}.

(** The body of the region loop of [process_floorplan] for a contour that
    is not [None].  The state is the list [rooms] and the number of calls
    made to [uuid.uuid4]. *)
Definition add_room (total_area : Z) (contour : Contour)
  (st : list Room * nat) : result (list Room * nat) :=
  let '(rooms, calls) := st in
  let '(x, y, w, h) := boundingRect contour in
  let area := contourArea contour in
  let aspect_ratio := if (0 <? h)%Z then Py.float w / Py.float h else 0 in
  let min_area := Py.float total_area * 0.003 in
  let max_area := Py.float total_area * 0.6 in
  if (min_area <? area) && (area <? max_area)
     && (0.1 <? aspect_ratio) && (aspect_ratio <? 10)
  then
    let room_id := "room-" ++ substring 0 8 (uuid4 calls) in
    room_type <- classify_room_type area aspect_ratio (Py.float total_area) ;;
    Ok ((rooms ++
          [ {| id := room_id;
               name := "Room " ++ Py.str (List.length rooms + 1)%nat;
               type := room_type;
               x := x; y := y; width := w; height := h;
               area := Py.int area;
               aspect_ratio := aspect_ratio;
               confidence := 0.85;
               contour := tolist contour |} ])%list,
        S calls)
  else Ok (rooms, calls).

(** The region loop of [process_floorplan]. *)
Fixpoint detect_rooms (original : Image) (total_area : Z)
  (text_regions : list (Z * Z * Z * Z)) (st : list Room * nat)
  : result (list Room * nat) :=
  match text_regions with
  | [] => Ok st
  | region :: rest =>
      contour <- get_room_contour original region ;;
      match contour with
      | Some c =>
          st' <- add_room total_area c st ;;
          detect_rooms original total_area rest st'
      | None => detect_rooms original total_area rest st
      end
  end.

Definition floor_type_of (image_path : string) : string :=
  let floor_name := stem image_path in
  match
    Py.search_alternatives
      ["ground"; "mezzanine"; "first"; "second"; "third"; "fourth"; "fifth"]
      (Py.lower floor_name)
  with
  | Some floor => floor
  | None => "unknown"
  end.

(** [process_floorplan(image_path)]: the record written to the JSON file and
    the list returned.  The visualisations drawn after the record is written
    are not modelled. *)
Definition process_floorplan (image_path : string)
  : result (Result.t * list Room) :=
  let floor_type := floor_type_of image_path in
  original <- load_image image_path ;;
  let '(height, width) := shape original in
  let total_area := (height * width)%Z in
  let '(preprocessed, gray) := preprocess_for_text_detection original in
  let text_regions := detect_text_regions gray in
  st <- detect_rooms original total_area text_regions ([], 0%nat) ;;
  let filtered_rooms := remove_duplicates (fst st) in
  Ok ({| Result.source := image_path;
         Result.width := width;
         Result.height := height;
         Result.floor := floor_type;
         Result.rooms := rooms_json filtered_rooms;
         Result.processingComplete := true |},
      filtered_rooms).

End Pipeline.

End RoomDetection.

(** ** The wall-reconstruction script, [enhancedRoomDetection.py] *)

Module EnhancedRoomDetection.

Definition ROOM_TYPES : list (string * string) :=
  [ ("large_square", "office");
    ("large_rectangle", "classroom");
    ("medium_square", "conference");
    ("small_square", "storage");
    ("small_rectangle", "restroom");
    ("corridor", "hallway");
    ("entrance", "reception");
    ("tiny", "utility") ].

(** [classify_room_type(area, aspect_ratio, total_area)] *)
Definition classify_room_type (area aspect_ratio total_area : Q)
  : result string :=
  rel_area <- Py.truediv area total_area ;;
  if rel_area >? 0.15 then
    if (0.75 <? aspect_ratio) && (aspect_ratio <? 1.5)
    then Py.getitem ROOM_TYPES "large_square"
    else Py.getitem ROOM_TYPES "large_rectangle"
  else if rel_area >? 0.05 then
    if (0.75 <? aspect_ratio) && (aspect_ratio <? 1.5)
    then Py.getitem ROOM_TYPES "medium_square"
    else if aspect_ratio >? 3.0 then Py.getitem ROOM_TYPES "corridor"
    else Py.getitem ROOM_TYPES "large_rectangle"
  else if rel_area >? 0.01 then
    if (0.75 <? aspect_ratio) && (aspect_ratio <? 1.5)
    then Py.getitem ROOM_TYPES "small_square"
    else Py.getitem ROOM_TYPES "small_rectangle"
  else
    if aspect_ratio >? 3.0 then Py.getitem ROOM_TYPES "corridor"
    else Py.getitem ROOM_TYPES "tiny".

(** A dictionary appended by [find_room_polygons]. *)
Record Polygon : Type := {
  p_contour : list (Z * Z);
  p_x : Z;
  p_y : Z;
  p_width : Z;
  p_height : Z;
  p_area : Q;
  p_aspect_ratio : Q
}.

(** The same dictionary after [process_floor_plan] has set the keys
    [type], [id], [name] and [confidence]. *)
Record Room : Type := {
  contour : list (Z * Z);
  x : Z;
  y : Z;
  width : Z;
  height : Z;
  area : Q;
  aspect_ratio : Q;
  type : string;
  id : string;
  name : string;
  confidence : Q
}.

(** [room.items()], in insertion order. *)
Definition items (room : Room) : Py.dict :=
  [ ("contour", Py.VPoints (contour room));
    ("x", Py.VInt (x room));
    ("y", Py.VInt (y room));
    ("width", Py.VInt (width room));
    ("height", Py.VInt (height room));
    ("area", Py.VFloat (area room));
    ("aspect_ratio", Py.VFloat (aspect_ratio room));
    ("type", Py.VStr (type room));
    ("id", Py.VStr (id room));
    ("name", Py.VStr (name room));
    ("confidence", Py.VFloat (confidence room)) ].

Module Result.
Record t : Type := {
  source : string;
  width : Z;
  height : Z;
  floor : string;
  rooms : list Py.dict;
  processingComplete : bool;
  enhancedDetection : bool
}.
End Result.

(** The intersection area of the bounding boxes of two rooms, as
    [remove_overlapping_rooms] computes it. *)
Definition overlap_area (room existing : Room) : Z :=
  let '(x1, y1, w1, h1) := (x room, y room, width room, height room) in
  let '(x2, y2, w2, h2) :=
    (x existing, y existing, width existing, height existing) in
  let x_overlap := Z.max 0 (Z.min (x1 + w1) (x2 + w2) - Z.max x1 x2) in
  let y_overlap := Z.max 0 (Z.min (y1 + h1) (y2 + h2) - Z.max y1 y2) in
  (x_overlap * y_overlap)%Z.

(** The test [overlap_area > 0.6 * min(room['area'], existing['area'])]. *)
Definition significant_overlap (room existing : Room) : bool :=
  Py.float (overlap_area room existing)
  >? 0.6 * Py.min (area room) (area existing).

Fixpoint should_add (room : Room) (filtered_rooms : list Room) : bool :=
  match filtered_rooms with
  | [] => true
  | existing :: rest =>
      if significant_overlap room existing then false
      else should_add room rest
  end.

Fixpoint filter_loop (sorted_rooms filtered_rooms : list Room) : list Room :=
  match sorted_rooms with
  | [] => filtered_rooms
  | room :: rest =>
      filter_loop rest
        (if should_add room filtered_rooms then filtered_rooms ++ [room]
         else filtered_rooms)
  end.

(** [remove_overlapping_rooms(rooms)] *)
Definition remove_overlapping_rooms (rooms : list Room) : list Room :=
  match rooms with
  | [] => []
  | _ :: _ =>
      let sorted_rooms := Py.sorted_reverse area rooms in
      filter_loop sorted_rooms []
  end.

Fixpoint copy_items (items : Py.dict) (room_dict : Py.dict) : Py.dict :=
  match items with
  | [] => room_dict
  | (k, v) :: rest =>
      copy_items rest
        (if negb (String.eqb k "contour") then Py.setitem room_dict k v
         else room_dict)
  end.

Definition rooms_json (filtered_rooms : list Room) : list Py.dict :=
  map (fun room => copy_items (items room) []) filtered_rooms.

Section Script.
Context {cv : OpenCV} {host : Host}.

(** [load_image(image_path)] *)
Definition load_image (image_path : string) : result Image :=
  if negb (path_exists image_path) then Raise FileNotFoundError
  else
    match imread image_path with
    | None => Raise ValueError
    | Some image => Ok image
    end.

(** [color_selection(image)] *)
Definition color_selection (image : Image) : Raster :=
  let gray := cvtColor_BGR2GRAY image in
  let binary := threshold gray 150 255 THRESH_BINARY_INV in
  morphologyEx binary MORPH_CLOSE 3.

(** [apply_gaussian_smoothing(image)] *)
Definition apply_gaussian_smoothing (image : Raster) : Raster :=
  GaussianBlur image.

(** [edge_detection(image)] *)
Definition edge_detection (image : Raster) : Raster :=
  let edges := Canny image in
  dilate edges.

(** [determine_region_of_interest(image)] *)
Definition determine_region_of_interest (image : Raster) : Raster :=
  let '(height, width) := raster_shape image in
  let margin := Py.int (Py.float (Z.min width height) * 0.05) in
  let mask := zeros_like image in
  let roi :=
    [ (margin, margin);
      ((width - margin)%Z, margin);
      ((width - margin)%Z, (height - margin)%Z);
      (margin, (height - margin)%Z) ] in
  let mask := fillPoly mask roi 255 in
  bitwise_and image mask.

(** [apply_hough_transform(edges, original_image)], the detected lines; the
    canvas drawn for display is not modelled. *)
Definition apply_hough_transform (edges : Raster)
  : option (list (Z * Z * Z * Z)) :=
  HoughLinesP edges.

(** The filter loop of [find_room_polygons] over the contours found. *)
Fixpoint room_polygons_of (min_area max_area : Q) (contours : list Contour)
  : list Polygon :=
  match contours with
  | [] => []
  | contour :: rest =>
      let area := contourArea contour in
      if (min_area <? area) && (area <? max_area) then
        let epsilon := 0.01 * arcLength contour in
        let approx := approxPolyDP contour epsilon in
        let '(x, y, w, h) := boundingRect approx in
        let aspect_ratio :=
          if (0 <? h)%Z then Py.float w / Py.float h else 0 in
        if (0.2 <? aspect_ratio) && (aspect_ratio <? 5.0) then
          {| p_contour := tolist approx;
             p_x := x; p_y := y; p_width := w; p_height := h;
             p_area := area;
             p_aspect_ratio := aspect_ratio |}
          :: room_polygons_of min_area max_area rest
        else room_polygons_of min_area max_area rest
      else room_polygons_of min_area max_area rest
  end.

(** [find_room_polygons(lines, image_shape)] *)
Definition find_room_polygons (lines : option (list (Z * Z * Z * Z)))
  (image_shape : Z * Z) : list Polygon :=
  let '(height, width) := image_shape in
  let room_boundaries := zeros height width in
  let room_boundaries :=
    match lines with
    | Some ls =>
        fold_left
          (fun canvas '(x1, y1, x2, y2) => line canvas (x1, y1) (x2, y2))
          ls room_boundaries
    | None => room_boundaries
    end in
  let room_boundaries := morphologyEx room_boundaries MORPH_CLOSE 7 in
  let contours := findContours room_boundaries in
  let min_area := Py.float (height * width) * 0.003 in
  let max_area := Py.float (height * width) * 0.5 in
  room_polygons_of min_area max_area contours.

(** The annotation loop of [process_floor_plan]; [calls] counts the calls
    made to [uuid.uuid4]. *)
Fixpoint annotate (total_area : Z) (room_polygons : list Polygon)
  (calls : nat) : result (list Room) :=
  match room_polygons with
  | [] => Ok []
  | room :: rest =>
      room_type <- classify_room_type (p_area room) (p_aspect_ratio room)
                     (Py.float total_area) ;;
      let room_id := "room-" ++ substring 0 8 (uuid4 calls) in
      let room_name :=
        "Room " ++ Py.capitalize room_type ++ " "
        ++ substring 0 4 (uuid4 (S calls)) in
      rest' <- annotate total_area rest (S (S calls)) ;;
      Ok ({| contour := p_contour room;
             x := p_x room; y := p_y room;
             width := p_width room; height := p_height room;
             area := p_area room;
             aspect_ratio := p_aspect_ratio room;
             type := room_type;
             id := room_id;
             name := room_name;
             confidence := 0.85 |} :: rest')
  end.

Definition floor_type_of (image_path : string) : string :=
  let floor_name := stem image_path in
  match
    find (fun floor => Py.contains floor (Py.lower floor_name))
      ["ground"; "mezzanine"; "second"; "third"; "fourth"; "fifth"]
  with
  | Some floor => floor
  | None => "unknown"
  end.

(** [process_floor_plan(image_path)]: the record written to the JSON file
    and the list returned.  The visualisation is not modelled. *)
Definition process_floor_plan (image_path : string)
  : result (Result.t * list Room) :=
  let floor_type := floor_type_of image_path in
  original_image <- load_image image_path ;;
  let '(height, width) := shape original_image in
  let total_area := (height * width)%Z in
  let wall_binary := color_selection original_image in
  let smoothed := apply_gaussian_smoothing wall_binary in
  let edges := edge_detection smoothed in
  let roi_edges := determine_region_of_interest edges in
  let lines := apply_hough_transform roi_edges in
  let room_polygons := find_room_polygons lines (shape original_image) in
  rooms <- annotate total_area room_polygons 0 ;;
  let filtered_rooms := remove_overlapping_rooms rooms in
  Ok ({| Result.source := image_path;
         Result.width := width;
         Result.height := height;
         Result.floor := floor_type;
         Result.rooms := rooms_json filtered_rooms;
         Result.processingComplete := true;
         Result.enhancedDetection := true |},
      filtered_rooms).

End Script.

End EnhancedRoomDetection.

(** ** A synthetic implementation of the library interfaces

    An image of this world carries its size, the value of every pixel after
    binarisation and the contours that contour extraction reports on it;
    the array operations leave it unchanged.  It serves to run the scripts
    on concrete inputs. *)

Module Synthetic.

Record contour : Type := {
  points : list (Z * Z);
  rect : Z * Z * Z * Z;
  enclosed : Q
}.

Record scene : Type := {
  rows : Z;
  cols : Z;
  light : Z -> Z -> bool;
  found : list contour
}.

Definition opencv (on_disk : scene) : OpenCV := {|
  Image := scene;
  Raster := scene;
  Contour := contour;
  shape s := (rows s, cols s);
  raster_shape s := (rows s, cols s);
  pixel s r c := if light s r c then 255%Z else 0%Z;
  imread _ := Some on_disk;
  cvtColor_BGR2RGB s := s;
  cvtColor_RGB2GRAY s := s;
  cvtColor_BGR2GRAY s := s;
  threshold s _ _ _ := s;
  adaptiveThreshold s := s;
  morphologyEx s _ _ := s;
  floodFill s _ _ := s;
  inRange s _ _ := s;
  rectangle s _ _ _ := s;
  findContours s := found s;
  boundingRect c := rect c;
  contourArea c := enclosed c;
  tolist c := points c;
  GaussianBlur s := s;
  Canny s := s;
  dilate s := s;
  zeros_like s := s;
  fillPoly s _ _ := s;
  bitwise_and s _ := s;
  HoughLinesP _ := None;
  zeros _ _ := on_disk;
  line s _ _ := s;
  arcLength _ := 0;
  approxPolyDP c _ := c
|}.

Definition host : Host := {|
  path_exists _ := true;
  stem p := p;
  uuid4 n := Py.str n ++ "f3a9c2d47b1e4c6f8a0b5d9e1c3f7a2e"
|}.

(** A rectangle with corners on the pixel grid, as a contour. *)
Definition box (x y w h : Z) : contour := {|
  points := [ (x, y); (x, (y + h - 1)%Z);
              ((x + w - 1)%Z, (y + h - 1)%Z); ((x + w - 1)%Z, y) ];
  rect := (x, y, w, h);
  enclosed := Py.float ((w - 1) * (h - 1))
|}.

(** A 400 x 300 plan with one label of 30 x 12 pixels inside one room of
    200 x 150 pixels; every pixel is light. *)
Definition one_room : scene := {|
  rows := 300;
  cols := 400;
  light _ _ := true;
  found := [ box 180 140 30 12; box 100 75 200 150 ]
|}.

(** A blank plan: nothing is found on it. *)
Definition blank : scene := {|
  rows := 300;
  cols := 400;
  light _ _ := true;
  found := []
|}.

(** The same plan where only the columns from 220 on are light, and one
    that is all wall. *)
Definition light_on_the_right : scene := {|
  rows := 300;
  cols := 400;
  light _ c := (220 <=? c)%Z;
  found := [ box 180 140 30 12; box 100 75 200 150 ]
|}.

Definition all_wall : scene := {|
  rows := 300;
  cols := 400;
  light _ _ := false;
  found := [ box 180 140 30 12; box 100 75 200 150 ]
|}.

(** A plan of 501 x 100 pixels with a label of 14 x 9 pixels next to a
    hexagonal region of bounding box 20 x 10 and area 150.5: the rectangle
    of 19 x 9 without two corners of areas 12.5 and 8. *)
Definition sliver : scene := {|
  rows := 100;
  cols := 501;
  light _ _ := true;
  found :=
    [ box 33 36 14 9;
      {| points := [ (30, 35); (30, 40); (34, 44); (49, 44); (49, 40);
                     (44, 35) ]%Z;
         rect := (30, 35, 20, 10)%Z;
         enclosed := 150.5 |} ]
|}.

(** Rooms given by their bounding box and area. *)
Definition seed_room (x y w h area : Z) : RoomDetection.Room := {|
  RoomDetection.id := "room-00000000";
  RoomDetection.name := "Room";
  RoomDetection.type := "office";
  RoomDetection.x := x;
  RoomDetection.y := y;
  RoomDetection.width := w;
  RoomDetection.height := h;
  RoomDetection.area := area;
  RoomDetection.aspect_ratio := Py.float w / Py.float h;
  RoomDetection.confidence := 0.85;
  RoomDetection.contour := points (box x y w h)
|}.

Definition wall_room (x y w h : Z) (area : Q) : EnhancedRoomDetection.Room :=
  {|
  EnhancedRoomDetection.contour := points (box x y w h);
  EnhancedRoomDetection.x := x;
  EnhancedRoomDetection.y := y;
  EnhancedRoomDetection.width := w;
  EnhancedRoomDetection.height := h;
  EnhancedRoomDetection.area := area;
  EnhancedRoomDetection.aspect_ratio := Py.float w / Py.float h;
  EnhancedRoomDetection.type := "office";
  EnhancedRoomDetection.id := "room-00000000";
  EnhancedRoomDetection.name := "Room Office 0000";
  EnhancedRoomDetection.confidence := 0.85
|}.

End Synthetic.

(** ** The threshold bands of the classifiers, as the specification states
    them

    Each return statement of a classifier is a branch; its guard is the band
    of the relative area together with the condition on the aspect ratio,
    written as closed conditions that do not refer to the order in which the
    code tests them. *)

Module SeedBands.

Inductive Branch : Type :=
| VeryLargeElongated | VeryLargeOther
| LargeSquare | LargeElongated | LargeOther
| MediumSquare | MediumElongated | MediumOther
| SmallSquare | SmallElongated | SmallOther
| TinySquare | TinyElongated | TinyOther.

Definition square (r : Q) : Prop := 0.7 < r /\ r < 1.3.

Definition guard (b : Branch) (rel r : Q) : Prop :=
  match b with
  | VeryLargeElongated => 0.25 < rel /\ 3 < r
  | VeryLargeOther => 0.25 < rel /\ r <= 3
  | LargeSquare => (0.15 < rel /\ rel <= 0.25) /\ square r
  | LargeElongated => (0.15 < rel /\ rel <= 0.25) /\ 2 < r
  | LargeOther => (0.15 < rel /\ rel <= 0.25) /\ ~ square r /\ r <= 2
  | MediumSquare => (0.05 < rel /\ rel <= 0.15) /\ square r
  | MediumElongated => (0.05 < rel /\ rel <= 0.15) /\ 3 < r
  | MediumOther => (0.05 < rel /\ rel <= 0.15) /\ ~ square r /\ r <= 3
  | SmallSquare => (0.02 < rel /\ rel <= 0.05) /\ square r
  | SmallElongated => (0.02 < rel /\ rel <= 0.05) /\ 2.5 < r
  | SmallOther => (0.02 < rel /\ rel <= 0.05) /\ ~ square r /\ r <= 2.5
  | TinySquare => rel <= 0.02 /\ square r
  | TinyElongated => rel <= 0.02 /\ 3 < r
  | TinyOther => rel <= 0.02 /\ ~ square r /\ r <= 3
  end.

Definition label (b : Branch) : string :=
  match b with
  | VeryLargeElongated => "hallway"
  | VeryLargeOther => "hall"
  | LargeSquare => "conference"
  | LargeElongated => "hallway"
  | LargeOther => "classroom"
  | MediumSquare => "office"
  | MediumElongated => "hallway"
  | MediumOther => "laboratory"
  | SmallSquare => "storage"
  | SmallElongated => "corridor"
  | SmallOther => "office"
  | TinySquare => "utility"
  | TinyElongated => "corridor"
  | TinyOther => "storage"
  end.

(** The labels the classifier can return. *)
Definition labels : list string :=
  [ "hallway"; "hall"; "conference"; "classroom"; "office"; "laboratory";
    "storage"; "corridor"; "utility" ].

End SeedBands.

Module WallBands.

Inductive Branch : Type :=
| LargeSquare | LargeOther
| MediumSquare | MediumElongated | MediumOther
| SmallSquare | SmallOther
| TinyElongated | TinyOther.

Definition square (r : Q) : Prop := 0.75 < r /\ r < 1.5.

Definition guard (b : Branch) (rel r : Q) : Prop :=
  match b with
  | LargeSquare => 0.15 < rel /\ square r
  | LargeOther => 0.15 < rel /\ ~ square r
  | MediumSquare => (0.05 < rel /\ rel <= 0.15) /\ square r
  | MediumElongated => (0.05 < rel /\ rel <= 0.15) /\ 3 < r
  | MediumOther => (0.05 < rel /\ rel <= 0.15) /\ ~ square r /\ r <= 3
  | SmallSquare => (0.01 < rel /\ rel <= 0.05) /\ square r
  | SmallOther => (0.01 < rel /\ rel <= 0.05) /\ ~ square r
  | TinyElongated => rel <= 0.01 /\ 3 < r
  | TinyOther => rel <= 0.01 /\ r <= 3
  end.

Definition label (b : Branch) : string :=
  match b with
  | LargeSquare => "office"
  | LargeOther => "classroom"
  | MediumSquare => "conference"
  | MediumElongated => "hallway"
  | MediumOther => "classroom"
  | SmallSquare => "storage"
  | SmallOther => "restroom"
  | TinyElongated => "hallway"
  | TinyOther => "utility"
  end.

End WallBands.

(** ** The seed probes, as the specification states them *)

Module SeedProbe.
Section Probe.
Context {cv : OpenCV}.

(** A seed candidate qualifies when it lies inside the image bounds and on a
    pixel of value 255 of the binarised image. *)
Definition qualifies (image : Image) (p : Z * Z) : Prop :=
  let '(height, width) := shape image in
  let '(sx, sy) := p in
  (0 <= sx < width)%Z /\ (0 <= sy < height)%Z
  /\ pixel (RoomDetection.binarize image) sy sx = 255%Z.

End Probe.
End SeedProbe.

(** ** The overlap resolver, as the specification states it *)

Module Resolver.
Section Spec.
Context {A : Type}.

(** [exceeds c e]: the intersection of the bounding boxes of the candidate
    [c] and of the accepted room [e] exceeds the configured fraction of the
    smaller of the two areas.  [reaches c e]: it is at least that
    fraction. *)
Variable exceeds : A -> A -> Prop.
Variable reaches : A -> A -> Prop.


End Spec.

(** The seed-anchored resolver: more than 0.7 of the smaller area. *)
Definition seed_exceeds (c e : RoomDetection.Room) : Prop :=
  0.7 * Qmin (Py.float (RoomDetection.area c))
          (Py.float (RoomDetection.area e))
  < Py.float (RoomDetection.overlap_area c e).

(** The seed-anchored resolver: at least 0.7 of the smaller area. *)
Definition seed_reaches (c e : RoomDetection.Room) : Prop :=
  0.7 * Qmin (Py.float (RoomDetection.area c))
          (Py.float (RoomDetection.area e))
  <= Py.float (RoomDetection.overlap_area c e).

(** The areas, in pixels, up to which the rounding of the double product
    [0.7 * area] stays below a tenth of a pixel: [2^48]. *)
Definition exact_area : Z := 281474976710656.

(** The wall-reconstruction resolver: more than 0.6 of the smaller area. *)
Definition wall_exceeds (c e : EnhancedRoomDetection.Room) : Prop :=
  0.6 * Qmin (EnhancedRoomDetection.area c) (EnhancedRoomDetection.area e)
  < Py.float (EnhancedRoomDetection.overlap_area c e).

End Resolver.

(** ** The candidate filter, as the specification states it *)

Module Filter.
Section Spec.
Context {cv : OpenCV}.

(** A room record of the seed-anchored script that comes from a contour
    whose measured area and aspect ratio lie strictly inside the bands; the
    record holds the measured area cut to an integer. *)
Definition built_from (total_area : Z) (r : RoomDetection.Room) : Prop :=
  exists c : Contour,
    RoomDetection.contour r = tolist c
    /\ RoomDetection.area r = Py.int (contourArea c)
    /\ Py.float total_area * 0.003 < contourArea c
    /\ contourArea c < Py.float total_area * 0.6
    /\ 0.1 < RoomDetection.aspect_ratio r
    /\ RoomDetection.aspect_ratio r < 10.

(** The polygons that [process_floor_plan] finds on a loaded image: its
    steps 2 to 7. *)
Definition polygons_of (original_image : Image)
  : list EnhancedRoomDetection.Polygon :=
  EnhancedRoomDetection.find_room_polygons
    (EnhancedRoomDetection.apply_hough_transform
       (EnhancedRoomDetection.determine_region_of_interest
          (EnhancedRoomDetection.edge_detection
             (EnhancedRoomDetection.apply_gaussian_smoothing
                (EnhancedRoomDetection.color_selection original_image)))))
    (shape original_image).

End Spec.

(** A polygon of the wall-reconstruction script inside the bands. *)
Definition in_bands (total_area : Z) (area aspect_ratio : Q) : Prop :=
  Py.float total_area * 0.003 < area
  /\ area < Py.float total_area * 0.5
  /\ 0.2 < aspect_ratio
  /\ aspect_ratio < 5.

End Filter.

(** ** Order-preserving selection *)

Module Selection.
Section Spec.
Context {A : Type}.

(** [subsequence kept l]: [kept] is [l] with some elements left out, the
    others in their order. *)
Inductive subsequence : list A -> list A -> Prop :=
| sub_nil : subsequence [] []
| sub_skip (a : A) (kept l : list A) :
    subsequence kept l -> subsequence kept (a :: l)
| sub_keep (a : A) (kept l : list A) :
    subsequence kept l -> subsequence (a :: kept) (a :: l).

End Spec.
End Selection.

(** ** Synthetic failures of the host *)

Module SyntheticFailures.

(** A host without any file. *)
Definition no_files : Host := {|
  path_exists _ := false;
  stem p := p;
  uuid4 n := Py.str n ++ "f3a9c2d47b1e4c6f8a0b5d9e1c3f7a2e"
|}.

(** The synthetic library on a disk whose files do not decode. *)
Definition unreadable : OpenCV := {|
  Image := Synthetic.scene;
  Raster := Synthetic.scene;
  Contour := Synthetic.contour;
  shape s := (Synthetic.rows s, Synthetic.cols s);
  raster_shape s := (Synthetic.rows s, Synthetic.cols s);
  pixel s r c := if Synthetic.light s r c then 255%Z else 0%Z;
  imread _ := None;
  cvtColor_BGR2RGB s := s;
  cvtColor_RGB2GRAY s := s;
  cvtColor_BGR2GRAY s := s;
  threshold s _ _ _ := s;
  adaptiveThreshold s := s;
  morphologyEx s _ _ := s;
  floodFill s _ _ := s;
  inRange s _ _ := s;
  rectangle s _ _ _ := s;
  findContours s := Synthetic.found s;
  boundingRect c := Synthetic.rect c;
  contourArea c := Synthetic.enclosed c;
  tolist c := Synthetic.points c;
  GaussianBlur s := s;
  Canny s := s;
  dilate s := s;
  zeros_like s := s;
  fillPoly s _ _ := s;
  bitwise_and s _ := s;
  HoughLinesP _ := None;
  zeros _ _ := Synthetic.blank;
  line s _ _ := s;
  arcLength _ := 0;
  approxPolyDP c _ := c
|}.

End SyntheticFailures.

(** ** More of Python and of the libraries, for the other scripts *)

Module PyStr.

(** [s.startswith(prefix)] and [s.endswith(suffix)] *)
Definition startswith (s prefix : string) : bool := String.prefix prefix s.

Definition endswith (s suffix : string) : bool :=
  let n := String.length s in
  let m := String.length suffix in
  (m <=? n)%nat && String.eqb (String.substring (n - m) m s) suffix.

(** [s.endswith((suffix1, suffix2, ...))] *)
Definition endswith_any (s : string) (suffixes : list string) : bool :=
  existsb (endswith s) suffixes.

(** [s.replace(old, new)] for single characters [old] and [new]. *)
Fixpoint replace (s : string) (old new : ascii) : string :=
  match s with
  | EmptyString => EmptyString
  | String c s' =>
      String (if Ascii.eqb c old then new else c) (replace s' old new)
  end.

End PyStr.

(** The file system calls of the batch loops: [os.path.exists],
    [os.listdir], [os.path.join] and [os.path.splitext]. *)
Class FileSystem : Type := {
  dir_exists : string -> bool;
  listdir : string -> list string;
  join : list string -> string;
  splitext : string -> string * string
}.

(** The [cv2], [numpy] and [pytesseract] operations of the preprocessing
    scripts that the detection scripts do not use. *)
Class Preprocessing (cv : OpenCV) : Type := {
  (** [cv2.rotate(image, cv2.ROTATE_90_CLOCKWISE)] *)
  rotate_90_clockwise : Image -> Image;
  (** [np.ones(shape, dtype=np.uint8) * 255] *)
  ones_times_255 : Z * Z -> Raster;
  (** [cleaned = image.copy(); cleaned[mask == 0] = [255, 255, 255]] *)
  whiten_where_zero : Image -> Raster -> Image;
  (** [pytesseract.image_to_string(gray[y:y+h, x:x+w]).strip()] *)
  image_to_string : Raster -> Z * Z * Z * Z -> string;
  (** [any(re.search(pattern, text, re.IGNORECASE)
           for pattern in TEXT_PATTERNS)] *)
  matches_text_pattern : string -> bool;
  (** [cv2.drawContours(mask, [contour], -1, 255, -1)], the array after the
      drawing *)
  drawContours_filled : Raster -> Contour -> Raster;
  (** [cv2.dilate(mask, np.ones((k, k)), iterations=n)] *)
  dilate_by : Raster -> Z -> Z -> Raster;
  (** [cv2.inpaint(image, mask, 7, cv2.INPAINT_NS)] *)
  inpaint : Image -> Raster -> Image;
  bitwise_not : Raster -> Raster;
  (** [result[:, :, c] = cv2.bitwise_and(result[:, :, c], result[:, :, c],
      mask=m)] for each channel [c] *)
  mask_channels : Image -> Raster -> Image;
  (** [result[:, :, c] = np.where(mask == 255, 255, result[:, :, c])] for
      each channel [c] *)
  whiten_where_255 : Image -> Raster -> Image;
  (** [result[start:stop, :] = 255] and [result[:, start:stop] = 255], with
      [None] for an omitted bound *)
  whiten_rows : Image -> option Z -> option Z -> Image;
  whiten_cols : Image -> option Z -> option Z -> Image
}.

(** [cv2.cvtColor(image, cv2.COLOR_BGR2GRAY)] on an image that may be empty:
    OpenCV raises [cv2.error] for an image without rows or without
    columns. *)
Definition cvtColor_gray {cv : OpenCV} (image : Image) : result Raster :=
  let '(height, width) := shape image in
  if (Z.eqb height 0 || Z.eqb width 0)%bool then Raise CvError
  else Ok (cvtColor_BGR2GRAY image).


(** ** The palettes of the visualisations *)

Module Visualization.

(** [room_colors] of [create_room_visualization] in [roomDetection.py]. *)
Definition seed_room_colors : list (Z * Z * Z) :=
  [ (255, 0, 0); (0, 255, 0); (0, 0, 255); (255, 0, 255); (0, 255, 255);
    (255, 255, 0); (128, 0, 128); (0, 128, 0); (128, 0, 0); (0, 0, 128);
    (128, 128, 0); (0, 128, 128); (255, 165, 0); (75, 0, 130) ]%Z.

(** [room_colors] of [create_visualization] in
    [enhancedRoomDetection.py]. *)
Definition wall_room_colors : list (Z * Z * Z) :=
  [ (0, 255, 0); (0, 0, 255); (255, 0, 0); (255, 255, 0); (0, 255, 255);
    (255, 0, 255); (128, 128, 0); (0, 128, 128); (128, 0, 128) ]%Z.

(** [room_colors[i % len(room_colors)]]; [None] stands for the
    [IndexError] of an index out of range. *)
Definition color_of (room_colors : list (Z * Z * Z)) (i : nat)
  : option (Z * Z * Z) :=
  nth_error room_colors (i mod List.length room_colors).

End Visualization.

(** ** The text remover, [server/scripts/processFloorplans.py] *)

Module TextRemover.

Section Script.
Context {cv : OpenCV} {pre : Preprocessing cv} {fs : FileSystem}.

(** The loop of [identify_text_regions] over the contours found. *)
Fixpoint text_regions_of (gray : Raster) (contours : list Contour)
  : list (Z * Z * Z * Z) :=
  match contours with
  | [] => []
  | contour :: rest =>
      let '(x, y, w, h) := boundingRect contour in
      if ((w <? 20)%Z || (h <? 10)%Z)%bool then text_regions_of gray rest
      else
        let text := image_to_string gray (x, y, w, h) in
        if (negb (String.eqb text "") && matches_text_pattern text)%bool
        then (x, y, w, h) :: text_regions_of gray rest
        else text_regions_of gray rest
  end.

(** [identify_text_regions(image)] *)
Definition identify_text_regions (image : Image) : list (Z * Z * Z * Z) :=
  let gray := cvtColor_BGR2GRAY image in
  let binary := threshold gray 150 255 THRESH_BINARY_INV in
  let contours := findContours binary in
  text_regions_of gray contours.

(** The corners of the rectangle that [remove_text] draws for a region. *)
Definition padded_corners (image_shape : Z * Z) (region : Z * Z * Z * Z)
  : (Z * Z) * (Z * Z) :=
  let '(x, y, w, h) := region in
  let x_pad := Py.int (Py.float w * 0.1) in
  let y_pad := Py.int (Py.float h * 0.1) in
  ((Z.max 0 (x - x_pad), Z.max 0 (y - y_pad)),
   (Z.min (snd image_shape) (x + w + x_pad),
    Z.min (fst image_shape) (y + h + y_pad)))%Z.

(** [remove_text(image, text_regions)] *)
Definition remove_text (image : Image)
  (text_regions : list (Z * Z * Z * Z)) : Image :=
  let mask := ones_times_255 (shape image) in
  let mask :=
    fold_left
      (fun mask region =>
         let '(p1, p2) := padded_corners (shape image) region in
         rectangle mask p1 p2 0)
      text_regions mask in
  whiten_where_zero image mask.

(** [ensure_landscape(image)] *)
Definition ensure_landscape (image : Image) : Image :=
  let '(h, w) := shape image in
  if (h >? w)%Z then rotate_90_clockwise image else image.


End Script.

End TextRemover.

(** ** The wall isolation script, [server/src/scripts/processFloorplans.py] *)

Module WallIsolation.

Section Script.
Context {cv : OpenCV} {pre : Preprocessing cv}.

(** The test [is_likely_text] of [remove_text_and_symbols] for a contour of
    bounding box [(x, y, w, h)] and area [area] on a grayscale image of
    shape [gray_shape]; the unused [height_ratio] is computed before it. *)
Definition is_likely_text (gray_shape : Z * Z) (box : Z * Z * Z * Z)
  (area : Q) : result bool :=
  let '(x, y, w, h) := box in
  let aspect_ratio := if (0 <? h)%Z then Py.float w / Py.float h else 0 in
  let solidity := if (0 <? w * h)%Z then area / Py.float (w * h) else 0 in
  height_ratio <- Py.truediv (Py.float h) (Py.float (fst gray_shape)) ;;
  Ok (((area <? 800) && (solidity >? 0.3))
      || ((area <? 3000) && ((0.5 <? aspect_ratio) && (aspect_ratio <? 8))
          && (solidity >? 0.3))
      || (((y <? 100)%Z || (y >? fst gray_shape - 100)%Z
           || (x <? 100)%Z || (x >? snd gray_shape - 100)%Z)
          && (area <? 3000)))%bool.

(** The corners of the strip drawn for a text contour near the top or the
    bottom of the image. *)
Definition header_strip (gray_shape : Z * Z) (box : Z * Z * Z * Z)
  : (Z * Z) * (Z * Z) :=
  let '(x, y, w, h) := box in
  ((Z.max 0 (x - 50), y),
   (Z.min (snd gray_shape) (x + w + 50), (y + h)))%Z.

(** The contour loop of [remove_text_and_symbols]: the text mask. *)
Fixpoint text_mask_of (gray_shape : Z * Z) (contours : list Contour)
  (text_mask : Raster) : result Raster :=
  match contours with
  | [] => Ok text_mask
  | contour :: rest =>
      let '(x, y, w, h) := boundingRect contour in
      let area := contourArea contour in
      likely <- is_likely_text gray_shape (x, y, w, h) area ;;
      if likely then
        let text_mask := drawContours_filled text_mask contour in
        let text_mask :=
          if ((y <? 150)%Z || (y >? fst gray_shape - 150)%Z)%bool then
            let '(p1, p2) := header_strip gray_shape (x, y, w, h) in
            rectangle text_mask p1 p2 255
          else text_mask in
        text_mask_of gray_shape rest text_mask
      else text_mask_of gray_shape rest text_mask
  end.

(** [remove_text_and_symbols(image)] *)
Definition remove_text_and_symbols (image : Image) : result Image :=
  gray <- cvtColor_gray image ;;
  let binary := threshold gray 150 255 THRESH_BINARY_INV in
  let opened := morphologyEx binary MORPH_OPEN 2 in
  let contours := findContours opened in
  let text_mask := zeros_like gray in
  text_mask <- text_mask_of (raster_shape gray) contours text_mask ;;
  let dilated_mask := dilate_by text_mask 5 3 in
  Ok (inpaint image dilated_mask).

End Script.

End WallIsolation.

(** ** The preprocessing script, [server/src/scripts/preprocessFloorplans.py] *)

Module Preprocess.

Section Script.
Context {cv : OpenCV} {pre : Preprocessing cv}.

(** The contour loop of [remove_text_regions]: the mask of the text. *)
Fixpoint text_mask_of (contours : list Contour) (mask : Raster) : Raster :=
  match contours with
  | [] => mask
  | contour :: rest =>
      let '(x, y, w, h) := boundingRect contour in
      let area := contourArea contour in
      let aspect_ratio :=
        if (0 <? h)%Z then Py.float w / Py.float h else 0 in
      if (((area <? 1000) && (area >? 50))
          && ((aspect_ratio >? 0.2) && (aspect_ratio <? 5.0)))%bool
      then text_mask_of rest (drawContours_filled mask contour)
      else text_mask_of rest mask
  end.

(** [remove_text_regions(image)] *)
Definition remove_text_regions (image : Image) : result Image :=
  gray <- cvtColor_gray image ;;
  let binary := threshold gray 180 255 THRESH_BINARY_INV in
  let contours := findContours binary in
  let mask := zeros_like gray in
  let mask := text_mask_of contours mask in
  let mask := dilate_by mask 5 2 in
  let result := mask_channels image (bitwise_not mask) in
  let result := whiten_where_255 result mask in
  let '(h, w) := shape image in
  let result :=
    whiten_rows result (Some (Py.int (Py.float h * 0.9))) None in
  let result :=
    whiten_rows result None (Some (Py.int (Py.float h * 0.1))) in
  let result :=
    whiten_cols result None (Some (Py.int (Py.float w * 0.05))) in
  Ok (whiten_cols result (Some (Py.int (Py.float w * 0.95))) None).

End Script.

End Preprocess.

(** ** The batch loops of the two detection scripts *)

Module Batch.

(** What a batch run leaves behind for one file: the record written, or the
    error message printed by the [except] clause. *)
Inductive effect (R : Type) : Type :=
| Written (image_path : string) (record : R)
| Reported (filename : string) (e : exn).

Arguments Written {R} image_path record.
Arguments Reported {R} filename e.

Section Script.
Context {cv : OpenCV} {host : Host} {fs : FileSystem}.

(** [FLOORPLAN_DIR] of [roomDetection.py] *)
Definition FLOORPLAN_DIR : string := join ["client"; "public"; "floorplan"].

(** The loop of [process_all_floorplans] in [roomDetection.py]. *)
Fixpoint seed_loop (filenames : list string)
  (log : list (effect RoomDetection.Result.t))
  : list (effect RoomDetection.Result.t) :=
  match filenames with
  | [] => log
  | filename :: rest =>
      if (PyStr.endswith_any filename [".jpg"; ".jpeg"; ".png"]
          && negb (PyStr.startswith filename "placeholder"))%bool
      then
        let image_path := join [FLOORPLAN_DIR; filename] in
        match RoomDetection.process_floorplan image_path with
        | Ok (record, _) =>
            seed_loop rest (log ++ [Written image_path record])%list
        | Raise e => seed_loop rest (log ++ [Reported filename e])%list
        end
      else seed_loop rest log
  end.

(** [process_all_floorplans()] of [roomDetection.py] *)
Definition process_all_floorplans
  : list (effect RoomDetection.Result.t) :=
  if negb (dir_exists FLOORPLAN_DIR) then []
  else seed_loop (listdir FLOORPLAN_DIR) [].

(** [SOURCE_DIR] of [enhancedRoomDetection.py], below the workspace root. *)
Definition SOURCE_DIR (WORKSPACE_ROOT : string) : string :=
  join [WORKSPACE_ROOT; "client"; "public"; "floorplan"].

(** The list [floor_plans] of [process_all_floor_plans]. *)
Definition floor_plans (WORKSPACE_ROOT : string) : list string :=
  filter
    (fun f =>
       PyStr.endswith_any (Py.lower f) [".jpg"; ".jpeg"; ".png"]
       && negb (PyStr.startswith f "placeholder")
       && Py.contains "processed" f)%bool
    (listdir (SOURCE_DIR WORKSPACE_ROOT)).

(** The loop of [process_all_floor_plans] in [enhancedRoomDetection.py]. *)
Fixpoint wall_loop (WORKSPACE_ROOT : string) (filenames : list string)
  (log : list (effect EnhancedRoomDetection.Result.t))
  : list (effect EnhancedRoomDetection.Result.t) :=
  match filenames with
  | [] => log
  | filename :: rest =>
      let image_path := join [SOURCE_DIR WORKSPACE_ROOT; filename] in
      match EnhancedRoomDetection.process_floor_plan image_path with
      | Ok (record, _) =>
          wall_loop WORKSPACE_ROOT rest
            (log ++ [Written image_path record])%list
      | Raise e =>
          wall_loop WORKSPACE_ROOT rest (log ++ [Reported filename e])%list
      end
  end.

(** [process_all_floor_plans()] of [enhancedRoomDetection.py] *)
Definition process_all_floor_plans (WORKSPACE_ROOT : string)
  : list (effect EnhancedRoomDetection.Result.t) :=
  if negb (dir_exists (SOURCE_DIR WORKSPACE_ROOT)) then []
  else wall_loop WORKSPACE_ROOT (floor_plans WORKSPACE_ROOT) [].

End Script.

End Batch.

(** ** Synthetic implementations for the other scripts *)

Module SyntheticScripts.

(** [start <= i < stop], an omitted bound of the slice not restricting. *)
Definition in_slice (start stop : option Z) (i : Z) : bool :=
  match start with Some a => Z.leb a i | None => true end
  && match stop with Some b => Z.ltb i b | None => true end.

(** The quarter turn of a synthetic image exchanges its height and width,
    and whitening a slice makes its rows or columns light; the other
    operations leave the image unchanged, and the text recogniser reads the
    same caption in every region. *)
Definition preprocessing (on_disk : Synthetic.scene)
  : Preprocessing (Synthetic.opencv on_disk) := {|
  rotate_90_clockwise (s : @Image (Synthetic.opencv on_disk)) :=
    {| Synthetic.rows := Synthetic.cols s;
       Synthetic.cols := Synthetic.rows s;
       Synthetic.light r c :=
         Synthetic.light s (Synthetic.rows s - 1 - c)%Z r;
       Synthetic.found := Synthetic.found s |};
  ones_times_255 _ := on_disk;
  whiten_where_zero s _ := s;
  image_to_string _ _ := "Figure 3";
  matches_text_pattern text := String.prefix "Figure" text;
  drawContours_filled s _ := s;
  dilate_by s _ _ := s;
  inpaint s _ := s;
  bitwise_not s := s;
  mask_channels s _ := s;
  whiten_where_255 s _ := s;
  whiten_rows (s : @Image (Synthetic.opencv on_disk)) start stop :=
    {| Synthetic.rows := Synthetic.rows s;
       Synthetic.cols := Synthetic.cols s;
       Synthetic.light r c := in_slice start stop r || Synthetic.light s r c;
       Synthetic.found := Synthetic.found s |};
  whiten_cols (s : @Image (Synthetic.opencv on_disk)) start stop :=
    {| Synthetic.rows := Synthetic.rows s;
       Synthetic.cols := Synthetic.cols s;
       Synthetic.light r c := in_slice start stop c || Synthetic.light s r c;
       Synthetic.found := Synthetic.found s |}
|}.

(** A portrait plan of 400 x 300 pixels with one caption box. *)
Definition portrait : Synthetic.scene := {|
  Synthetic.rows := 400;
  Synthetic.cols := 300;
  Synthetic.light _ _ := true;
  Synthetic.found := [ Synthetic.box 100 380 60 12; Synthetic.box 5 5 8 8 ]
|}.

(** The same plan with every pixel dark and nothing found on it, and a
    plan without rows. *)
Definition dark_portrait : Synthetic.scene := {|
  Synthetic.rows := 400;
  Synthetic.cols := 300;
  Synthetic.light _ _ := false;
  Synthetic.found := []
|}.

Definition no_rows : Synthetic.scene := {|
  Synthetic.rows := 0;
  Synthetic.cols := 300;
  Synthetic.light _ _ := true;
  Synthetic.found := [ Synthetic.box 100 380 60 12 ]
|}.

(** A directory with four entries; paths are joined with a slash and the
    extension of a name is its last four characters. *)
Definition files : FileSystem := {|
  dir_exists _ := true;
  listdir _ :=
    [ "ground_floor.png"; "placeholder.png"; "notes.txt";
      "second_floor_processed.jpg" ];
  join parts := String.concat "/" parts;
  splitext name :=
    (String.substring 0 (String.length name - 4) name,
     String.substring (String.length name - 4) 4 name)
|}.

End SyntheticScripts.

(** * Properties *)

Open Scope list_scope.

(** ** Comparisons and conversions *)

Lemma lt_true (x y : Q) : Py.lt x y = true <-> x < y.
Proof.
  unfold Py.lt. rewrite negb_true_iff.
  split.
  - intros H. apply Qnot_le_lt. intros Hle.
    apply Qle_bool_iff in Hle. congruence.
  - intros H. destruct (Qle_bool y x) eqn:E; [|reflexivity].
    apply Qle_bool_iff in E. exfalso. exact (Qlt_not_le _ _ H E).
Qed.

Lemma lt_false (x y : Q) : Py.lt x y = false <-> y <= x.
Proof.
  unfold Py.lt. rewrite negb_false_iff. apply Qle_bool_iff.
Qed.

Lemma gt_true (x y : Q) : Py.gt x y = true <-> y < x.
Proof. apply lt_true. Qed.

Lemma gt_false (x y : Q) : Py.gt x y = false <-> x <= y.
Proof. apply lt_false. Qed.

#[global] Instance lt_proper : Proper (Qeq ==> Qeq ==> eq) Py.lt.
Proof.
  intros x x' Hx y y' Hy. unfold Py.lt. now rewrite Hx, Hy.
Qed.

#[global] Instance gt_proper : Proper (Qeq ==> Qeq ==> eq) Py.gt.
Proof.
  intros x x' Hx y y' Hy. unfold Py.gt. now rewrite Hx, Hy.
Qed.

(** Turns every comparison met in the goal into a fact of the context. *)
Ltac split_lt :=
  repeat match goal with
  | |- context [Py.gt ?a ?b] =>
      let E := fresh "E" in
      destruct (Py.gt a b) eqn:E;
      [apply gt_true in E | apply gt_false in E]
  | |- context [Py.lt ?a ?b] =>
      let E := fresh "E" in
      destruct (Py.lt a b) eqn:E;
      [apply lt_true in E | apply lt_false in E]
  end.

Lemma truediv_ok (a b : Q) : ~ b == 0 -> Py.truediv a b = Ok (a / b).
Proof.
  intros H. unfold Py.truediv.
  destruct (Qeq_bool b 0) eqn:E; [|reflexivity].
  apply Qeq_bool_iff in E. contradiction.
Qed.

Lemma truediv_zero (a b : Q) :
  b == 0 -> Py.truediv a b = Raise ZeroDivisionError.
Proof.
  intros H. unfold Py.truediv. now rewrite (Qeq_eq_bool _ _ H).
Qed.

Lemma min_Qmin (a b : Q) : Py.min a b == Qmin a b.
Proof.
  unfold Py.min. destruct (Py.lt b a) eqn:E.
  - apply lt_true in E. symmetry. apply Q.min_r. now apply Qlt_le_weak.
  - apply lt_false in E. symmetry. now apply Q.min_l.
Qed.

Lemma float_min (a b : Z) :
  Py.float (Z.min a b) == Qmin (Py.float a) (Py.float b).
Proof.
  unfold Py.float. destruct (Z.min_spec a b) as [[H ->]|[H ->]].
  - symmetry. apply Q.min_l. rewrite <- Zle_Qle. lia.
  - symmetry. apply Q.min_r. rewrite <- Zle_Qle. lia.
Qed.

(** [int] of a non-negative float loses less than one unit. *)
Lemma int_bounds (q : Q) :
  0 <= q -> Py.float (Py.int q) <= q /\ q - 1 < Py.float (Py.int q).
Proof.
  intros Hq. unfold Py.int, Py.float.
  assert (Hn : (0 <= Qnum q)%Z).
  { destruct q as [n d]. unfold Qle in Hq. simpl in *. lia. }
  rewrite Z.quot_div_nonneg by lia.
  assert (Hf : (Qnum q / Z.pos (Qden q))%Z = Qfloor q) by now destruct q.
  rewrite Hf.
  split; [apply Qfloor_le|].
  pose proof (Qlt_floor q) as H.
  rewrite inject_Z_plus in H. change (inject_Z 1) with 1 in H. lra.
Qed.

(** ** The classifiers *)

Lemma seed_classify_proper (a a' r r' t t' : Q) :
  a == a' -> r == r' -> t == t' ->
  RoomDetection.classify_room_type a r t
  = RoomDetection.classify_room_type a' r' t'.
Proof.
  intros Ha Hr Ht. unfold RoomDetection.classify_room_type, Py.truediv.
  rewrite <- Ht. destruct (Qeq_bool t 0) eqn:E; [reflexivity|].
  apply Qeq_bool_neq in E. simpl.
  assert (Hrel : a / t == a' / t') by now rewrite Ha, Ht.
  rewrite <- !Hrel, <- !Hr. reflexivity.
Qed.

Lemma wall_classify_proper (a a' r r' t t' : Q) :
  a == a' -> r == r' -> t == t' ->
  EnhancedRoomDetection.classify_room_type a r t
  = EnhancedRoomDetection.classify_room_type a' r' t'.
Proof.
  intros Ha Hr Ht. unfold EnhancedRoomDetection.classify_room_type, Py.truediv.
  rewrite <- Ht. destruct (Qeq_bool t 0) eqn:E; [reflexivity|].
  apply Qeq_bool_neq in E. simpl.
  assert (Hrel : a / t == a' / t') by now rewrite Ha, Ht.
  rewrite <- !Hrel, <- !Hr. reflexivity.
Qed.

(** Closes a goal on the bands by linear arithmetic. *)
Ltac bands :=
  unfold SeedBands.guard, SeedBands.square, WallBands.guard, WallBands.square
    in *;
  simpl in *;
  repeat match goal with
  | H : _ /\ _ |- _ => destruct H
  | H : ~ (_ /\ _) |- _ => first [ exfalso; apply H; split; lra | clear H ]
  end;
  repeat split; try lra;
  try (intros [? ?]; lra).

(** Proposes a branch: its guard must hold and its label must be the one
    returned. *)
Ltac pick b :=
  exists b; split; [solve [bands] | split; [| reflexivity]].

Lemma seed_classify_branch (a r t : Q) :
  ~ t == 0 ->
  exists b,
    SeedBands.guard b (a / t) r
    /\ (forall b', SeedBands.guard b' (a / t) r -> b' = b)
    /\ RoomDetection.classify_room_type a r t = Ok (SeedBands.label b).
Proof.
  intros Ht. unfold RoomDetection.classify_room_type.
  rewrite (truediv_ok _ _ Ht). simpl. generalize (a / t). intros rel.
  split_lt; simpl; try (exfalso; lra);
  first
      [ pick SeedBands.VeryLargeElongated
      | pick SeedBands.VeryLargeOther
      | pick SeedBands.LargeSquare
      | pick SeedBands.LargeElongated
      | pick SeedBands.LargeOther
      | pick SeedBands.MediumSquare
      | pick SeedBands.MediumElongated
      | pick SeedBands.MediumOther
      | pick SeedBands.SmallSquare
      | pick SeedBands.SmallElongated
      | pick SeedBands.SmallOther
      | pick SeedBands.TinySquare
      | pick SeedBands.TinyElongated
      | pick SeedBands.TinyOther ];
  intros b' Hb'; destruct b'; try reflexivity; exfalso; bands.
Qed.

Lemma wall_classify_branch (a r t : Q) :
  ~ t == 0 ->
  exists b,
    WallBands.guard b (a / t) r
    /\ (forall b', WallBands.guard b' (a / t) r -> b' = b)
    /\ EnhancedRoomDetection.classify_room_type a r t
       = Ok (WallBands.label b).
Proof.
  intros Ht. unfold EnhancedRoomDetection.classify_room_type.
  rewrite (truediv_ok _ _ Ht). simpl. generalize (a / t). intros rel.
  split_lt; simpl; try (exfalso; lra);
  first
      [ pick WallBands.LargeSquare
      | pick WallBands.LargeOther
      | pick WallBands.MediumSquare
      | pick WallBands.MediumElongated
      | pick WallBands.MediumOther
      | pick WallBands.SmallSquare
      | pick WallBands.SmallOther
      | pick WallBands.TinyElongated
      | pick WallBands.TinyOther ];
  intros b' Hb'; destruct b'; try reflexivity; exfalso; bands.
Qed.

(** C5.  The classifiers are functions of the values of their arguments:
    applied to numerically equal [(area, aspect_ratio, total_area)] they give
    the same result.  When [total_area] is not zero, exactly one branch of
    the threshold bands has its guard satisfied, and the label returned is
    the label of that branch; this holds at the band boundaries as well. *)
Theorem classify_deterministic_one_branch :
  forall area aspect_ratio total_area area' aspect_ratio' total_area' : Q,
    area == area' -> aspect_ratio == aspect_ratio' ->
    total_area == total_area' ->
    RoomDetection.classify_room_type area aspect_ratio total_area
    = RoomDetection.classify_room_type area' aspect_ratio' total_area'
    /\ EnhancedRoomDetection.classify_room_type area aspect_ratio total_area
       = EnhancedRoomDetection.classify_room_type area' aspect_ratio'
           total_area'
    /\ (~ total_area == 0 ->
        (exists b,
            SeedBands.guard b (area / total_area) aspect_ratio
            /\ (forall b',
                   SeedBands.guard b' (area / total_area) aspect_ratio ->
                   b' = b)
            /\ RoomDetection.classify_room_type area aspect_ratio total_area
               = Ok (SeedBands.label b))
        /\ (exists b,
               WallBands.guard b (area / total_area) aspect_ratio
               /\ (forall b',
                      WallBands.guard b' (area / total_area) aspect_ratio ->
                      b' = b)
               /\ EnhancedRoomDetection.classify_room_type area aspect_ratio
                    total_area
                  = Ok (WallBands.label b))).
Proof.
  intros a r t a' r' t' Ha Hr Ht.
  split; [now apply seed_classify_proper|].
  split; [now apply wall_classify_proper|].
  intros Hnz. split.
  - now apply seed_classify_branch.
  - now apply wall_classify_branch.
Qed.

(** At the boundary [area / total_area == 0.15], reached here as 15/100 and
    as 30/200, both classifiers take the branch of the medium band. *)
Lemma classify_deterministic_one_branch_witness :
  15 == 30 / 2 /\ 1 == 1 /\ 100 == 200 / 2 /\ ~ 100 == 0
  /\ RoomDetection.classify_room_type 15 1 100
     = RoomDetection.classify_room_type (30 / 2) 1 (200 / 2)
  /\ RoomDetection.classify_room_type 15 1 100 = Ok "office"
  /\ EnhancedRoomDetection.classify_room_type 15 1 100 = Ok "conference"
  /\ (forall b, SeedBands.guard b (15 / 100) 1 -> b = SeedBands.MediumSquare)
  /\ (forall b, WallBands.guard b (15 / 100) 1 -> b = WallBands.MediumSquare).
Proof.
  assert (H1 : 15 == 30 / 2) by reflexivity.
  assert (H2 : 1 == 1) by reflexivity.
  assert (H3 : 100 == 200 / 2) by reflexivity.
  assert (H4 : ~ 100 == 0) by (intros H; discriminate H).
  destruct (classify_deterministic_one_branch 15 1 100 (30 / 2) 1 (200 / 2)
              H1 H2 H3) as [Hs [_ Hb]].
  destruct (Hb H4) as [[bs [Gs [Us Ls]]] [bw [Gw [Uw Lw]]]].
  repeat split; try assumption; try reflexivity.
  - intros b Hg. rewrite (Us b Hg).
    symmetry. apply Us. repeat split; now vm_compute.
  - intros b Hg. rewrite (Uw b Hg).
    symmetry. apply Uw. repeat split; now vm_compute.
Defined.

(** C6.  Under the wall-reconstruction classifier a candidate whose area is
    0.25 of [total_area] and whose aspect ratio is 200/150 is an office. *)
Theorem reference_room_is_office :
  forall area aspect_ratio total_area : Q,
    ~ total_area == 0 ->
    area == 0.25 * total_area ->
    aspect_ratio == Py.float 200 / Py.float 150 ->
    EnhancedRoomDetection.classify_room_type area aspect_ratio total_area
    = Ok "office".
Proof.
  intros a r t Ht Ha Hr.
  assert (Hrel : a / t == 0.25) by (rewrite Ha; field; exact Ht).
  assert (Hr' : r == 4 / 3) by (rewrite Hr; reflexivity).
  unfold EnhancedRoomDetection.classify_room_type.
  rewrite (truediv_ok _ _ Ht). simpl.
  rewrite Hrel, Hr'. reflexivity.
Qed.

(** The 200 x 150 room of the 400 x 300 image. *)
Lemma reference_room_is_office_witness :
  ~ Py.float (400 * 300) == 0
  /\ Py.float (200 * 150) == 0.25 * Py.float (400 * 300)
  /\ EnhancedRoomDetection.classify_room_type
       (Py.float (200 * 150)) (Py.float 200 / Py.float 150)
       (Py.float (400 * 300))
     = Ok "office".
Proof.
  assert (H1 : ~ Py.float (400 * 300) == 0) by (intros H; discriminate H).
  assert (H2 : Py.float (200 * 150) == 0.25 * Py.float (400 * 300))
    by reflexivity.
  split; [exact H1|]. split; [exact H2|].
  apply (reference_room_is_office _ _ _ H1 H2). reflexivity.
Defined.

(** C10.  For every [area] and [aspect_ratio] and every [total_area] other
    than zero each classifier returns a label of its fixed finite set: the
    nine labels of the seed-anchored classifier, the values of [ROOM_TYPES]
    for the wall-reconstruction classifier.  At [total_area] zero the
    division raises [ZeroDivisionError] and no label is returned. *)
Theorem classify_total_on_nonzero_area :
  forall area aspect_ratio total_area : Q,
    (~ total_area == 0 ->
     (exists l,
         RoomDetection.classify_room_type area aspect_ratio total_area = Ok l
         /\ In l SeedBands.labels)
     /\ (exists l,
            EnhancedRoomDetection.classify_room_type area aspect_ratio
              total_area = Ok l
            /\ In l (map snd EnhancedRoomDetection.ROOM_TYPES)))
    /\ (total_area == 0 ->
        RoomDetection.classify_room_type area aspect_ratio total_area
        = Raise ZeroDivisionError
        /\ EnhancedRoomDetection.classify_room_type area aspect_ratio
             total_area
           = Raise ZeroDivisionError).
Proof.
  intros a r t. split.
  - intros Ht. split.
    + destruct (seed_classify_branch a r t Ht) as [b [_ [_ Hb]]].
      exists (SeedBands.label b). split; [exact Hb|].
      destruct b; simpl; tauto.
    + destruct (wall_classify_branch a r t Ht) as [b [_ [_ Hb]]].
      exists (WallBands.label b). split; [exact Hb|].
      destruct b; simpl; tauto.
  - intros Ht.
    unfold RoomDetection.classify_room_type,
      EnhancedRoomDetection.classify_room_type.
    rewrite (truediv_zero _ _ Ht). split; reflexivity.
Qed.

Lemma classify_total_on_nonzero_area_witness :
  (~ 1000 == 0
   /\ RoomDetection.classify_room_type 30 4 1000 = Ok "corridor"
   /\ EnhancedRoomDetection.classify_room_type 30 4 1000 = Ok "restroom")
  /\ (0 == 0
      /\ RoomDetection.classify_room_type 30 4 0 = Raise ZeroDivisionError
      /\ EnhancedRoomDetection.classify_room_type 30 4 0
         = Raise ZeroDivisionError).
Proof.
  assert (H1 : ~ 1000 == 0) by (intros H; discriminate H).
  assert (H0 : 0 == 0) by reflexivity.
  split.
  - destruct (proj1 (classify_total_on_nonzero_area 30 4 1000) H1)
      as [[ls [Hs _]] [lw [Hw _]]].
    split; [exact H1|]. split; reflexivity.
  - split; [exact H0|].
    exact (proj2 (classify_total_on_nonzero_area 30 4 0) H0).
Defined.

(** ** The region locator of the seed-anchored script *)

Section SeedLocator.
Context {cv : OpenCV}.

Lemma first_seed_head (binary : Raster) (width height sx sy : Z)
  (rest : list (Z * Z)) :
  (0 <= sx < width)%Z -> (0 <= sy < height)%Z ->
  pixel binary sy sx = 255%Z ->
  RoomDetection.first_seed binary width height ((sx, sy) :: rest)
  = Some (sx, sy).
Proof.
  intros Hx Hy Hp. simpl. rewrite Hp.
  replace (0 <=? sx)%Z with true by (symmetry; apply Z.leb_le; lia).
  replace (sx <? width)%Z with true by (symmetry; apply Z.ltb_lt; lia).
  replace (0 <=? sy)%Z with true by (symmetry; apply Z.leb_le; lia).
  replace (sy <? height)%Z with true by (symmetry; apply Z.ltb_lt; lia).
  reflexivity.
Qed.

Lemma first_seed_skip (binary : Raster) (width height sx sy : Z)
  (rest : list (Z * Z)) :
  ~ ((0 <= sx < width)%Z /\ (0 <= sy < height)%Z
     /\ pixel binary sy sx = 255%Z) ->
  RoomDetection.first_seed binary width height ((sx, sy) :: rest)
  = RoomDetection.first_seed binary width height rest.
Proof.
  intros Hn. simpl.
  destruct ((0 <=? sx)%Z && (sx <? width)%Z && (0 <=? sy)%Z
            && (sy <? height)%Z && (pixel binary sy sx =? 255)%Z)%bool
    eqn:E; [|reflexivity].
  exfalso. apply Hn.
  repeat (apply andb_true_iff in E; destruct E as [E ?]).
  apply Z.leb_le in E.
  repeat match goal with
  | H : (_ <? _)%Z = true |- _ => apply Z.ltb_lt in H
  | H : (_ <=? _)%Z = true |- _ => apply Z.leb_le in H
  | H : (_ =? _)%Z = true |- _ => apply Z.eqb_eq in H
  end.
  repeat split; assumption.
Qed.

Lemma max_scan_in {A : Type} (key : A -> Q) (l : list A) (best : A) :
  In (Py.max_scan key best l) (best :: l).
Proof.
  revert best. induction l as [|a l IH]; intros best; simpl.
  - now left.
  - destruct (IH (if Py.lt (key best) (key a) then a else best)) as [H|H].
    + destruct (Py.lt (key best) (key a)); rewrite <- H; tauto.
    + tauto.
Qed.

Lemma max_scan_ge_best {A : Type} (key : A -> Q) (l : list A) (best : A) :
  key best <= key (Py.max_scan key best l).
Proof.
  revert best. induction l as [|a l IH]; intros best; simpl.
  - apply Qle_refl.
  - specialize (IH (if Py.lt (key best) (key a) then a else best)).
    destruct (Py.lt (key best) (key a)) eqn:E; [|exact IH].
    apply lt_true in E. lra.
Qed.

Lemma max_scan_greatest {A : Type} (key : A -> Q) (l : list A) (best : A) :
  forall c, In c (best :: l) -> key c <= key (Py.max_scan key best l).
Proof.
  revert best. induction l as [|a l IH]; intros best c Hc.
  - destruct Hc as [<-|[]]. apply Qle_refl.
  - simpl Py.max_scan.
    pose proof (max_scan_ge_best key l
                  (if Py.lt (key best) (key a) then a else best)) as Hb.
    destruct Hc as [->|[->|Hc]].
    + destruct (Py.lt (key c) (key a)) eqn:E; [|exact Hb].
      apply lt_true in E. lra.
    + destruct (Py.lt (key best) (key c)) eqn:E; [exact Hb|].
      apply lt_false in E. lra.
    + apply IH. now right.
Qed.

Lemma get_room_contour_cases (image : Image)
  (text_region : Z * Z * Z * Z) :
  (findContours (RoomDetection.room_mask image text_region) = []
   /\ RoomDetection.get_room_contour image text_region = Ok None)
  \/ exists c0 rest,
       findContours (RoomDetection.room_mask image text_region) = c0 :: rest
       /\ RoomDetection.get_room_contour image text_region
          = Ok (Some (Py.max_scan contourArea c0 rest)).
Proof.
  unfold RoomDetection.get_room_contour.
  destruct (findContours (RoomDetection.room_mask image text_region))
    as [|c0 rest].
  - left. now split.
  - right. exists c0, rest. now split.
Qed.

End SeedLocator.

(** C4.  For a hint box [(x, y, w, h)] with centre [(cx, cy)] the seed of
    the flood fill is the first of [(cx, cy - h)], [(cx, cy + h)],
    [(cx - w, cy)], [(cx + w, cy)], in this order, that lies inside the image
    bounds and on a pixel of value 255 of the binarised image; when none of
    the four qualifies the seed is the centre [(cx, cy)], whatever its
    pixel. *)
Theorem seed_point_priority :
  forall (cv : OpenCV) (image : Image) (x y w h : Z),
    let cx := (x + w / 2)%Z in
    let cy := (y + h / 2)%Z in
    let above := (cx, (cy - h)%Z) in
    let below := (cx, (cy + h)%Z) in
    let left := ((cx - w)%Z, cy) in
    let right := ((cx + w)%Z, cy) in
    let seed := RoomDetection.seed_point image (x, y, w, h) in
    (SeedProbe.qualifies image above -> seed = above)
    /\ (~ SeedProbe.qualifies image above ->
        SeedProbe.qualifies image below -> seed = below)
    /\ (~ SeedProbe.qualifies image above ->
        ~ SeedProbe.qualifies image below ->
        SeedProbe.qualifies image left -> seed = left)
    /\ (~ SeedProbe.qualifies image above ->
        ~ SeedProbe.qualifies image below ->
        ~ SeedProbe.qualifies image left ->
        SeedProbe.qualifies image right -> seed = right)
    /\ (~ SeedProbe.qualifies image above ->
        ~ SeedProbe.qualifies image below ->
        ~ SeedProbe.qualifies image left ->
        ~ SeedProbe.qualifies image right -> seed = (cx, cy)).
Proof.
  intros cv image x y w h cx cy above below left right seed.
  subst seed. unfold RoomDetection.seed_point, SeedProbe.qualifies.
  destruct (shape image) as [height width].
  fold cx cy. subst above below left right. cbv beta iota.
  repeat split.
  - intros [Hx [Hy Hp]]. now rewrite first_seed_head.
  - intros Na [Hx [Hy Hp]].
    rewrite first_seed_skip by exact Na. now rewrite first_seed_head.
  - intros Na Nb [Hx [Hy Hp]].
    rewrite first_seed_skip by exact Na.
    rewrite first_seed_skip by exact Nb. now rewrite first_seed_head.
  - intros Na Nb Nl [Hx [Hy Hp]].
    rewrite first_seed_skip by exact Na.
    rewrite first_seed_skip by exact Nb.
    rewrite first_seed_skip by exact Nl. now rewrite first_seed_head.
  - intros Na Nb Nl Nr.
    rewrite first_seed_skip by exact Na.
    rewrite first_seed_skip by exact Nb.
    rewrite first_seed_skip by exact Nl.
    rewrite first_seed_skip by exact Nr. reflexivity.
Qed.

(** A label at (180, 140) of 30 x 12 pixels: on the plan that is light from
    column 220 on, the first three probes fall on wall pixels and the probe
    to the right, (225, 146), is chosen; on the plan that is all wall the
    seed is the centre (195, 146). *)
Lemma seed_point_priority_witness :
  (~ SeedProbe.qualifies (cv := Synthetic.opencv Synthetic.light_on_the_right)
       Synthetic.light_on_the_right (195, 134)%Z
   /\ ~ SeedProbe.qualifies
          (cv := Synthetic.opencv Synthetic.light_on_the_right)
          Synthetic.light_on_the_right (195, 158)%Z
   /\ ~ SeedProbe.qualifies
          (cv := Synthetic.opencv Synthetic.light_on_the_right)
          Synthetic.light_on_the_right (165, 146)%Z
   /\ SeedProbe.qualifies
        (cv := Synthetic.opencv Synthetic.light_on_the_right)
        Synthetic.light_on_the_right (225, 146)%Z
   /\ RoomDetection.seed_point
        (cv := Synthetic.opencv Synthetic.light_on_the_right)
        Synthetic.light_on_the_right (180, 140, 30, 12)%Z
      = (225, 146)%Z)
  /\ RoomDetection.seed_point (cv := Synthetic.opencv Synthetic.all_wall)
       Synthetic.all_wall (180, 140, 30, 12)%Z
     = (195, 146)%Z.
Proof.
  assert (dark : forall s p,
             (let '(sx, sy) := p in
              pixel (OpenCV := Synthetic.opencv s)
                (RoomDetection.binarize (cv := Synthetic.opencv s) s) sy sx
              = 0%Z) ->
             ~ SeedProbe.qualifies (cv := Synthetic.opencv s) s p).
  { intros s [sx sy] H [_ [_ Hp]]. rewrite H in Hp. discriminate Hp. }
  split.
  - assert (Na := dark Synthetic.light_on_the_right (195, 134)%Z eq_refl).
    assert (Nb := dark Synthetic.light_on_the_right (195, 158)%Z eq_refl).
    assert (Nl := dark Synthetic.light_on_the_right (165, 146)%Z eq_refl).
    assert (Qr : SeedProbe.qualifies
                   (cv := Synthetic.opencv Synthetic.light_on_the_right)
                   Synthetic.light_on_the_right (225, 146)%Z).
    { repeat split; simpl; try lia. }
    repeat (split; [assumption|]).
    exact (proj1 (proj2 (proj2 (proj2
             (seed_point_priority
                (Synthetic.opencv Synthetic.light_on_the_right)
                Synthetic.light_on_the_right 180 140 30 12))))
             Na Nb Nl Qr).
  - exact (proj2 (proj2 (proj2 (proj2
             (seed_point_priority (Synthetic.opencv Synthetic.all_wall)
                Synthetic.all_wall 180 140 30 12))))
             (dark Synthetic.all_wall (195, 134)%Z eq_refl)
             (dark Synthetic.all_wall (195, 158)%Z eq_refl)
             (dark Synthetic.all_wall (165, 146)%Z eq_refl)
             (dark Synthetic.all_wall (225, 146)%Z eq_refl)).
Defined.

(** C7.  [get_room_contour] never raises.  It returns [None] exactly when
    the contour extraction of the patched mask yields no contour, and then
    the region loop of [process_floorplan] goes on to the next hint with its
    rooms unchanged; otherwise it returns one of the extracted contours,
    whose area no other extracted contour exceeds. *)
Theorem get_room_contour_none_or_largest :
  forall (cv : OpenCV) (host : Host) (image : Image)
         (text_region : Z * Z * Z * Z),
    let contours :=
      findContours (RoomDetection.room_mask image text_region) in
    (RoomDetection.get_room_contour image text_region = Ok None
     <-> contours = [])
    /\ (contours <> [] ->
        exists c,
          RoomDetection.get_room_contour image text_region = Ok (Some c)
          /\ In c contours
          /\ forall c', In c' contours -> contourArea c' <= contourArea c)
    /\ (forall e,
           RoomDetection.get_room_contour image text_region <> Raise e)
    /\ (RoomDetection.get_room_contour image text_region = Ok None ->
        forall total_area rest st,
          RoomDetection.detect_rooms image total_area (text_region :: rest)
            st
          = RoomDetection.detect_rooms image total_area rest st).
Proof.
  intros cv host image region contours.
  unfold RoomDetection.get_room_contour. fold contours.
  destruct contours as [|c0 rest0] eqn:Ec.
  - repeat split; try discriminate; try tauto.
    intros _ total_area rest st. simpl.
    unfold RoomDetection.get_room_contour. fold contours. rewrite Ec.
    reflexivity.
  - simpl. repeat split; try discriminate.
    intros _. exists (Py.max_scan contourArea c0 rest0).
    split; [reflexivity|]. split.
    + apply max_scan_in.
    + apply max_scan_greatest.
Qed.

(** On the plan with one label inside one room the locator returns the
    room, the larger of the two contours; on the blank plan it returns
    [None] and the region loop skips the hint. *)
Lemma get_room_contour_none_or_largest_witness :
  (findContours (OpenCV := Synthetic.opencv Synthetic.one_room)
     (RoomDetection.room_mask (cv := Synthetic.opencv Synthetic.one_room)
        Synthetic.one_room (180, 140, 30, 12)%Z) <> []
   /\ exists c,
        RoomDetection.get_room_contour
          (cv := Synthetic.opencv Synthetic.one_room)
          Synthetic.one_room (180, 140, 30, 12)%Z = Ok (Some c)
        /\ Synthetic.enclosed (Synthetic.box 180 140 30 12)
           <= Synthetic.enclosed c)
  /\ (RoomDetection.get_room_contour (cv := Synthetic.opencv Synthetic.blank)
        Synthetic.blank (180, 140, 30, 12)%Z = Ok None
      /\ RoomDetection.detect_rooms (cv := Synthetic.opencv Synthetic.blank)
           (host := Synthetic.host) Synthetic.blank 120000
           [(180, 140, 30, 12)%Z] ([], 0%nat)
         = Ok ([], 0%nat)).
Proof.
  split.
  - assert (Hne : findContours (OpenCV := Synthetic.opencv Synthetic.one_room)
                    (RoomDetection.room_mask
                       (cv := Synthetic.opencv Synthetic.one_room)
                       Synthetic.one_room (180, 140, 30, 12)%Z) <> [])
      by discriminate.
    split; [exact Hne|].
    destruct (proj1 (proj2
                (get_room_contour_none_or_largest
                   (Synthetic.opencv Synthetic.one_room) Synthetic.host
                   Synthetic.one_room (180, 140, 30, 12)%Z)) Hne)
      as [c [Hc [_ Hmax]]].
    exists c. split; [exact Hc|]. apply Hmax. now left.
  - assert (Hnone : RoomDetection.get_room_contour
                      (cv := Synthetic.opencv Synthetic.blank)
                      Synthetic.blank (180, 140, 30, 12)%Z = Ok None)
      by reflexivity.
    split; [exact Hnone|].
    rewrite (proj2 (proj2 (proj2
               (get_room_contour_none_or_largest
                  (Synthetic.opencv Synthetic.blank) Synthetic.host
                  Synthetic.blank (180, 140, 30, 12)%Z))) Hnone).
    reflexivity.
Defined.

(** ** The overlap resolvers *)

Section GreedyLoop.
Context {A : Type}.
Variable test : A -> A -> bool.
Variable should_add : A -> list A -> bool.
Variable loop : list A -> list A -> list A.

Hypothesis should_add_nil : forall r, should_add r [] = true.
Hypothesis should_add_cons : forall r e rest,
  should_add r (e :: rest) = if test r e then false else should_add r rest.
Hypothesis loop_nil : forall acc, loop [] acc = acc.
Hypothesis loop_cons : forall r rest acc,
  loop (r :: rest) acc
  = loop rest (if should_add r acc then acc ++ [r] else acc).

Lemma should_add_true (r : A) (acc : list A) :
  should_add r acc = true <-> forall e, In e acc -> test r e = false.
Proof.
  induction acc as [|e acc IH].
  - rewrite should_add_nil. split; [intros _ e []|reflexivity].
  - rewrite should_add_cons. destruct (test r e) eqn:E.
    + split; [discriminate|].
      intros H. specialize (H e (or_introl eq_refl)). congruence.
    + rewrite IH. split.
      * intros H e' [<-|He']; [exact E|now apply H].
      * intros H e' He'. apply H. now right.
Qed.

Lemma should_add_false (r : A) (acc : list A) :
  should_add r acc = false <-> exists e, In e acc /\ test r e = true.
Proof.
  induction acc as [|e acc IH].
  - rewrite should_add_nil. split; [discriminate|intros [e [[] _]]].
  - rewrite should_add_cons. destruct (test r e) eqn:E.
    + split; [|reflexivity]. intros _. exists e. split; [now left|exact E].
    + rewrite IH. split.
      * intros [e' [He' Ht]]. exists e'. split; [now right|exact Ht].
      * intros [e' [[<-|He'] Ht]]; [congruence|].
        exists e'. now split.
Qed.




Lemma ordpairs_snoc (R : A -> A -> Prop) (l : list A) (a : A) :
  ForallOrdPairs R l -> Forall (fun e => R e a) l ->
  ForallOrdPairs R (l ++ [a]).
Proof.
  induction 1 as [|b l Hb Hl IH]; intros Ha; simpl.
  - constructor; constructor.
  - inversion Ha as [|? ? Hba Hla]; subst.
    constructor; [|now apply IH].
    apply Forall_app. split; [exact Hb|]. constructor; [exact Hba|constructor].
Qed.

Lemma ordpairs_nth (R : A -> A -> Prop) (l : list A) :
  ForallOrdPairs R l ->
  forall i j a b, (i < j)%nat ->
    nth_error l i = Some a -> nth_error l j = Some b -> R a b.
Proof.
  induction 1 as [|c l Hc Hl IH]; intros i j a b Hij Hi Hj.
  - destruct i; discriminate.
  - destruct j as [|j]; [lia|]. simpl in Hj. destruct i as [|i].
    + simpl in Hi. injection Hi as <-.
      rewrite Forall_forall in Hc. apply Hc.
      eapply nth_error_In. exact Hj.
    + simpl in Hi. apply (IH i j); [lia|assumption|assumption].
Qed.

Lemma loop_ordpairs (l acc : list A) :
  ForallOrdPairs (fun e r => test r e = false) acc ->
  ForallOrdPairs (fun e r => test r e = false) (loop l acc).
Proof.
  revert acc. induction l as [|r l IH]; intros acc Hacc.
  - now rewrite loop_nil.
  - rewrite loop_cons. apply IH.
    destruct (should_add r acc) eqn:E; [|exact Hacc].
    apply ordpairs_snoc; [exact Hacc|].
    apply Forall_forall. now apply should_add_true.
Qed.

Lemma loop_incl (l acc : list A) :
  forall r, In r (loop l acc) -> In r l \/ In r acc.
Proof.
  revert acc. induction l as [|a l IH]; intros acc r Hr.
  - rewrite loop_nil in Hr. now right.
  - rewrite loop_cons in Hr. apply IH in Hr. destruct Hr as [Hr|Hr].
    + left. now right.
    + destruct (should_add a acc); [|now right].
      apply in_app_or in Hr. destruct Hr as [Hr|[<-|[]]].
      * now right.
      * left. now left.
Qed.

(** No room of the result was rejected by the test against another room of
    the result, in whichever order the two are taken, when the test is
    symmetric. *)
Lemma loop_pairwise :
  (forall a b, test a b = test b a) ->
  forall l i j a b, i <> j ->
    nth_error (loop l []) i = Some a -> nth_error (loop l []) j = Some b ->
    test a b = false.
Proof.
  intros Hsym l i j a b Hij Hi Hj.
  pose proof (loop_ordpairs l [] (FOP_nil _)) as H.
  destruct (Nat.lt_ge_cases i j) as [Hlt|Hge].
  - rewrite Hsym. exact (ordpairs_nth _ _ H i j a b Hlt Hi Hj).
  - assert (Hlt : (j < i)%nat) by lia.
    exact (ordpairs_nth _ _ H j i b a Hlt Hj Hi).
Qed.

End GreedyLoop.

(** *** The sort by descending area *)

Section SortedReverse.
Context {A : Type} (key : A -> Q).

Lemma insert_reverse_perm (a : A) (l : list A) :
  Permutation (a :: l) (Py.insert_reverse key a l).
Proof.
  induction l as [|b l IH]; simpl.
  - apply Permutation_refl.
  - destruct (Py.lt (key a) (key b)).
    + eapply perm_trans; [apply perm_swap|]. now apply perm_skip.
    + apply Permutation_refl.
Qed.

Lemma sorted_reverse_perm (l : list A) :
  Permutation l (Py.sorted_reverse key l).
Proof.
  induction l as [|a l IH]; simpl.
  - apply perm_nil.
  - eapply perm_trans; [|apply insert_reverse_perm]. now apply perm_skip.
Qed.

Lemma insert_reverse_sorted (a : A) (l : list A) :
  StronglySorted (fun x y => key y <= key x) l ->
  StronglySorted (fun x y => key y <= key x) (Py.insert_reverse key a l).
Proof.
  induction 1 as [|b l Hl IH Hb]; simpl.
  - constructor; constructor.
  - destruct (Py.lt (key a) (key b)) eqn:E.
    + apply lt_true in E. constructor; [exact IH|].
      apply Forall_forall. intros c Hc.
      apply (Permutation_in _ (Permutation_sym (insert_reverse_perm a l)))
        in Hc.
      destruct Hc as [<-|Hc]; [lra|].
      rewrite Forall_forall in Hb. now apply Hb.
    + apply lt_false in E. constructor.
      * now constructor.
      * constructor; [exact E|].
        rewrite Forall_forall in Hb |- *. intros c Hc.
        specialize (Hb c Hc). lra.
Qed.

Lemma sorted_reverse_sorted (l : list A) :
  StronglySorted (fun x y => key y <= key x) (Py.sorted_reverse key l).
Proof.
  induction l as [|a l IH]; simpl.
  - constructor.
  - now apply insert_reverse_sorted.
Qed.

End SortedReverse.

Lemma strongly_sorted_impl {A : Type} (R S : A -> A -> Prop) (l : list A) :
  (forall a b, R a b -> S a b) -> StronglySorted R l -> StronglySorted S l.
Proof.
  intros HRS. induction 1 as [|a l Hl IH Ha]; constructor.
  - exact IH.
  - eapply Forall_impl; [|exact Ha]. intros b. apply HRS.
Qed.

(** *** Double precision *)

Lemma pow2_inject (k : Z) : (0 <= k)%Z -> 2 ^ k == inject_Z (2 ^ k).
Proof.
  intros Hk. change (2 : Q) with (inject_Z 2). now rewrite Zpower_Qpower.
Qed.

(** [ilog2] is the binary exponent. *)
Lemma ilog2_spec (x : Q) :
  0 < x -> 2 ^ F64.ilog2 x <= x /\ x < 2 ^ (F64.ilog2 x + 1).
Proof.
  intros Hx. unfold F64.ilog2.
  set (d := (Z.log2 (Qnum x) - Z.log2 (Zpos (Qden x)))%Z).
  assert (H2 : ~ 2 == 0) by discriminate.
  assert (Hp : (0 < Qnum x)%Z).
  { destruct x as [p q]. unfold Qlt in Hx. simpl in *. lia. }
  destruct (Z.log2_spec _ Hp) as [Ha1 Ha2].
  destruct (Z.log2_spec (Zpos (Qden x)) eq_refl) as [Hb1 Hb2].
  pose proof (Z.log2_nonneg (Qnum x)) as Ha0.
  pose proof (Z.log2_nonneg (Zpos (Qden x))) as Hb0.
  set (a := Z.log2 (Qnum x)) in *. set (b := Z.log2 (Zpos (Qden x))) in *.
  assert (Hx' : x == inject_Z (Qnum x) / inject_Z (Zpos (Qden x))).
  { destruct x as [p q]. simpl. apply Qmake_Qdiv. }
  assert (Hq : 0 < inject_Z (Zpos (Qden x))) by reflexivity.
  assert (Hpa : forall k, (0 <= k)%Z -> 0 < inject_Z (2 ^ k)).
  { intros k Hk. rewrite <- pow2_inject by exact Hk. now apply Qpower_0_lt. }
  destruct (Qle_bool (2 ^ d) x) eqn:E.
  - split; [now apply Qle_bool_iff|].
    unfold d. replace (a - b + 1)%Z with ((a + 1) - b)%Z by lia.
    rewrite Qpower_minus by exact H2.
    rewrite !pow2_inject by lia.
    rewrite Hx'.
    apply Qlt_shift_div_l; [now apply Hpa|].
    unfold Qdiv. rewrite <- Qmult_assoc, (Qmult_comm (/ _)), Qmult_assoc.
    apply Qlt_shift_div_r; [exact Hq|].
    rewrite <- !inject_Z_mult, <- Zlt_Qlt. nia.
  - split.
    + unfold d. replace (a - b - 1)%Z with (a - (b + 1))%Z by lia.
      rewrite Qpower_minus by exact H2.
      rewrite !pow2_inject by lia.
      rewrite Hx'.
      apply Qle_shift_div_r; [apply Hpa; lia|].
      unfold Qdiv. rewrite <- Qmult_assoc, (Qmult_comm (/ _)), Qmult_assoc.
      apply Qle_shift_div_l; [exact Hq|].
      rewrite <- !inject_Z_mult, <- Zle_Qle. nia.
    + replace (d - 1 + 1)%Z with d by lia.
      apply Qnot_le_lt. intros H. apply Qle_bool_iff in H. congruence.
Qed.

Lemma nearest_even_error (y : Q) :
  Qabs (inject_Z (F64.nearest_even y) - y) <= 1 # 2.
Proof.
  unfold F64.nearest_even.
  pose proof (Qfloor_le y) as Hlo. pose proof (Qlt_floor y) as Hhi.
  rewrite inject_Z_plus in Hhi. change (inject_Z 1) with 1 in Hhi.
  apply Qabs_Qle_condition.
  destruct (Qcompare (y - inject_Z (Qfloor y)) (1 # 2)) eqn:E.
  - apply Qeq_alt in E.
    destruct (Z.even (Qfloor y)); rewrite ?inject_Z_plus;
      change (inject_Z 1) with 1; lra.
  - apply Qlt_alt in E. lra.
  - apply Qgt_alt in E. rewrite inject_Z_plus. change (inject_Z 1) with 1.
    lra.
Qed.

(** Rounding moves a number by at most [2^-53] of its magnitude. *)
Lemma round_error (x : Q) :
  Qabs (F64.round x - x) <= Qabs x * F64.ulp_half.
Proof.
  unfold F64.round.
  destruct (Qeq_bool x 0) eqn:E0.
  - apply Qeq_bool_iff in E0. rewrite E0. vm_compute. discriminate.
  - assert (Hne : ~ x == 0).
    { intros H. apply Qeq_bool_iff in H. congruence. }
    assert (Ha : 0 < Qabs x).
    { destruct (Qlt_le_dec 0 (Qabs x)) as [H|H]; [exact H|].
      exfalso. apply Hne. pose proof (Qabs_nonneg x).
      assert (Hz : Qabs x == 0) by lra.
      revert Hz. apply Qabs_case; intros; lra. }
    destruct (ilog2_spec _ Ha) as [Hlo _].
    set (l := F64.ilog2 (Qabs x)) in *.
    set (p := 2 ^ (l - 52)).
    assert (Hp : 0 < p) by (now apply Qpower_0_lt).
    assert (Hl : 2 ^ l == p * 4503599627370496).
    { unfold p. rewrite Qpower_minus by discriminate.
      assert (H52 : 2 ^ 52 == 4503599627370496) by reflexivity.
      rewrite H52. field. }
    pose proof (nearest_even_error (Qabs x / p)) as Hm.
    set (m := inject_Z (F64.nearest_even (Qabs x / p))) in *.
    apply Qabs_Qle_condition in Hm.
    assert (Hy : Qabs x == Qabs x / p * p) by (field; lra).
    set (y := Qabs x / p) in *.
    clearbody m y p. set (t := 2 ^ l) in *. clearbody t.
    assert (Hpy : p * 4503599627370496 <= y * p) by lra.
    assert (Hbound : - (y * p * F64.ulp_half) <= m * p - y * p
                     <= y * p * F64.ulp_half).
    { assert (H1 : (m - y) * p <= (1 # 2) * p)
        by (apply Qmult_le_compat_r; lra).
      assert (H2 : - (1 # 2) * p <= (m - y) * p)
        by (apply Qmult_le_compat_r; lra).
      unfold F64.ulp_half. split; lra. }
    destruct (Qle_bool 0 x) eqn:Es.
    + apply Qle_bool_iff in Es.
      assert (Hax : Qabs x == x) by (now apply Qabs_pos).
      apply Qabs_Qle_condition. unfold F64.ulp_half in *. lra.
    + assert (Hx : x <= 0).
      { apply Qlt_le_weak, Qnot_le_lt. intros H.
        apply Qle_bool_iff in H. congruence. }
      assert (Hax : Qabs x == - x) by (now apply Qabs_neg).
      apply Qabs_Qle_condition. unfold F64.ulp_half in *. lra.
Qed.

Lemma round_nonneg (x : Q) :
  0 <= x ->
  x * (1 - F64.ulp_half) <= F64.round x <= x * (1 + F64.ulp_half).
Proof.
  intros Hx. pose proof (round_error x) as H.
  rewrite (Qabs_pos x Hx) in H. apply Qabs_Qle_condition in H. lra.
Qed.

Lemma round_nonpos (x : Q) :
  x <= 0 ->
  x * (1 + F64.ulp_half) <= F64.round x <= x * (1 - F64.ulp_half).
Proof.
  intros Hx. pose proof (round_error x) as H.
  rewrite (Qabs_neg x Hx) in H. apply Qabs_Qle_condition in H. lra.
Qed.

(** The double [0.7] lies below 7/10. *)
Lemma literal_seven_tenths :
  F64.literal 0.7 == 3152519739159347 # 4503599627370496.
Proof. vm_compute. reflexivity. Qed.

(** The double product [0.7 * n] for an [int] [n]. *)
Lemma seed_threshold_nonneg (n : Z) :
  (0 <= n)%Z ->
  inject_Z n * (6999999999999997 # 10000000000000000)
  <= F64.mul (F64.literal 0.7) (F64.of_int n)
  /\ F64.mul (F64.literal 0.7) (F64.of_int n)
     <= inject_Z n * (7000000000000002 # 10000000000000000).
Proof.
  intros Hn. unfold F64.mul, F64.of_int.
  assert (Hq : 0 <= inject_Z n) by (now rewrite <- (Zle_Qle 0)).
  destruct (round_nonneg _ Hq) as [F1 F2].
  set (f := F64.round (inject_Z n)) in *. clearbody f.
  assert (Hf : 0 <= f) by (unfold F64.ulp_half in *; lra).
  assert (Hp : 0 <= F64.literal 0.7 * f).
  { rewrite literal_seven_tenths. lra. }
  destruct (round_nonneg _ Hp) as [T1 T2].
  set (t := F64.round (F64.literal 0.7 * f)) in *. clearbody t.
  rewrite literal_seven_tenths in T1, T2.
  unfold F64.ulp_half in *. split; lra.
Qed.

Lemma seed_threshold_negative (n : Z) :
  (n < 0)%Z -> F64.mul (F64.literal 0.7) (F64.of_int n) < 0.
Proof.
  intros Hn. unfold F64.mul, F64.of_int.
  assert (Hq : inject_Z n <= -1).
  { change (-1) with (inject_Z (-1)). rewrite <- Zle_Qle. lia. }
  assert (Hq0 : inject_Z n <= 0) by lra.
  destruct (round_nonpos _ Hq0) as [F1 F2].
  set (f := F64.round (inject_Z n)) in *. clearbody f.
  assert (Hf : f <= 0) by (unfold F64.ulp_half in *; lra).
  assert (Hp : F64.literal 0.7 * f <= 0).
  { rewrite literal_seven_tenths. lra. }
  destruct (round_nonpos _ Hp) as [T1 T2].
  set (t := F64.round (F64.literal 0.7 * f)) in *. clearbody t.
  rewrite literal_seven_tenths in T1, T2.
  unfold F64.ulp_half in *. lra.
Qed.

(** Up to [2^48] the double product is within a tenth of 7/10 of [n]. *)
Lemma seed_threshold_near (n : Z) :
  (0 <= n <= Resolver.exact_area)%Z ->
  0.7 * inject_Z n - (1 # 10) < F64.mul (F64.literal 0.7) (F64.of_int n)
  /\ F64.mul (F64.literal 0.7) (F64.of_int n) < 0.7 * inject_Z n + (1 # 10).
Proof.
  intros [Hn Hb]. destruct (seed_threshold_nonneg n Hn) as [T1 T2].
  assert (Hq : 0 <= inject_Z n) by (now rewrite <- (Zle_Qle 0)).
  assert (Hq' : inject_Z n <= 281474976710656).
  { change 281474976710656 with (inject_Z Resolver.exact_area).
    now rewrite <- Zle_Qle. }
  split; lra.
Qed.

(** *** The two tests *)

Lemma seed_overlap_area_sym (a b : RoomDetection.Room) :
  RoomDetection.overlap_area a b = RoomDetection.overlap_area b a.
Proof.
  unfold RoomDetection.overlap_area.
  now rewrite (Z.min_comm (_ + _) (_ + _)), (Z.max_comm (RoomDetection.x a)),
    (Z.min_comm (RoomDetection.y a + _) (_ + _)),
    (Z.max_comm (RoomDetection.y a)).
Qed.

Lemma wall_overlap_area_sym (a b : EnhancedRoomDetection.Room) :
  EnhancedRoomDetection.overlap_area a b
  = EnhancedRoomDetection.overlap_area b a.
Proof.
  unfold EnhancedRoomDetection.overlap_area.
  now rewrite (Z.min_comm (_ + _) (_ + _)),
    (Z.max_comm (EnhancedRoomDetection.x a)),
    (Z.min_comm (EnhancedRoomDetection.y a + _) (_ + _)),
    (Z.max_comm (EnhancedRoomDetection.y a)).
Qed.

Lemma seed_significant_sym (a b : RoomDetection.Room) :
  RoomDetection.significant_overlap a b
  = RoomDetection.significant_overlap b a.
Proof.
  unfold RoomDetection.significant_overlap.
  now rewrite seed_overlap_area_sym, Z.min_comm.
Qed.

Lemma wall_significant_sym (a b : EnhancedRoomDetection.Room) :
  EnhancedRoomDetection.significant_overlap a b
  = EnhancedRoomDetection.significant_overlap b a.
Proof.
  unfold EnhancedRoomDetection.significant_overlap.
  rewrite wall_overlap_area_sym.
  apply gt_proper; [reflexivity|].
  rewrite !min_Qmin, Q.min_comm. reflexivity.
Qed.

Lemma seed_overlap_area_nonneg (a b : RoomDetection.Room) :
  (0 <= RoomDetection.overlap_area a b)%Z.
Proof.
  unfold RoomDetection.overlap_area. nia.
Qed.

(** An integer compared with the double product, against 7/10 of [n]. *)
Lemma seed_threshold_int (k n : Z) :
  (0 <= k)%Z -> (n <= Resolver.exact_area)%Z ->
  (0.7 * inject_Z n < inject_Z k ->
   F64.mul (F64.literal 0.7) (F64.of_int n) < inject_Z k)
  /\ (F64.mul (F64.literal 0.7) (F64.of_int n) < inject_Z k ->
      0.7 * inject_Z n <= inject_Z k)
  /\ (inject_Z k <= F64.mul (F64.literal 0.7) (F64.of_int n) ->
      inject_Z k <= 0.7 * inject_Z n).
Proof.
  intros Hk Hn.
  assert (Hk' : 0 <= inject_Z k) by (now rewrite <- (Zle_Qle 0)).
  destruct (Z.lt_ge_cases n 0) as [Hneg|Hpos].
  - pose proof (seed_threshold_negative n Hneg) as Ht.
    assert (Hq : inject_Z n < inject_Z 0) by (now rewrite <- Zlt_Qlt).
    change (inject_Z 0) with 0 in Hq.
    repeat split; intros; lra.
  - destruct (seed_threshold_near n (conj Hpos Hn)) as [T1 T2].
    set (t := F64.mul (F64.literal 0.7) (F64.of_int n)) in *. clearbody t.
    assert (Hz : forall a b : Z,
               inject_Z a < inject_Z b + 1 -> inject_Z a <= inject_Z b).
    { intros a b H. rewrite <- Zle_Qle.
      change 1 with (inject_Z 1) in H.
      rewrite <- inject_Z_plus, <- Zlt_Qlt in H. lia. }
    repeat split; intros H.
    + destruct (Qlt_le_dec t (inject_Z k)) as [Hlt|Hge]; [exact Hlt|].
      exfalso.
      assert (H10 : inject_Z (7 * n) < inject_Z (10 * k))
        by (rewrite !inject_Z_mult; change (inject_Z 7) with 7;
            change (inject_Z 10) with 10; lra).
      rewrite <- Zlt_Qlt in H10.
      assert (H11 : inject_Z (10 * k) <= inject_Z (7 * n)).
      { apply Hz. rewrite !inject_Z_mult. change (inject_Z 7) with 7.
        change (inject_Z 10) with 10. lra. }
      rewrite <- Zle_Qle in H11. lia.
    + assert (H11 : inject_Z (7 * n) <= inject_Z (10 * k)).
      { apply Hz. rewrite !inject_Z_mult. change (inject_Z 7) with 7.
        change (inject_Z 10) with 10. lra. }
      rewrite !inject_Z_mult in H11. change (inject_Z 7) with 7 in H11.
      change (inject_Z 10) with 10 in H11. lra.
    + assert (H11 : inject_Z (10 * k) <= inject_Z (7 * n)).
      { apply Hz. rewrite !inject_Z_mult. change (inject_Z 7) with 7.
        change (inject_Z 10) with 10. lra. }
      rewrite !inject_Z_mult in H11. change (inject_Z 7) with 7 in H11.
      change (inject_Z 10) with 10 in H11. lra.
Qed.

(** The test of the seed-anchored script against the fraction 0.7: a room
    that exceeds the fraction is caught, and a room that is caught reaches
    the fraction. *)
Lemma seed_significant_exceeds (c e : RoomDetection.Room) :
  (Z.min (RoomDetection.area c) (RoomDetection.area e)
   <= Resolver.exact_area)%Z ->
  (Resolver.seed_exceeds c e -> RoomDetection.significant_overlap c e = true)
  /\ (RoomDetection.significant_overlap c e = true ->
      Resolver.seed_reaches c e)
  /\ (RoomDetection.significant_overlap c e = false ->
      ~ Resolver.seed_exceeds c e).
Proof.
  intros Hb.
  unfold RoomDetection.significant_overlap, Resolver.seed_exceeds,
    Resolver.seed_reaches.
  rewrite <- float_min. unfold Py.float.
  destruct (seed_threshold_int (RoomDetection.overlap_area c e) _
              (seed_overlap_area_nonneg c e) Hb) as [H1 [H2 H3]].
  repeat split.
  - intros H. apply gt_true. now apply H1.
  - intros H. apply gt_true in H. now apply H2.
  - intros H Hex. apply gt_false in H. apply H3 in H. lra.
Qed.

Lemma wall_significant_exceeds (c e : EnhancedRoomDetection.Room) :
  EnhancedRoomDetection.significant_overlap c e = true
  <-> Resolver.wall_exceeds c e.
Proof.
  unfold EnhancedRoomDetection.significant_overlap, Resolver.wall_exceeds.
  rewrite gt_true, min_Qmin. reflexivity.
Qed.

Lemma remove_overlapping_rooms_loop (rooms : list EnhancedRoomDetection.Room) :
  EnhancedRoomDetection.remove_overlapping_rooms rooms
  = EnhancedRoomDetection.filter_loop
      (Py.sorted_reverse EnhancedRoomDetection.area rooms) [].
Proof.
  destruct rooms; reflexivity.
Qed.

(** C1.  In the list returned by the overlap resolution, for every two
    rooms at different positions the intersection area of their bounding
    boxes is at most the configured fraction, 0.7 in the seed-anchored
    script and 0.6 in the wall-reconstruction script, of the smaller of
    their two areas.  The seed-anchored script compares with the double
    product [0.7 * min(...)]: the intersection is at most that product for
    all areas, and at most 7/10 of the smaller area when the smaller area
    is at most [2^48] pixels, where the product is within a tenth of a
    pixel of 7/10 of the area. *)
Theorem resolved_rooms_overlap_bounded :
  (forall (rooms : list RoomDetection.Room) (i j : nat)
          (ri rj : RoomDetection.Room),
      i <> j ->
      nth_error (RoomDetection.remove_duplicates rooms) i = Some ri ->
      nth_error (RoomDetection.remove_duplicates rooms) j = Some rj ->
      Py.float (RoomDetection.overlap_area ri rj)
      <= F64.mul (F64.literal 0.7)
           (F64.of_int
              (Z.min (RoomDetection.area ri) (RoomDetection.area rj)))
      /\ ((Z.min (RoomDetection.area ri) (RoomDetection.area rj)
           <= Resolver.exact_area)%Z ->
          Py.float (RoomDetection.overlap_area ri rj)
          <= 0.7 * Qmin (Py.float (RoomDetection.area ri))
                     (Py.float (RoomDetection.area rj))))
  /\ (forall (rooms : list EnhancedRoomDetection.Room) (i j : nat)
             (ri rj : EnhancedRoomDetection.Room),
         i <> j ->
         nth_error (EnhancedRoomDetection.remove_overlapping_rooms rooms) i
         = Some ri ->
         nth_error (EnhancedRoomDetection.remove_overlapping_rooms rooms) j
         = Some rj ->
         Py.float (EnhancedRoomDetection.overlap_area ri rj)
         <= 0.6 * Qmin (EnhancedRoomDetection.area ri)
                    (EnhancedRoomDetection.area rj)).
Proof.
  split.
  - intros rooms i j ri rj Hij Hi Hj.
    pose proof (loop_pairwise RoomDetection.significant_overlap
                  RoomDetection.should_add RoomDetection.dedup_loop
                  (fun _ => eq_refl) (fun _ _ _ => eq_refl)
                  (fun _ => eq_refl) (fun _ _ _ => eq_refl)
                  seed_significant_sym _ i j ri rj Hij Hi Hj) as Hkept.
    split.
    + unfold RoomDetection.significant_overlap in Hkept.
      now apply gt_false in Hkept.
    + intros Hb. apply Qnot_lt_le. intros Hex.
      now apply (seed_significant_exceeds ri rj Hb) in Hex.
  - intros rooms i j ri rj Hij Hi Hj.
    rewrite remove_overlapping_rooms_loop in Hi, Hj.
    apply Qnot_lt_le. intros Hex.
    apply wall_significant_exceeds in Hex.
    rewrite (loop_pairwise EnhancedRoomDetection.significant_overlap
               EnhancedRoomDetection.should_add
               EnhancedRoomDetection.filter_loop
               (fun _ => eq_refl) (fun _ _ _ => eq_refl)
               (fun _ => eq_refl) (fun _ _ _ => eq_refl)
               wall_significant_sym _ i j ri rj Hij Hi Hj) in Hex.
    discriminate.
Qed.

(** Three candidates: a room of area 9000, a room of area 8000 that shares
    5000 (or 4000) pixels of bounding box with it, and a room of area 2000
    inside the first.  The first two are kept. *)
Lemma resolved_rooms_overlap_bounded_witness :
  (0%nat <> 1%nat
   /\ nth_error
        (RoomDetection.remove_duplicates
           [ Synthetic.seed_room 10 10 50 50 2000;
             Synthetic.seed_room 50 0 100 100 8000;
             Synthetic.seed_room 0 0 100 100 9000 ]) 0
      = Some (Synthetic.seed_room 0 0 100 100 9000)
   /\ nth_error
        (RoomDetection.remove_duplicates
           [ Synthetic.seed_room 10 10 50 50 2000;
             Synthetic.seed_room 50 0 100 100 8000;
             Synthetic.seed_room 0 0 100 100 9000 ]) 1
      = Some (Synthetic.seed_room 50 0 100 100 8000)
   /\ (Z.min 9000 8000 <= Resolver.exact_area)%Z
   /\ Py.float 5000 <= 0.7 * Qmin (Py.float 9000) (Py.float 8000))
  /\ (0%nat <> 1%nat
      /\ nth_error
           (EnhancedRoomDetection.remove_overlapping_rooms
              [ Synthetic.wall_room 10 10 50 50 2000;
                Synthetic.wall_room 60 0 100 100 8000;
                Synthetic.wall_room 0 0 100 100 9000 ]) 0
         = Some (Synthetic.wall_room 0 0 100 100 9000)
      /\ nth_error
           (EnhancedRoomDetection.remove_overlapping_rooms
              [ Synthetic.wall_room 10 10 50 50 2000;
                Synthetic.wall_room 60 0 100 100 8000;
                Synthetic.wall_room 0 0 100 100 9000 ]) 1
         = Some (Synthetic.wall_room 60 0 100 100 8000)
      /\ Py.float 4000 <= 0.6 * Qmin 9000 8000).
Proof.
  assert (Hne : 0%nat <> 1%nat) by discriminate.
  split.
  - assert (H0 : nth_error
                   (RoomDetection.remove_duplicates
                      [ Synthetic.seed_room 10 10 50 50 2000;
                        Synthetic.seed_room 50 0 100 100 8000;
                        Synthetic.seed_room 0 0 100 100 9000 ]) 0
                 = Some (Synthetic.seed_room 0 0 100 100 9000))
      by reflexivity.
    assert (H1 : nth_error
                   (RoomDetection.remove_duplicates
                      [ Synthetic.seed_room 10 10 50 50 2000;
                        Synthetic.seed_room 50 0 100 100 8000;
                        Synthetic.seed_room 0 0 100 100 9000 ]) 1
                 = Some (Synthetic.seed_room 50 0 100 100 8000))
      by reflexivity.
    assert (Hb : (Z.min 9000 8000 <= Resolver.exact_area)%Z)
      by (vm_compute; discriminate).
    repeat (split; [assumption|]).
    exact (proj2 (proj1 resolved_rooms_overlap_bounded _ 0%nat 1%nat _ _
                    Hne H0 H1) Hb).
  - assert (H0 : nth_error
                   (EnhancedRoomDetection.remove_overlapping_rooms
                      [ Synthetic.wall_room 10 10 50 50 2000;
                        Synthetic.wall_room 60 0 100 100 8000;
                        Synthetic.wall_room 0 0 100 100 9000 ]) 0
                 = Some (Synthetic.wall_room 0 0 100 100 9000))
      by reflexivity.
    assert (H1 : nth_error
                   (EnhancedRoomDetection.remove_overlapping_rooms
                      [ Synthetic.wall_room 10 10 50 50 2000;
                        Synthetic.wall_room 60 0 100 100 8000;
                        Synthetic.wall_room 0 0 100 100 9000 ]) 1
                 = Some (Synthetic.wall_room 60 0 100 100 8000))
      by reflexivity.
    repeat (split; [assumption|]).
    exact (proj2 resolved_rooms_overlap_bounded _ 0%nat 1%nat _ _ Hne H0 H1).
Defined.




(** A room of area 1400 whose bounding box shares 980 pixels, exactly 7/10
    of its area, with that of a room of area 9000: the seed-anchored script
    discards it, since the double product [0.7 * 1400] lies below 980. *)
Lemma seed_exact_fraction_is_discarded :
  RoomDetection.remove_duplicates
    [ Synthetic.seed_room 72 0 40 35 1400;
      Synthetic.seed_room 0 0 100 100 9000 ]
  = [ Synthetic.seed_room 0 0 100 100 9000 ]
  /\ Py.float
       (RoomDetection.overlap_area
          (Synthetic.seed_room 72 0 40 35 1400)
          (Synthetic.seed_room 0 0 100 100 9000))
     == 0.7 * Py.float 1400
  /\ F64.mul (F64.literal 0.7) (F64.of_int 1400) < 0.7 * Py.float 1400.
Proof.
  split; [vm_compute; reflexivity|]. split; vm_compute; reflexivity.
Qed.


(** ** The candidate filters *)

Section SeedBuilder.
Context {cv : OpenCV} {host : Host}.

(** What [add_room] does to the state: nothing, or one room appended whose
    contour passed the filter. *)
Lemma add_room_cases (total_area : Z) (c : Contour)
  (rooms : list RoomDetection.Room) (calls : nat) :
  RoomDetection.add_room total_area c (rooms, calls) = Ok (rooms, calls)
  \/ exists r,
       RoomDetection.add_room total_area c (rooms, calls)
       = Ok (rooms ++ [r], S calls)
       /\ RoomDetection.contour r = tolist c
       /\ (RoomDetection.x r, RoomDetection.y r, RoomDetection.width r,
           RoomDetection.height r) = boundingRect c
       /\ RoomDetection.area r = Py.int (contourArea c)
       /\ Py.float total_area * 0.003 < contourArea c
       /\ contourArea c < Py.float total_area * 0.6
       /\ 0.1 < RoomDetection.aspect_ratio r
       /\ RoomDetection.aspect_ratio r < 10.
Proof.
  unfold RoomDetection.add_room.
  destruct (boundingRect c) as [[[x y] w] h].
  set (ar := if (0 <? h)%Z then Py.float w / Py.float h else 0).
  destruct (Py.lt (Py.float total_area * 0.003) (contourArea c)) eqn:E1;
    [|left; reflexivity].
  destruct (Py.lt (contourArea c) (Py.float total_area * 0.6)) eqn:E2;
    [|left; reflexivity].
  destruct (Py.lt 0.1 ar) eqn:E3; [|left; reflexivity].
  destruct (Py.lt ar 10) eqn:E4; [|left; reflexivity].
  apply lt_true in E1, E2, E3, E4. simpl.
  assert (Ht : ~ Py.float total_area == 0).
  { intros H. rewrite H in E1, E2. lra. }
  destruct (seed_classify_branch (contourArea c) ar (Py.float total_area) Ht)
    as [b [_ [_ Hb]]].
  rewrite Hb. simpl. right. eexists. split; [reflexivity|].
  simpl. repeat split; assumption.
Qed.

Lemma detect_rooms_invariant (P : RoomDetection.Room -> Prop)
  (original : Image) (total_area : Z) :
  (forall c rooms calls r,
      RoomDetection.add_room total_area c (rooms, calls)
      = Ok (rooms ++ [r], S calls) ->
      (exists region,
          RoomDetection.get_room_contour original region = Ok (Some c)) ->
      P r) ->
  forall regions st,
    Forall P (fst st) ->
    exists st',
      RoomDetection.detect_rooms original total_area regions st = Ok st'
      /\ Forall P (fst st').
Proof.
  intros HP regions. induction regions as [|region rest IH]; intros st Hst.
  - exists st. now split.
  - simpl.
    destruct (RoomDetection.get_room_contour original region)
      as [[c|]|e] eqn:Eg; simpl.
    + destruct st as [rooms calls].
      destruct (add_room_cases total_area c rooms calls)
        as [H|[r [H _]]]; rewrite H; simpl.
      * now apply IH.
      * apply IH. simpl. apply Forall_app. split; [exact Hst|].
        constructor; [|constructor].
        apply (HP c rooms calls r H). now exists region.
    + now apply IH.
    + exfalso.
      destruct (get_room_contour_cases original region)
        as [[_ H]|[c0 [rest0 [_ H]]]]; congruence.
Qed.

Lemma detect_rooms_built (original : Image) (total_area : Z)
  (regions : list (Z * Z * Z * Z)) :
  exists st',
    RoomDetection.detect_rooms original total_area regions ([], 0%nat)
    = Ok st'
    /\ Forall (Filter.built_from total_area) (fst st').
Proof.
  apply detect_rooms_invariant; [|constructor].
  intros c rooms calls r Hadd _.
  destruct (add_room_cases total_area c rooms calls)
    as [H|[r' [H [Hc [_ [Ha [Hmin [Hmax [Hlo Hhi]]]]]]]]];
    rewrite H in Hadd.
  - exfalso. injection Hadd as _ Hcalls. clear -Hcalls.
    induction calls; [discriminate|]. now injection Hcalls.
  - injection Hadd as Hrooms.
    apply app_inj_tail in Hrooms. destruct Hrooms as [_ <-].
    exists c. repeat split; assumption.
Qed.

Lemma remove_duplicates_incl (rooms : list RoomDetection.Room) :
  forall r, In r (RoomDetection.remove_duplicates rooms) -> In r rooms.
Proof.
  intros r Hr. unfold RoomDetection.remove_duplicates in Hr.
  apply (loop_incl RoomDetection.should_add RoomDetection.dedup_loop
           (fun _ => eq_refl) (fun _ _ _ => eq_refl)) in Hr.
  destruct Hr as [Hr|[]].
  eapply Permutation_in; [|exact Hr].
  apply Permutation_sym, sorted_reverse_perm.
Qed.

(** [process_floorplan] fails only by [load_image]; otherwise it writes the
    record of the rooms left by the overlap removal. *)
Lemma process_floorplan_cases (image_path : string) :
  (exists e,
      RoomDetection.load_image image_path = Raise e
      /\ RoomDetection.process_floorplan image_path = Raise e)
  \/ exists original st,
       RoomDetection.load_image image_path = Ok original
       /\ RoomDetection.detect_rooms original
            (fst (shape original) * snd (shape original))
            (RoomDetection.detect_text_regions
               (snd (RoomDetection.preprocess_for_text_detection original)))
            ([], 0%nat)
          = Ok st
       /\ Forall (Filter.built_from (fst (shape original) * snd (shape original)))
            (fst st)
       /\ RoomDetection.process_floorplan image_path
          = Ok ({| RoomDetection.Result.source := image_path;
                   RoomDetection.Result.width := snd (shape original);
                   RoomDetection.Result.height := fst (shape original);
                   RoomDetection.Result.floor :=
                     RoomDetection.floor_type_of image_path;
                   RoomDetection.Result.rooms :=
                     RoomDetection.rooms_json
                       (RoomDetection.remove_duplicates (fst st));
                   RoomDetection.Result.processingComplete := true |},
                RoomDetection.remove_duplicates (fst st)).
Proof.
  unfold RoomDetection.process_floorplan.
  destruct (RoomDetection.load_image image_path) as [original|e].
  - right. exists original. simpl.
    destruct (shape original) as [height width]. simpl.
    destruct (detect_rooms_built original (height * width)
                (RoomDetection.detect_text_regions
                   (cvtColor_RGB2GRAY original)))
      as [st [Hst Hb]].
    exists st. rewrite Hst. simpl. now repeat split.
  - left. exists e. now split.
Qed.

End SeedBuilder.

Section WallBuilder.
Context {cv : OpenCV} {host : Host}.

Lemma room_polygons_of_bands (min_area max_area : Q)
  (contours : list Contour) :
  forall p, In p (EnhancedRoomDetection.room_polygons_of min_area max_area
                    contours) ->
    min_area < EnhancedRoomDetection.p_area p
    /\ EnhancedRoomDetection.p_area p < max_area
    /\ 0.2 < EnhancedRoomDetection.p_aspect_ratio p
    /\ EnhancedRoomDetection.p_aspect_ratio p < 5.
Proof.
  induction contours as [|c contours IH]; intros p Hp; [destruct Hp|].
  simpl in Hp.
  destruct (Py.lt min_area (contourArea c)) eqn:E1; [|now apply IH].
  destruct (Py.lt (contourArea c) max_area) eqn:E2; [|now apply IH].
  simpl in Hp.
  destruct (boundingRect (approxPolyDP c (0.01 * arcLength c)))
    as [[[x y] w] h].
  set (ar := if (0 <? h)%Z then Py.float w / Py.float h else 0) in Hp.
  destruct (Py.lt 0.2 ar) eqn:E3; [|now apply IH].
  destruct (Py.lt ar 5.0) eqn:E4; [|now apply IH].
  simpl in Hp. destruct Hp as [<-|Hp]; [|now apply IH].
  apply lt_true in E1, E2, E3, E4. simpl.
  repeat split; try assumption. lra.
Qed.

Lemma find_room_polygons_bands (lines : option (list (Z * Z * Z * Z)))
  (height width : Z) :
  Forall
    (fun p =>
       Filter.in_bands (height * width) (EnhancedRoomDetection.p_area p)
         (EnhancedRoomDetection.p_aspect_ratio p))
    (EnhancedRoomDetection.find_room_polygons lines (height, width)).
Proof.
  apply Forall_forall. intros p Hp.
  unfold EnhancedRoomDetection.find_room_polygons in Hp.
  apply room_polygons_of_bands in Hp. exact Hp.
Qed.

(** The annotation loop does not fail on polygons that passed the filter,
    and keeps their areas and aspect ratios. *)
Lemma annotate_bands (total_area : Z)
  (room_polygons : list EnhancedRoomDetection.Polygon) :
  Forall
    (fun p =>
       Filter.in_bands total_area (EnhancedRoomDetection.p_area p)
         (EnhancedRoomDetection.p_aspect_ratio p))
    room_polygons ->
  forall calls,
    exists rooms,
      EnhancedRoomDetection.annotate total_area room_polygons calls
      = Ok rooms
      /\ Forall
           (fun r =>
              Filter.in_bands total_area (EnhancedRoomDetection.area r)
                (EnhancedRoomDetection.aspect_ratio r))
           rooms.
Proof.
  induction 1 as [|p polys Hp Hpolys IH]; intros calls.
  - exists []. split; [reflexivity|constructor].
  - simpl.
    assert (Ht : ~ Py.float total_area == 0).
    { destruct Hp as [H1 [H2 _]]. intros H. rewrite H in H1, H2. lra. }
    destruct (wall_classify_branch (EnhancedRoomDetection.p_area p)
                (EnhancedRoomDetection.p_aspect_ratio p)
                (Py.float total_area) Ht) as [b [_ [_ Hb]]].
    rewrite Hb. simpl.
    destruct (IH (S (S calls))) as [rooms [Hr Hbands]].
    rewrite Hr. simpl. eexists. split; [reflexivity|].
    constructor; [exact Hp|exact Hbands].
Qed.

Lemma remove_overlapping_rooms_incl
  (rooms : list EnhancedRoomDetection.Room) :
  forall r, In r (EnhancedRoomDetection.remove_overlapping_rooms rooms) ->
            In r rooms.
Proof.
  intros r Hr. rewrite remove_overlapping_rooms_loop in Hr.
  apply (loop_incl EnhancedRoomDetection.should_add
           EnhancedRoomDetection.filter_loop
           (fun _ => eq_refl) (fun _ _ _ => eq_refl)) in Hr.
  destruct Hr as [Hr|[]].
  eapply Permutation_in; [|exact Hr].
  apply Permutation_sym, sorted_reverse_perm.
Qed.

(** [process_floor_plan] fails only by [load_image]. *)
Lemma process_floor_plan_cases (image_path : string) :
  (exists e,
      EnhancedRoomDetection.load_image image_path = Raise e
      /\ EnhancedRoomDetection.process_floor_plan image_path = Raise e)
  \/ exists original rooms,
       EnhancedRoomDetection.load_image image_path = Ok original
       /\ EnhancedRoomDetection.annotate
            (fst (shape original) * snd (shape original))
            (Filter.polygons_of original) 0
          = Ok rooms
       /\ Forall
            (fun r =>
               Filter.in_bands (fst (shape original) * snd (shape original))
                 (EnhancedRoomDetection.area r)
                 (EnhancedRoomDetection.aspect_ratio r))
            rooms
       /\ EnhancedRoomDetection.process_floor_plan image_path
          = Ok ({| EnhancedRoomDetection.Result.source := image_path;
                   EnhancedRoomDetection.Result.width :=
                     snd (shape original);
                   EnhancedRoomDetection.Result.height :=
                     fst (shape original);
                   EnhancedRoomDetection.Result.floor :=
                     EnhancedRoomDetection.floor_type_of image_path;
                   EnhancedRoomDetection.Result.rooms :=
                     EnhancedRoomDetection.rooms_json
                       (EnhancedRoomDetection.remove_overlapping_rooms rooms);
                   EnhancedRoomDetection.Result.processingComplete := true;
                   EnhancedRoomDetection.Result.enhancedDetection := true |},
                EnhancedRoomDetection.remove_overlapping_rooms rooms).
Proof.
  unfold EnhancedRoomDetection.process_floor_plan.
  destruct (EnhancedRoomDetection.load_image image_path) as [original|e].
  - right. exists original. cbn [bind]. unfold Filter.polygons_of.
    destruct (shape original) as [height width]. cbn [fst snd].
    destruct (annotate_bands (height * width) _
                (find_room_polygons_bands
                   (EnhancedRoomDetection.apply_hough_transform
                      (EnhancedRoomDetection.determine_region_of_interest
                         (EnhancedRoomDetection.edge_detection
                            (EnhancedRoomDetection.apply_gaussian_smoothing
                               (EnhancedRoomDetection.color_selection
                                  original)))))
                   height width) 0%nat)
      as [rooms [Hr Hb]].
    exists rooms. rewrite Hr. cbn [bind]. now repeat split.
  - left. exists e. now split.
Qed.

End WallBuilder.

(** C3, as the code has it.  Every room of the result comes from a
    candidate that passed the filter.  In the wall-reconstruction script
    the area of the room lies strictly between 0.003 and 0.5 of
    [total_area] and its aspect ratio strictly between 0.2 and 5.  In the
    seed-anchored script the area measured on the contour lies strictly
    between 0.003 and 0.6 of [total_area] and the aspect ratio strictly
    between 0.1 and 10; the record holds the measured area cut to an
    integer, which stays below 0.6 of [total_area] and above 0.003 of
    [total_area] minus one. *)
Theorem rooms_within_bands :
  forall (cv : OpenCV) (host : Host) (image_path : string),
    (forall res filtered_rooms,
        RoomDetection.process_floorplan image_path
        = Ok (res, filtered_rooms) ->
        forall r, In r filtered_rooms ->
          let total_area :=
            Py.float (RoomDetection.Result.height res
                      * RoomDetection.Result.width res) in
          (exists c : Contour,
              RoomDetection.contour r = tolist c
              /\ RoomDetection.area r = Py.int (contourArea c)
              /\ 0.003 * total_area < contourArea c
              /\ contourArea c < 0.6 * total_area)
          /\ 0.003 * total_area - 1 < Py.float (RoomDetection.area r)
          /\ Py.float (RoomDetection.area r) < 0.6 * total_area
          /\ 0.1 < RoomDetection.aspect_ratio r
          /\ RoomDetection.aspect_ratio r < 10)
    /\ (forall res filtered_rooms,
           EnhancedRoomDetection.process_floor_plan image_path
           = Ok (res, filtered_rooms) ->
           forall r, In r filtered_rooms ->
             let total_area :=
               Py.float (EnhancedRoomDetection.Result.height res
                         * EnhancedRoomDetection.Result.width res) in
             0.003 * total_area < EnhancedRoomDetection.area r
             /\ EnhancedRoomDetection.area r < 0.5 * total_area
             /\ 0.2 < EnhancedRoomDetection.aspect_ratio r
             /\ EnhancedRoomDetection.aspect_ratio r < 5).
Proof.
  intros cv host image_path. split.
  - intros res filtered Hrun r Hr.
    destruct (process_floorplan_cases image_path)
      as [[e [_ He]]|[original [st [_ [_ [Hb Hok]]]]]]; [congruence|].
    rewrite Hok in Hrun. injection Hrun as <- <-. simpl.
    apply remove_duplicates_incl in Hr.
    rewrite Forall_forall in Hb.
    destruct (Hb r Hr) as [c [Hc [Ha [Hmin [Hmax [Hlo Hhi]]]]]].
    set (T := Py.float (fst (shape original) * snd (shape original))) in *.
    assert (Hpos : 0 <= contourArea c) by lra.
    destruct (int_bounds (contourArea c) Hpos) as [Hle Hgt].
    rewrite <- Ha in Hle, Hgt.
    split; [exists c; repeat split; try assumption; lra|].
    repeat split; try assumption; lra.
  - intros res filtered Hrun r Hr.
    destruct (process_floor_plan_cases image_path)
      as [[e [_ He]]|[original [rooms [_ [_ [Hb Hok]]]]]]; [congruence|].
    rewrite Hok in Hrun. injection Hrun as <- <-. simpl.
    apply remove_overlapping_rooms_incl in Hr.
    rewrite Forall_forall in Hb.
    destruct (Hb r Hr) as [Hmin [Hmax [Hlo Hhi]]].
    repeat split; try assumption; lra.
Qed.

(** The plan with one room of 200 x 150 pixels, under both scripts. *)
Lemma rooms_within_bands_witness :
  (exists res r,
      RoomDetection.process_floorplan
        (cv := Synthetic.opencv Synthetic.one_room) (host := Synthetic.host)
        "ground_floor.png" = Ok (res, [r])
      /\ In r [r]
      /\ RoomDetection.area r = 29651%Z
      /\ 0.003 * Py.float (300 * 400) - 1 < Py.float (RoomDetection.area r)
      /\ Py.float (RoomDetection.area r) < 0.6 * Py.float (300 * 400))
  /\ (exists res r,
         EnhancedRoomDetection.process_floor_plan
           (cv := Synthetic.opencv Synthetic.one_room)
           (host := Synthetic.host) "ground_floor.png" = Ok (res, [r])
         /\ In r [r]
         /\ 0.003 * Py.float (300 * 400) < EnhancedRoomDetection.area r
         /\ EnhancedRoomDetection.area r < 0.5 * Py.float (300 * 400)).
Proof.
  destruct (rooms_within_bands (Synthetic.opencv Synthetic.one_room)
              Synthetic.host "ground_floor.png") as [Hs Hw].
  split.
  - eexists. eexists.
    assert (Hrun : RoomDetection.process_floorplan
                     (cv := Synthetic.opencv Synthetic.one_room)
                     (host := Synthetic.host) "ground_floor.png"
                   = Ok (_, [_])) by (vm_compute; reflexivity).
    split; [exact Hrun|]. split; [now left|]. split; [reflexivity|].
    destruct (Hs _ _ Hrun _ (or_introl eq_refl)) as [_ [H1 [H2 _]]].
    split; [exact H1|exact H2].
  - eexists. eexists.
    assert (Hrun : EnhancedRoomDetection.process_floor_plan
                     (cv := Synthetic.opencv Synthetic.one_room)
                     (host := Synthetic.host) "ground_floor.png"
                   = Ok (_, [_])) by (vm_compute; reflexivity).
    split; [exact Hrun|]. split; [now left|].
    destruct (Hw _ _ Hrun _ (or_introl eq_refl)) as [H1 [H2 _]].
    split; [exact H1|exact H2].
Defined.

(** C3, as stated, fails for the seed-anchored script: on the plan of
    501 x 100 pixels the contour of area 150.5 passes the lower bound
    0.003 * 50100 = 150.3, and the room of the result has area 150. *)
Lemma rooms_within_bands_counterexample :
  exists res r,
    RoomDetection.process_floorplan
      (cv := Synthetic.opencv Synthetic.sliver) (host := Synthetic.host)
      "plan.png" = Ok (res, [r])
    /\ RoomDetection.Result.height res = 100%Z
    /\ RoomDetection.Result.width res = 501%Z
    /\ RoomDetection.area r = 150%Z
    /\ ~ (0.003 * Py.float (100 * 501) <= Py.float (RoomDetection.area r)).
Proof.
  eexists. eexists.
  split; [vm_compute; reflexivity|].
  repeat split. intros H. vm_compute in H. now apply H.
Qed.

(** ** The orchestrators

    A run that raises is the terminal state [Failed]; a run that returns
    has written its record and is the terminal state [Completed]. *)

(** C8, as the code has it.  A run fails exactly when [load_image] fails,
    with the same exception.  When the image loads the run completes, also
    with zero candidates: the record is written with
    [processingComplete = True], and with zero candidates its list of rooms
    is empty. *)
Theorem zero_candidates_complete :
  forall (cv : OpenCV) (host : Host) (image_path : string),
    (forall e,
        RoomDetection.process_floorplan image_path = Raise e
        <-> RoomDetection.load_image image_path = Raise e)
    /\ (forall original,
           RoomDetection.load_image image_path = Ok original ->
           exists st res,
             RoomDetection.detect_rooms original
               (fst (shape original) * snd (shape original))
               (RoomDetection.detect_text_regions
                  (snd (RoomDetection.preprocess_for_text_detection
                          original)))
               ([], 0%nat)
             = Ok st
             /\ RoomDetection.process_floorplan image_path
                = Ok (res, RoomDetection.remove_duplicates (fst st))
             /\ RoomDetection.Result.processingComplete res = true
             /\ (fst st = [] ->
                 RoomDetection.Result.rooms res = []
                 /\ RoomDetection.remove_duplicates (fst st) = []))
    /\ (forall e,
           EnhancedRoomDetection.process_floor_plan image_path = Raise e
           <-> EnhancedRoomDetection.load_image image_path = Raise e)
    /\ (forall original,
           EnhancedRoomDetection.load_image image_path = Ok original ->
           exists rooms res,
             EnhancedRoomDetection.annotate
               (fst (shape original) * snd (shape original))
               (Filter.polygons_of original) 0
             = Ok rooms
             /\ EnhancedRoomDetection.process_floor_plan image_path
                = Ok (res,
                      EnhancedRoomDetection.remove_overlapping_rooms rooms)
             /\ EnhancedRoomDetection.Result.processingComplete res = true
             /\ (Filter.polygons_of original = [] ->
                 EnhancedRoomDetection.Result.rooms res = []
                 /\ EnhancedRoomDetection.remove_overlapping_rooms rooms
                    = [])).
Proof.
  intros cv host image_path.
  split; [|split; [|split]].
  - intros e.
    destruct (process_floorplan_cases image_path)
      as [[e' [Hl Hp]]|[original [st [Hl [_ [_ Hp]]]]]];
      rewrite Hl, Hp; split; congruence.
  - intros original Hload.
    destruct (process_floorplan_cases image_path)
      as [[e' [Hl Hp]]|[original' [st [Hl [Hd [_ Hp]]]]]]; [congruence|].
    assert (original' = original) by congruence. subst original'.
    exists st. eexists. split; [exact Hd|]. split; [exact Hp|].
    split; [reflexivity|]. intros ->. split; reflexivity.
  - intros e.
    destruct (process_floor_plan_cases image_path)
      as [[e' [Hl Hp]]|[original [rooms [Hl [_ [_ Hp]]]]]];
      rewrite Hl, Hp; split; congruence.
  - intros original Hload.
    destruct (process_floor_plan_cases image_path)
      as [[e' [Hl Hp]]|[original' [rooms [Hl [Ha [_ Hp]]]]]]; [congruence|].
    assert (original' = original) by congruence. subst original'.
    exists rooms. eexists. split; [exact Ha|]. split; [exact Hp|].
    split; [reflexivity|]. intros Hnil. rewrite Hnil in Ha.
    simpl in Ha. injection Ha as <-. split; reflexivity.
Qed.

(** The blank plan, on which no stage finds a candidate. *)
Lemma zero_candidates_complete_witness :
  (RoomDetection.load_image (cv := Synthetic.opencv Synthetic.blank)
     (host := Synthetic.host) "blank.png" = Ok Synthetic.blank
   /\ exists res,
        RoomDetection.process_floorplan
          (cv := Synthetic.opencv Synthetic.blank) (host := Synthetic.host)
          "blank.png" = Ok (res, [])
        /\ RoomDetection.Result.processingComplete res = true
        /\ RoomDetection.Result.rooms res = [])
  /\ (EnhancedRoomDetection.load_image
        (cv := Synthetic.opencv Synthetic.blank) (host := Synthetic.host)
        "blank.png" = Ok Synthetic.blank
      /\ Filter.polygons_of (cv := Synthetic.opencv Synthetic.blank)
           Synthetic.blank = []
      /\ exists res,
           EnhancedRoomDetection.process_floor_plan
             (cv := Synthetic.opencv Synthetic.blank)
             (host := Synthetic.host) "blank.png" = Ok (res, [])
           /\ EnhancedRoomDetection.Result.processingComplete res = true
           /\ EnhancedRoomDetection.Result.rooms res = []).
Proof.
  destruct (zero_candidates_complete (Synthetic.opencv Synthetic.blank)
              Synthetic.host "blank.png") as [_ [Hs [_ Hw]]].
  split.
  - assert (Hload : RoomDetection.load_image
                      (cv := Synthetic.opencv Synthetic.blank)
                      (host := Synthetic.host) "blank.png"
                    = Ok Synthetic.blank) by reflexivity.
    split; [exact Hload|].
    destruct (Hs _ Hload) as [st [res [Hd [Hp [Hc Hz]]]]].
    assert (Hst : fst st = []).
    { vm_compute in Hd. injection Hd as <-. reflexivity. }
    destruct (Hz Hst) as [Hrooms Hfiltered].
    exists res. rewrite Hfiltered in Hp. now repeat split.
  - assert (Hload : EnhancedRoomDetection.load_image
                      (cv := Synthetic.opencv Synthetic.blank)
                      (host := Synthetic.host) "blank.png"
                    = Ok Synthetic.blank) by reflexivity.
    assert (Hnil : Filter.polygons_of
                     (cv := Synthetic.opencv Synthetic.blank)
                     Synthetic.blank = []) by reflexivity.
    split; [exact Hload|]. split; [exact Hnil|].
    destruct (Hw _ Hload) as [rooms [res [Ha [Hp [Hc Hz]]]]].
    destruct (Hz Hnil) as [Hrooms Hfiltered].
    exists res. rewrite Hfiltered in Hp. now repeat split.
Defined.

(** C8, as stated, fails: on the blank plan no stage of either script
    yields a candidate, and both runs return with an empty list of rooms
    and [processingComplete = True] instead of raising. *)
Lemma zero_candidates_complete_counterexample :
  (RoomDetection.detect_rooms (cv := Synthetic.opencv Synthetic.blank)
     (host := Synthetic.host) Synthetic.blank (300 * 400)
     (RoomDetection.detect_text_regions
        (cv := Synthetic.opencv Synthetic.blank) Synthetic.blank)
     ([], 0%nat)
   = Ok ([], 0%nat)
   /\ (exists res,
          RoomDetection.process_floorplan
            (cv := Synthetic.opencv Synthetic.blank)
            (host := Synthetic.host) "blank.png" = Ok (res, [])
          /\ RoomDetection.Result.rooms res = []
          /\ RoomDetection.Result.processingComplete res = true)
   /\ forall e,
        RoomDetection.process_floorplan
          (cv := Synthetic.opencv Synthetic.blank) (host := Synthetic.host)
          "blank.png" <> Raise e)
  /\ (Filter.polygons_of (cv := Synthetic.opencv Synthetic.blank)
        Synthetic.blank = []
      /\ (exists res,
             EnhancedRoomDetection.process_floor_plan
               (cv := Synthetic.opencv Synthetic.blank)
               (host := Synthetic.host) "blank.png" = Ok (res, [])
             /\ EnhancedRoomDetection.Result.rooms res = []
             /\ EnhancedRoomDetection.Result.processingComplete res = true)
      /\ forall e,
           EnhancedRoomDetection.process_floor_plan
             (cv := Synthetic.opencv Synthetic.blank)
             (host := Synthetic.host) "blank.png" <> Raise e).
Proof.
  split; (split; [reflexivity|]); split;
    try (eexists; split; [vm_compute; reflexivity|split; reflexivity]);
    intros e; vm_compute; discriminate.
Qed.

(** ** The persisted record *)

Lemma forall2_map {A B : Type} (P : A -> B -> Prop) (f : A -> B)
  (l : list A) :
  (forall a, P a (f a)) -> Forall2 P l (map f l).
Proof.
  intros H. induction l; simpl; constructor; auto.
Qed.

Lemma seed_copy_items (room : RoomDetection.Room) :
  RoomDetection.copy_items (RoomDetection.items room) []
  = [ ("id", Py.VStr (RoomDetection.id room));
      ("name", Py.VStr (RoomDetection.name room));
      ("type", Py.VStr (RoomDetection.type room));
      ("x", Py.VInt (RoomDetection.x room));
      ("y", Py.VInt (RoomDetection.y room));
      ("width", Py.VInt (RoomDetection.width room));
      ("height", Py.VInt (RoomDetection.height room));
      ("area", Py.VInt (RoomDetection.area room));
      ("aspect_ratio", Py.VFloat (RoomDetection.aspect_ratio room));
      ("confidence", Py.VFloat (RoomDetection.confidence room)) ].
Proof. reflexivity. Qed.

Lemma wall_copy_items (room : EnhancedRoomDetection.Room) :
  EnhancedRoomDetection.copy_items (EnhancedRoomDetection.items room) []
  = [ ("x", Py.VInt (EnhancedRoomDetection.x room));
      ("y", Py.VInt (EnhancedRoomDetection.y room));
      ("width", Py.VInt (EnhancedRoomDetection.width room));
      ("height", Py.VInt (EnhancedRoomDetection.height room));
      ("area", Py.VFloat (EnhancedRoomDetection.area room));
      ("aspect_ratio", Py.VFloat (EnhancedRoomDetection.aspect_ratio room));
      ("type", Py.VStr (EnhancedRoomDetection.type room));
      ("id", Py.VStr (EnhancedRoomDetection.id room));
      ("name", Py.VStr (EnhancedRoomDetection.name room));
      ("confidence", Py.VFloat (EnhancedRoomDetection.confidence room)) ].
Proof. reflexivity. Qed.

(** Looks a symbolic key up in a dictionary with known keys. *)
Ltac lookup_key k E :=
  cbn -[String.eqb];
  repeat match goal with
  | |- context [String.eqb ?s k] =>
      lazymatch s with
      | "contour" => rewrite E
      | _ => destruct (String.eqb s k)
      end
  end; reflexivity.

Lemma seed_external_frame (room : RoomDetection.Room) :
  let d := RoomDetection.copy_items (RoomDetection.items room) [] in
  Py.keys d
  = [ "id"; "name"; "type"; "x"; "y"; "width"; "height"; "area";
      "aspect_ratio"; "confidence" ]
  /\ forall k,
       Py.get d k
       = if String.eqb k "contour" then None
         else Py.get (RoomDetection.items room) k.
Proof.
  split; [reflexivity|].
  intros k. rewrite seed_copy_items.
  destruct (String.eqb k "contour") eqn:E.
  - apply String.eqb_eq in E. subst k. reflexivity.
  - rewrite String.eqb_sym in E. lookup_key k E.
Qed.

Lemma wall_external_frame (room : EnhancedRoomDetection.Room) :
  let d :=
    EnhancedRoomDetection.copy_items (EnhancedRoomDetection.items room) [] in
  Py.keys d
  = [ "x"; "y"; "width"; "height"; "area"; "aspect_ratio"; "type"; "id";
      "name"; "confidence" ]
  /\ forall k,
       Py.get d k
       = if String.eqb k "contour" then None
         else Py.get (EnhancedRoomDetection.items room) k.
Proof.
  split; [reflexivity|].
  intros k. rewrite wall_copy_items.
  destruct (String.eqb k "contour") eqn:E.
  - apply String.eqb_eq in E. subst k. reflexivity.
  - rewrite String.eqb_sym in E. lookup_key k E.
Qed.

(** C9.  In the record that a run writes, the dictionary of every room is
    the room of the returned list without its contour: its keys are [id],
    [name], [type], [x], [y], [width], [height], [area], [aspect_ratio] and
    [confidence] (in the insertion order of each script), each with the
    value it has in the room, and there is no key [contour]. *)
Theorem external_room_is_room_without_contour :
  forall (cv : OpenCV) (host : Host) (image_path : string),
    (forall res filtered_rooms,
        RoomDetection.process_floorplan image_path
        = Ok (res, filtered_rooms) ->
        Forall2
          (fun room d =>
             Py.keys d
             = [ "id"; "name"; "type"; "x"; "y"; "width"; "height"; "area";
                 "aspect_ratio"; "confidence" ]
             /\ forall k,
                  Py.get d k
                  = if String.eqb k "contour" then None
                    else Py.get (RoomDetection.items room) k)
          filtered_rooms (RoomDetection.Result.rooms res))
    /\ (forall res filtered_rooms,
           EnhancedRoomDetection.process_floor_plan image_path
           = Ok (res, filtered_rooms) ->
           Forall2
             (fun room d =>
                Py.keys d
                = [ "x"; "y"; "width"; "height"; "area"; "aspect_ratio";
                    "type"; "id"; "name"; "confidence" ]
                /\ forall k,
                     Py.get d k
                     = if String.eqb k "contour" then None
                       else Py.get (EnhancedRoomDetection.items room) k)
             filtered_rooms (EnhancedRoomDetection.Result.rooms res)).
Proof.
  intros cv host image_path. split.
  - intros res filtered Hrun.
    destruct (process_floorplan_cases image_path)
      as [[e [_ He]]|[original [st [_ [_ [_ Hok]]]]]]; [congruence|].
    rewrite Hok in Hrun. injection Hrun as <- <-. simpl.
    apply forall2_map. intros room. apply seed_external_frame.
  - intros res filtered Hrun.
    destruct (process_floor_plan_cases image_path)
      as [[e [_ He]]|[original [rooms [_ [_ [_ Hok]]]]]]; [congruence|].
    rewrite Hok in Hrun. injection Hrun as <- <-. simpl.
    apply forall2_map. intros room. apply wall_external_frame.
Qed.

(** The plan with one room: the record of each script holds one dictionary,
    whose [area] is the area of the returned room and which has no
    [contour]. *)
Lemma external_room_is_room_without_contour_witness :
  (exists res r d,
      RoomDetection.process_floorplan
        (cv := Synthetic.opencv Synthetic.one_room) (host := Synthetic.host)
        "ground_floor.png" = Ok (res, [r])
      /\ RoomDetection.Result.rooms res = [d]
      /\ Py.get d "area" = Some (Py.VInt (RoomDetection.area r))
      /\ Py.get d "contour" = None)
  /\ (exists res r d,
         EnhancedRoomDetection.process_floor_plan
           (cv := Synthetic.opencv Synthetic.one_room)
           (host := Synthetic.host) "ground_floor.png" = Ok (res, [r])
         /\ EnhancedRoomDetection.Result.rooms res = [d]
         /\ Py.get d "area" = Some (Py.VFloat (EnhancedRoomDetection.area r))
         /\ Py.get d "contour" = None).
Proof.
  destruct (external_room_is_room_without_contour
              (Synthetic.opencv Synthetic.one_room) Synthetic.host
              "ground_floor.png") as [Hs Hw].
  split.
  - eexists. eexists. eexists.
    assert (Hrun : RoomDetection.process_floorplan
                     (cv := Synthetic.opencv Synthetic.one_room)
                     (host := Synthetic.host) "ground_floor.png"
                   = Ok (_, [_])) by (vm_compute; reflexivity).
    split; [exact Hrun|]. split; [reflexivity|].
    pose proof (Hs _ _ Hrun) as H.
    inversion H as [|room d l l' [_ Hg] _]; subst.
    split; [rewrite (Hg "area")|rewrite (Hg "contour")]; reflexivity.
  - eexists. eexists. eexists.
    assert (Hrun : EnhancedRoomDetection.process_floor_plan
                     (cv := Synthetic.opencv Synthetic.one_room)
                     (host := Synthetic.host) "ground_floor.png"
                   = Ok (_, [_])) by (vm_compute; reflexivity).
    split; [exact Hrun|]. split; [reflexivity|].
    pose proof (Hw _ _ Hrun) as H.
    inversion H as [|room d l l' [_ Hg] _]; subst.
    split; [rewrite (Hg "area")|rewrite (Hg "contour")]; reflexivity.
Defined.

(** * Further properties of the two scripts *)

(** ** The overlap resolvers: what is kept and what is dropped *)

Lemma subsequence_refl {A : Type} (l : list A) : Selection.subsequence l l.
Proof. induction l; constructor; assumption. Qed.

Lemma subsequence_in {A : Type} (kept l : list A) :
  Selection.subsequence kept l -> forall a, In a kept -> In a l.
Proof.
  induction 1 as [|b kept l H IH|b kept l H IH]; intros a Ha.
  - destruct Ha.
  - right. now apply IH.
  - destruct Ha as [<-|Ha]; [now left|right; now apply IH].
Qed.

Lemma subsequence_sorted {A : Type} (R : A -> A -> Prop) (kept l : list A) :
  Selection.subsequence kept l -> StronglySorted R l -> StronglySorted R kept.
Proof.
  induction 1 as [|b kept l H IH|b kept l H IH]; intros Hs.
  - constructor.
  - inversion Hs; subst. now apply IH.
  - inversion Hs as [|? ? Hl Hb]; subst. constructor; [now apply IH|].
    rewrite Forall_forall in Hb |- *. intros a Ha. apply Hb.
    eapply subsequence_in; eassumption.
Qed.

Lemma ordpairs_app_head {A : Type} (R : A -> A -> Prop) (acc : list A)
  (r : A) (rest : list A) :
  ForallOrdPairs R (acc ++ r :: rest) -> forall e, In e acc -> R e r.
Proof.
  induction acc as [|a acc IH]; intros H e He; [destruct He|].
  simpl in H. inversion H as [|? ? Ha Hrest]; subst.
  destruct He as [<-|He].
  - rewrite Forall_forall in Ha. apply Ha. apply in_or_app. right. now left.
  - now apply IH.
Qed.

Section GreedyLoopKept.
Context {A : Type}.
Variable key : A -> Q.
Variable test : A -> A -> bool.
Variable should_add : A -> list A -> bool.
Variable loop : list A -> list A -> list A.

Hypothesis should_add_nil : forall r, should_add r [] = true.
Hypothesis should_add_cons : forall r e rest,
  should_add r (e :: rest) = if test r e then false else should_add r rest.
Hypothesis loop_nil : forall acc, loop [] acc = acc.
Hypothesis loop_cons : forall r rest acc,
  loop (r :: rest) acc
  = loop rest (if should_add r acc then acc ++ [r] else acc).

Lemma loop_kept (l acc : list A) :
  exists kept, loop l acc = acc ++ kept /\ Selection.subsequence kept l.
Proof.
  revert acc. induction l as [|r l IH]; intros acc.
  - exists []. rewrite loop_nil, app_nil_r. split; constructor.
  - rewrite loop_cons. destruct (should_add r acc).
    + destruct (IH (acc ++ [r])) as [kept [Hk Hs]].
      exists (r :: kept). rewrite Hk, <- app_assoc. split; [reflexivity|].
      now constructor.
    + destruct (IH acc) as [kept [Hk Hs]].
      exists kept. split; [exact Hk|]. now constructor.
Qed.

Lemma loop_head (r : A) (l : list A) :
  exists kept, loop (r :: l) [] = r :: kept.
Proof.
  rewrite loop_cons, should_add_nil.
  destruct (loop_kept l ([] ++ [r])) as [kept [Hk _]].
  exists kept. exact Hk.
Qed.

Lemma loop_fixed (res acc : list A) :
  ForallOrdPairs (fun e r => test r e = false) (acc ++ res) ->
  loop res acc = acc ++ res.
Proof.
  revert acc. induction res as [|r res IH]; intros acc H.
  - now rewrite loop_nil, app_nil_r.
  - rewrite loop_cons.
    assert (Hadd : should_add r acc = true).
    { apply (should_add_true test should_add should_add_nil should_add_cons).
      intros e He. exact (ordpairs_app_head _ _ _ _ H e He). }
    rewrite Hadd. rewrite IH; rewrite <- app_assoc; [reflexivity|exact H].
Qed.

Lemma loop_idempotent (l : list A) : loop (loop l []) [] = loop l [].
Proof.
  apply (loop_fixed (loop l []) []). simpl.
  apply (loop_ordpairs test should_add loop should_add_nil should_add_cons
           loop_nil loop_cons l []).
  constructor.
Qed.

Lemma loop_keeps_acc (l acc : list A) :
  forall e, In e acc -> In e (loop l acc).
Proof.
  intros e He. destruct (loop_kept l acc) as [kept [-> _]].
  apply in_or_app. now left.
Qed.

Lemma loop_dominated (l acc : list A) :
  StronglySorted (fun a b => key b <= key a) l ->
  (forall e, In e acc -> forall a, In a l -> key a <= key e) ->
  forall r, In r l ->
    In r (loop l acc)
    \/ exists e, In e (loop l acc) /\ test r e = true /\ key r <= key e.
Proof.
  revert acc. induction l as [|a l IH]; intros acc Hs Hacc r Hr;
    [destruct Hr|].
  inversion Hs as [|? ? Hl Ha]; subst. rewrite Forall_forall in Ha.
  rewrite loop_cons.
  destruct Hr as [<-|Hr].
  - destruct (should_add a acc) eqn:E.
    + left. apply loop_keeps_acc. apply in_or_app. right. now left.
    + right.
      apply (should_add_false test should_add should_add_nil should_add_cons)
        in E.
      destruct E as [e [He Hte]]. exists e.
      split; [now apply loop_keeps_acc|]. split; [exact Hte|].
      apply (Hacc e He). now left.
  - apply IH; [exact Hl| |exact Hr].
    intros e He b Hb.
    destruct (should_add a acc).
    + apply in_app_or in He. destruct He as [He|[<-|[]]].
      * apply (Hacc e He). now right.
      * now apply Ha.
    + apply (Hacc e He). now right.
Qed.

End GreedyLoopKept.

Lemma sorted_reverse_fixed {A : Type} (key : A -> Q) (l : list A) :
  StronglySorted (fun a b => key b <= key a) l ->
  Py.sorted_reverse key l = l.
Proof.
  induction 1 as [|a l Hl IH Ha]; [reflexivity|].
  simpl. rewrite IH. destruct l as [|b l']; [reflexivity|].
  simpl. inversion Ha as [|? ? Hb _]; subst.
  now rewrite (proj2 (lt_false (key a) (key b)) Hb).
Qed.

Lemma seed_result_kept (rooms : list RoomDetection.Room) :
  Selection.subsequence (RoomDetection.remove_duplicates rooms)
    (Py.sorted_reverse (fun r => Py.float (RoomDetection.area r)) rooms).
Proof.
  unfold RoomDetection.remove_duplicates.
  destruct (loop_kept RoomDetection.should_add RoomDetection.dedup_loop
              (fun _ => eq_refl) (fun _ _ _ => eq_refl)
              (Py.sorted_reverse (fun r => Py.float (RoomDetection.area r))
                 rooms) [])
    as [kept [-> Hs]].
  exact Hs.
Qed.

Lemma wall_result_kept (rooms : list EnhancedRoomDetection.Room) :
  Selection.subsequence
    (EnhancedRoomDetection.remove_overlapping_rooms rooms)
    (Py.sorted_reverse EnhancedRoomDetection.area rooms).
Proof.
  rewrite remove_overlapping_rooms_loop.
  destruct (loop_kept EnhancedRoomDetection.should_add
              EnhancedRoomDetection.filter_loop
              (fun _ => eq_refl) (fun _ _ _ => eq_refl)
              (Py.sorted_reverse EnhancedRoomDetection.area rooms) [])
    as [kept [-> Hs]].
  exact Hs.
Qed.

Lemma subsequence_length {A : Type} (kept l : list A) :
  Selection.subsequence kept l -> (List.length kept <= List.length l)%nat.
Proof.
  induction 1; simpl; lia.
Qed.

(** X1.  The overlap resolution only leaves rooms out: its result is the
    list of candidates sorted by descending area with some rooms removed,
    so it is itself in descending order of area and no longer than the
    input. *)
Theorem resolver_result_is_sorted_selection :
  (forall rooms : list RoomDetection.Room,
      Selection.subsequence (RoomDetection.remove_duplicates rooms)
        (Py.sorted_reverse (fun r => Py.float (RoomDetection.area r)) rooms)
      /\ StronglySorted
           (fun a b => (RoomDetection.area b <= RoomDetection.area a)%Z)
           (RoomDetection.remove_duplicates rooms)
      /\ (List.length (RoomDetection.remove_duplicates rooms)
          <= List.length rooms)%nat)
  /\ (forall rooms : list EnhancedRoomDetection.Room,
         Selection.subsequence
           (EnhancedRoomDetection.remove_overlapping_rooms rooms)
           (Py.sorted_reverse EnhancedRoomDetection.area rooms)
         /\ StronglySorted
              (fun a b =>
                 EnhancedRoomDetection.area b <= EnhancedRoomDetection.area a)
              (EnhancedRoomDetection.remove_overlapping_rooms rooms)
         /\ (List.length
               (EnhancedRoomDetection.remove_overlapping_rooms rooms)
             <= List.length rooms)%nat).
Proof.
  split; intros rooms.
  - pose proof (seed_result_kept rooms) as Hs.
    split; [exact Hs|]. split.
    + eapply subsequence_sorted; [exact Hs|].
      eapply strongly_sorted_impl; [|apply sorted_reverse_sorted].
      intros a b H. unfold Py.float in H. now rewrite <- Zle_Qle in H.
    + rewrite (Permutation_length
                 (sorted_reverse_perm
                    (fun r => Py.float (RoomDetection.area r)) rooms)).
      now apply subsequence_length.
  - pose proof (wall_result_kept rooms) as Hs.
    split; [exact Hs|]. split.
    + eapply subsequence_sorted; [exact Hs|]. apply sorted_reverse_sorted.
    + rewrite (Permutation_length
                 (sorted_reverse_perm EnhancedRoomDetection.area rooms)).
      now apply subsequence_length.
Qed.

Lemma sorted_head_greatest {A : Type} (key : A -> Q) (rooms : list A)
  (r : A) (rest : list A) :
  Py.sorted_reverse key rooms = r :: rest ->
  In r rooms /\ forall r', In r' rooms -> key r' <= key r.
Proof.
  intros Hs.
  pose proof (sorted_reverse_perm key rooms) as Hp.
  pose proof (sorted_reverse_sorted key rooms) as Hd.
  rewrite Hs in Hp, Hd. split.
  - apply (Permutation_in _ (Permutation_sym Hp)). now left.
  - intros r' Hr'. apply (Permutation_in _ Hp) in Hr'.
    inversion Hd as [|? ? _ Hall]; subst. rewrite Forall_forall in Hall.
    destruct Hr' as [<-|Hr']; [apply Qle_refl|now apply Hall].
Qed.

Lemma sorted_reverse_nonempty {A : Type} (key : A -> Q) (rooms : list A) :
  rooms <> [] -> exists r rest, Py.sorted_reverse key rooms = r :: rest.
Proof.
  intros Hne. destruct (Py.sorted_reverse key rooms) as [|r rest] eqn:E.
  - exfalso. apply Hne.
    apply Permutation_nil. apply Permutation_sym.
    rewrite <- E. apply sorted_reverse_perm.
  - now exists r, rest.
Qed.

(** X2.  A largest candidate always survives the overlap resolution and
    comes first: for a non-empty list of candidates the result is not
    empty and its first room is a candidate whose area no candidate
    exceeds. *)
Theorem resolver_keeps_a_largest_room_first :
  (forall rooms : list RoomDetection.Room,
      rooms <> [] ->
      exists r rest,
        RoomDetection.remove_duplicates rooms = r :: rest
        /\ In r rooms
        /\ forall r', In r' rooms ->
             (RoomDetection.area r' <= RoomDetection.area r)%Z)
  /\ (forall rooms : list EnhancedRoomDetection.Room,
         rooms <> [] ->
         exists r rest,
           EnhancedRoomDetection.remove_overlapping_rooms rooms = r :: rest
           /\ In r rooms
           /\ forall r', In r' rooms ->
                EnhancedRoomDetection.area r' <= EnhancedRoomDetection.area r).
Proof.
  split; intros rooms Hne.
  - destruct (sorted_reverse_nonempty
                (fun r => Py.float (RoomDetection.area r)) rooms Hne)
      as [r [rest Hs]].
    destruct (sorted_head_greatest _ _ _ _ Hs) as [Hin Hmax].
    destruct (loop_head RoomDetection.should_add RoomDetection.dedup_loop
                (fun _ => eq_refl) (fun _ => eq_refl)
                (fun _ _ _ => eq_refl) r rest)
      as [kept Hk].
    exists r, kept. unfold RoomDetection.remove_duplicates. rewrite Hs.
    split; [exact Hk|]. split; [exact Hin|].
    intros r' Hr'. specialize (Hmax r' Hr'). unfold Py.float in Hmax.
    now rewrite <- Zle_Qle in Hmax.
  - destruct (sorted_reverse_nonempty EnhancedRoomDetection.area rooms Hne)
      as [r [rest Hs]].
    destruct (sorted_head_greatest _ _ _ _ Hs) as [Hin Hmax].
    destruct (loop_head EnhancedRoomDetection.should_add
                EnhancedRoomDetection.filter_loop
                (fun _ => eq_refl) (fun _ => eq_refl)
                (fun _ _ _ => eq_refl) r rest)
      as [kept Hk].
    exists r, kept. rewrite remove_overlapping_rooms_loop, Hs.
    split; [exact Hk|]. split; [exact Hin|exact Hmax].
Qed.

Lemma resolver_keeps_a_largest_room_first_witness :
  (exists rest,
      RoomDetection.remove_duplicates
        [ Synthetic.seed_room 10 10 50 50 2000;
          Synthetic.seed_room 50 0 100 100 8000;
          Synthetic.seed_room 0 0 100 100 9000 ]
      = Synthetic.seed_room 0 0 100 100 9000 :: rest)
  /\ (exists rest,
         EnhancedRoomDetection.remove_overlapping_rooms
           [ Synthetic.wall_room 10 10 50 50 2000;
             Synthetic.wall_room 60 0 100 100 8000;
             Synthetic.wall_room 0 0 100 100 9000 ]
         = Synthetic.wall_room 0 0 100 100 9000 :: rest).
Proof.
  split.
  - destruct (proj1 resolver_keeps_a_largest_room_first
                [ Synthetic.seed_room 10 10 50 50 2000;
                  Synthetic.seed_room 50 0 100 100 8000;
                  Synthetic.seed_room 0 0 100 100 9000 ])
      as [r [rest [Hr _]]]; [discriminate|].
    exists rest. rewrite Hr. f_equal.
    vm_compute in Hr. now injection Hr as <- _.
  - destruct (proj2 resolver_keeps_a_largest_room_first
                [ Synthetic.wall_room 10 10 50 50 2000;
                  Synthetic.wall_room 60 0 100 100 8000;
                  Synthetic.wall_room 0 0 100 100 9000 ])
      as [r [rest [Hr _]]]; [discriminate|].
    exists rest. rewrite Hr. f_equal.
    vm_compute in Hr. now injection Hr as <- _.
Defined.

(** X3.  Resolving overlaps a second time changes nothing. *)
Theorem resolver_idempotent :
  (forall rooms : list RoomDetection.Room,
      RoomDetection.remove_duplicates (RoomDetection.remove_duplicates rooms)
      = RoomDetection.remove_duplicates rooms)
  /\ (forall rooms : list EnhancedRoomDetection.Room,
         EnhancedRoomDetection.remove_overlapping_rooms
           (EnhancedRoomDetection.remove_overlapping_rooms rooms)
         = EnhancedRoomDetection.remove_overlapping_rooms rooms).
Proof.
  split; intros rooms.
  - pose proof (seed_result_kept rooms) as Hs.
    pose proof (subsequence_sorted _ _ _ Hs
                  (sorted_reverse_sorted
                     (fun r => Py.float (RoomDetection.area r)) rooms))
      as Hd.
    unfold RoomDetection.remove_duplicates at 1.
    rewrite (sorted_reverse_fixed _ _ Hd).
    unfold RoomDetection.remove_duplicates.
    apply (loop_idempotent RoomDetection.significant_overlap
             RoomDetection.should_add RoomDetection.dedup_loop
             (fun _ => eq_refl) (fun _ _ _ => eq_refl)
             (fun _ => eq_refl) (fun _ _ _ => eq_refl)).
  - pose proof (wall_result_kept rooms) as Hs.
    pose proof (subsequence_sorted _ _ _ Hs
                  (sorted_reverse_sorted EnhancedRoomDetection.area rooms))
      as Hd.
    rewrite (remove_overlapping_rooms_loop
               (EnhancedRoomDetection.remove_overlapping_rooms rooms)).
    rewrite (sorted_reverse_fixed _ _ Hd).
    rewrite remove_overlapping_rooms_loop.
    apply (loop_idempotent EnhancedRoomDetection.significant_overlap
             EnhancedRoomDetection.should_add
             EnhancedRoomDetection.filter_loop
             (fun _ => eq_refl) (fun _ _ _ => eq_refl)
             (fun _ => eq_refl) (fun _ _ _ => eq_refl)).
Qed.

(** X4.  Every candidate is either kept or dominated: a candidate that is
    not in the result is caught by the overlap test against a room of the
    result whose area is at least its own.  In the wall-reconstruction
    script the two bounding boxes then share more than 0.6 of the
    candidate's area; in the seed-anchored script they share more than the
    double product [0.7 * area], which is at least 7/10 of the candidate's
    area when that area is at most [2^48] pixels. *)
Theorem resolver_dropped_rooms_are_dominated :
  (forall (rooms : list RoomDetection.Room) (r : RoomDetection.Room),
      In r rooms ->
      In r (RoomDetection.remove_duplicates rooms)
      \/ exists e,
           In e (RoomDetection.remove_duplicates rooms)
           /\ (RoomDetection.area r <= RoomDetection.area e)%Z
           /\ F64.mul (F64.literal 0.7) (F64.of_int (RoomDetection.area r))
              < Py.float (RoomDetection.overlap_area r e)
           /\ ((RoomDetection.area r <= Resolver.exact_area)%Z ->
               0.7 * Py.float (RoomDetection.area r)
               <= Py.float (RoomDetection.overlap_area r e)))
  /\ (forall (rooms : list EnhancedRoomDetection.Room)
             (r : EnhancedRoomDetection.Room),
         In r rooms ->
         In r (EnhancedRoomDetection.remove_overlapping_rooms rooms)
         \/ exists e,
              In e (EnhancedRoomDetection.remove_overlapping_rooms rooms)
              /\ Resolver.wall_exceeds r e
              /\ EnhancedRoomDetection.area r <= EnhancedRoomDetection.area e).
Proof.
  split; intros rooms r Hr.
  - apply (Permutation_in _
             (sorted_reverse_perm
                (fun r => Py.float (RoomDetection.area r)) rooms)) in Hr.
    destruct (loop_dominated (fun r => Py.float (RoomDetection.area r))
                RoomDetection.significant_overlap
                RoomDetection.should_add RoomDetection.dedup_loop
                (fun _ => eq_refl) (fun _ _ _ => eq_refl)
                (fun _ => eq_refl) (fun _ _ _ => eq_refl)
                _ [] (sorted_reverse_sorted _ rooms)
                (fun e He => match He with end) r Hr)
      as [H|[e [He [Ht Hk]]]].
    + now left.
    + right. exists e. split; [exact He|].
      assert (Hle : (RoomDetection.area r <= RoomDetection.area e)%Z)
        by (unfold Py.float in Hk; now rewrite <- Zle_Qle in Hk).
      split; [exact Hle|].
      unfold RoomDetection.significant_overlap in Ht.
      apply gt_true in Ht. rewrite Z.min_l in Ht by exact Hle.
      split; [exact Ht|].
      intros Hb.
      now apply (seed_threshold_int _ _ (seed_overlap_area_nonneg r e) Hb).
  - rewrite remove_overlapping_rooms_loop.
    apply (Permutation_in _
             (sorted_reverse_perm EnhancedRoomDetection.area rooms)) in Hr.
    destruct (loop_dominated EnhancedRoomDetection.area
                EnhancedRoomDetection.significant_overlap
                EnhancedRoomDetection.should_add
                EnhancedRoomDetection.filter_loop
                (fun _ => eq_refl) (fun _ _ _ => eq_refl)
                (fun _ => eq_refl) (fun _ _ _ => eq_refl)
                _ [] (sorted_reverse_sorted _ rooms)
                (fun e He => match He with end) r Hr)
      as [H|[e [He [Ht Hk]]]].
    + now left.
    + right. exists e. split; [exact He|].
      split; [now apply wall_significant_exceeds|exact Hk].
Qed.

Lemma resolver_dropped_rooms_are_dominated_witness :
  (In (Synthetic.seed_room 10 10 50 50 2000)
      [ Synthetic.seed_room 10 10 50 50 2000;
        Synthetic.seed_room 50 0 100 100 8000;
        Synthetic.seed_room 0 0 100 100 9000 ]
   /\ exists e,
        In e (RoomDetection.remove_duplicates
                [ Synthetic.seed_room 10 10 50 50 2000;
                  Synthetic.seed_room 50 0 100 100 8000;
                  Synthetic.seed_room 0 0 100 100 9000 ])
        /\ (2000 <= RoomDetection.area e)%Z
        /\ F64.mul (F64.literal 0.7) (F64.of_int 2000)
           < Py.float
               (RoomDetection.overlap_area
                  (Synthetic.seed_room 10 10 50 50 2000) e)
        /\ 0.7 * Py.float 2000
           <= Py.float
                (RoomDetection.overlap_area
                   (Synthetic.seed_room 10 10 50 50 2000) e))
  /\ (In (Synthetic.wall_room 10 10 50 50 2000)
        [ Synthetic.wall_room 10 10 50 50 2000;
          Synthetic.wall_room 60 0 100 100 8000;
          Synthetic.wall_room 0 0 100 100 9000 ]
      /\ exists e,
           In e (EnhancedRoomDetection.remove_overlapping_rooms
                   [ Synthetic.wall_room 10 10 50 50 2000;
                     Synthetic.wall_room 60 0 100 100 8000;
                     Synthetic.wall_room 0 0 100 100 9000 ])
           /\ Resolver.wall_exceeds (Synthetic.wall_room 10 10 50 50 2000) e
           /\ 2000 <= EnhancedRoomDetection.area e).
Proof.
  split.
  - assert (Hin : In (Synthetic.seed_room 10 10 50 50 2000)
                    [ Synthetic.seed_room 10 10 50 50 2000;
                      Synthetic.seed_room 50 0 100 100 8000;
                      Synthetic.seed_room 0 0 100 100 9000 ]) by now left.
    split; [exact Hin|].
    destruct (proj1 resolver_dropped_rooms_are_dominated _ _ Hin)
      as [H|[e [He [Hle [Ht Hb]]]]].
    + exfalso. vm_compute in H.
      destruct H as [H|[H|[]]]; discriminate H.
    + exists e. repeat (split; [assumption|]).
      apply Hb. vm_compute. discriminate.
  - assert (Hin : In (Synthetic.wall_room 10 10 50 50 2000)
                    [ Synthetic.wall_room 10 10 50 50 2000;
                      Synthetic.wall_room 60 0 100 100 8000;
                      Synthetic.wall_room 0 0 100 100 9000 ]) by now left.
    split; [exact Hin|].
    destruct (proj2 resolver_dropped_rooms_are_dominated _ _ Hin)
      as [H|H]; [|exact H].
    exfalso. vm_compute in H.
    destruct H as [H|[H|[]]]; discriminate H.
Defined.

(** ** The region locator: ties and text regions *)

Lemma max_scan_first {A : Type} (key : A -> Q) (l : list A) (best : A) :
  exists pre post,
    best :: l = pre ++ Py.max_scan key best l :: post
    /\ (forall c, In c pre -> key c < key (Py.max_scan key best l))
    /\ (forall c, In c post -> key c <= key (Py.max_scan key best l)).
Proof.
  revert best. induction l as [|a l IH]; intros best.
  - exists [], []. simpl. repeat split; intros c [].
  - simpl. destruct (Py.lt (key best) (key a)) eqn:E.
    + apply lt_true in E. destruct (IH a) as [pre [post [Heq [Hpre Hpost]]]].
      exists (best :: pre), post. split; [simpl; now rewrite Heq|].
      split; [|exact Hpost].
      intros c [<-|Hc]; [|now apply Hpre].
      pose proof (max_scan_ge_best key l a). lra.
    + apply lt_false in E.
      destruct (IH best) as [pre [post [Heq [Hpre Hpost]]]].
      destruct pre as [|b pre].
      * simpl in Heq. injection Heq as Hb Hl.
        exists [], (a :: l). rewrite <- Hb. split; [reflexivity|].
        split; [intros c []|].
        intros c [<-|Hc]; [exact E|].
        rewrite Hb. apply Hpost. rewrite <- Hl. exact Hc.
      * simpl in Heq. injection Heq as <- Hl.
        exists (best :: a :: pre), post.
        split; [simpl; do 2 f_equal; exact Hl|]. split; [|exact Hpost].
        assert (Hbest : key best < key (Py.max_scan key best l))
          by (apply Hpre; now left).
        intros c [<-|[<-|Hc]]; [exact Hbest|lra|].
        apply Hpre. now right.
Qed.

(** X5.  When several extracted contours have the greatest area,
    [get_room_contour] returns the earliest of them: every contour before
    the returned one is strictly smaller, every contour after it is at most
    as large. *)
Theorem get_room_contour_first_of_the_largest :
  forall (cv : OpenCV) (image : Image) (text_region : Z * Z * Z * Z)
         (c : Contour),
    RoomDetection.get_room_contour image text_region = Ok (Some c) ->
    exists pre post,
      findContours (RoomDetection.room_mask image text_region)
      = pre ++ c :: post
      /\ (forall c', In c' pre -> contourArea c' < contourArea c)
      /\ (forall c', In c' post -> contourArea c' <= contourArea c).
Proof.
  intros cv image region c Hget.
  destruct (get_room_contour_cases image region)
    as [[_ H]|[c0 [rest [Hc H]]]]; rewrite H in Hget; [discriminate|].
  injection Hget as <-. rewrite Hc. apply max_scan_first.
Qed.

Lemma get_room_contour_first_of_the_largest_witness :
  RoomDetection.get_room_contour (cv := Synthetic.opencv Synthetic.one_room)
    Synthetic.one_room (180, 140, 30, 12)%Z
  = Ok (Some (Synthetic.box 100 75 200 150))
  /\ exists pre post,
       Synthetic.found Synthetic.one_room
       = pre ++ Synthetic.box 100 75 200 150 :: post
       /\ (forall c', In c' pre ->
             Synthetic.enclosed c'
             < Synthetic.enclosed (Synthetic.box 100 75 200 150)).
Proof.
  assert (H : RoomDetection.get_room_contour
                (cv := Synthetic.opencv Synthetic.one_room)
                Synthetic.one_room (180, 140, 30, 12)%Z
              = Ok (Some (Synthetic.box 100 75 200 150))) by reflexivity.
  split; [exact H|].
  destruct (get_room_contour_first_of_the_largest
              (Synthetic.opencv Synthetic.one_room) _ _ _ H)
    as [pre [post [Heq [Hpre _]]]].
  exists pre, post. split; [exact Heq|exact Hpre].
Defined.

Section TextRegions.
Context {cv : OpenCV}.

Lemma text_regions_of_spec (width height : Z) (contours : list Contour) :
  forall x y w h,
    In (x, y, w, h) (RoomDetection.text_regions_of width height contours) ->
    exists contour,
      In contour contours
      /\ boundingRect contour = (x, y, w, h)
      /\ 100 < contourArea contour /\ contourArea contour < 5000
      /\ Py.float w < Py.float width * 0.2
      /\ Py.float h < Py.float height * 0.2
      /\ (0 < h)%Z
      /\ 0.2 < Py.float w / Py.float h /\ Py.float w / Py.float h < 5.
Proof.
  induction contours as [|c contours IH]; intros x y w h Hin;
    [destruct Hin|].
  simpl in Hin.
  destruct (boundingRect c) as [[[x0 y0] w0] h0] eqn:Eb.
  match type of Hin with
  | In _ (if ?b then _ else _) => destruct b eqn:Ek
  end.
  - destruct Hin as [Heq|Hin].
    + injection Heq as <- <- <- <-. exists c.
      split; [now left|]. split; [exact Eb|].
      repeat (apply andb_true_iff in Ek; destruct Ek as [Ek ?]).
      repeat match goal with
      | H : Py.lt _ _ = true |- _ => apply lt_true in H
      | H : Py.gt _ _ = true |- _ => apply gt_true in H
      end.
      destruct (0 <? h0)%Z eqn:Eh;
        match goal with
        | H : _ && _ = true |- _ =>
            apply andb_true_iff in H; destruct H as [Hlo Hhi];
            apply lt_true in Hlo, Hhi
        end.
      * apply Z.ltb_lt in Eh. repeat split; try assumption; lra.
      * exfalso. lra.
    + destruct (IH _ _ _ _ Hin) as [c' [Hc' H']].
      exists c'. split; [now right|exact H'].
  - destruct (IH _ _ _ _ Hin) as [c' [Hc' H']].
    exists c'. split; [now right|exact H'].
Qed.

End TextRegions.

(** X6.  Every text region that [detect_text_regions] returns is the
    bounding box of a contour found on the inverse-thresholded image whose
    area lies strictly between 100 and 5000, whose width and height are
    below a fifth of the image's, and whose width over height lies strictly
    between 0.2 and 5; in particular its height is positive. *)
Theorem detect_text_regions_are_small_boxes :
  forall (cv : OpenCV) (gray : Raster) (x y w h : Z),
    In (x, y, w, h) (RoomDetection.detect_text_regions gray) ->
    exists contour,
      In contour (findContours (threshold gray 150 255 THRESH_BINARY_INV))
      /\ boundingRect contour = (x, y, w, h)
      /\ 100 < contourArea contour /\ contourArea contour < 5000
      /\ Py.float w < Py.float (snd (raster_shape gray)) * 0.2
      /\ Py.float h < Py.float (fst (raster_shape gray)) * 0.2
      /\ (0 < h)%Z
      /\ 0.2 < Py.float w / Py.float h /\ Py.float w / Py.float h < 5.
Proof.
  intros cv gray x y w h Hin. unfold RoomDetection.detect_text_regions in Hin.
  destruct (raster_shape gray) as [height width]. simpl.
  now apply text_regions_of_spec.
Qed.

Lemma detect_text_regions_are_small_boxes_witness :
  In (180, 140, 30, 12)%Z
    (RoomDetection.detect_text_regions
       (cv := Synthetic.opencv Synthetic.one_room) Synthetic.one_room)
  /\ exists contour,
       Synthetic.rect contour = (180, 140, 30, 12)%Z
       /\ 100 < Synthetic.enclosed contour
       /\ Synthetic.enclosed contour < 5000.
Proof.
  assert (Hin : In (180, 140, 30, 12)%Z
                  (RoomDetection.detect_text_regions
                     (cv := Synthetic.opencv Synthetic.one_room)
                     Synthetic.one_room)) by (now left).
  split; [exact Hin|].
  destruct (detect_text_regions_are_small_boxes
              (Synthetic.opencv Synthetic.one_room) _ _ _ _ _ Hin)
    as [c [_ [Hb [H1 [H2 _]]]]].
  exists c. now repeat split.
Defined.

Lemma seed_load_image_raises {cv : OpenCV} {host : Host}
  (image_path : string) (e : exn) :
  RoomDetection.load_image image_path = Raise e
  <-> (e = FileNotFoundError /\ path_exists image_path = false)
      \/ (e = ValueError /\ path_exists image_path = true
          /\ imread image_path = None).
Proof.
  unfold RoomDetection.load_image.
  destruct (path_exists image_path); simpl.
  - destruct (imread image_path); split.
    + discriminate.
    + intros [[_ H]|[_ [_ H]]]; discriminate.
    + intros H. injection H as <-. right. now repeat split.
    + intros [[_ H]|[-> _]]; [discriminate|reflexivity].
  - split.
    + intros H. injection H as <-. left. now split.
    + intros [[-> _]|[_ [H _]]]; [reflexivity|discriminate].
Qed.

Lemma wall_load_image_raises {cv : OpenCV} {host : Host}
  (image_path : string) (e : exn) :
  EnhancedRoomDetection.load_image image_path = Raise e
  <-> (e = FileNotFoundError /\ path_exists image_path = false)
      \/ (e = ValueError /\ path_exists image_path = true
          /\ imread image_path = None).
Proof.
  unfold EnhancedRoomDetection.load_image.
  destruct (path_exists image_path); simpl.
  - destruct (imread image_path); split.
    + discriminate.
    + intros [[_ H]|[_ [_ H]]]; discriminate.
    + intros H. injection H as <-. right. now repeat split.
    + intros [[_ H]|[-> _]]; [discriminate|reflexivity].
  - split.
    + intros H. injection H as <-. left. now split.
    + intros [[-> _]|[_ [H _]]]; [reflexivity|discriminate].
Qed.

(** X7.  Both pipelines fail in exactly two ways: with [FileNotFoundError]
    exactly when the path does not exist, and with [ValueError] exactly
    when the path exists and the file does not decode.  No other exception
    leaves them. *)
Theorem pipelines_fail_only_on_loading :
  forall (cv : OpenCV) (host : Host) (image_path : string),
    (RoomDetection.process_floorplan image_path = Raise FileNotFoundError
     <-> path_exists image_path = false)
    /\ (RoomDetection.process_floorplan image_path = Raise ValueError
        <-> path_exists image_path = true /\ imread image_path = None)
    /\ (forall e,
           RoomDetection.process_floorplan image_path = Raise e ->
           e = FileNotFoundError \/ e = ValueError)
    /\ (EnhancedRoomDetection.process_floor_plan image_path
        = Raise FileNotFoundError
        <-> path_exists image_path = false)
    /\ (EnhancedRoomDetection.process_floor_plan image_path
        = Raise ValueError
        <-> path_exists image_path = true /\ imread image_path = None)
    /\ (forall e,
           EnhancedRoomDetection.process_floor_plan image_path = Raise e ->
           e = FileNotFoundError \/ e = ValueError).
Proof.
  intros cv host image_path.
  assert (Hs : forall e,
             RoomDetection.process_floorplan image_path = Raise e
             <-> (e = FileNotFoundError /\ path_exists image_path = false)
                 \/ (e = ValueError /\ path_exists image_path = true
                     /\ imread image_path = None)).
  { intros e. rewrite <- seed_load_image_raises.
    destruct (process_floorplan_cases image_path)
      as [[e' [Hl Hp]]|[original [st [Hl [_ [_ Hp]]]]]];
      rewrite Hl, Hp; split; congruence. }
  assert (Hw : forall e,
             EnhancedRoomDetection.process_floor_plan image_path = Raise e
             <-> (e = FileNotFoundError /\ path_exists image_path = false)
                 \/ (e = ValueError /\ path_exists image_path = true
                     /\ imread image_path = None)).
  { intros e. rewrite <- wall_load_image_raises.
    destruct (process_floor_plan_cases image_path)
      as [[e' [Hl Hp]]|[original [rooms [Hl [_ [_ Hp]]]]]];
      rewrite Hl, Hp; split; congruence. }
  split; [|split; [|split; [|split; [|split]]]].
  - rewrite Hs. split; [intros [[_ H]|[H _]]; [exact H|discriminate]|tauto].
  - rewrite Hs. split; [intros [[H _]|[_ H]]; [discriminate|exact H]|tauto].
  - intros e He. apply Hs in He. tauto.
  - rewrite Hw. split; [intros [[_ H]|[H _]]; [exact H|discriminate]|tauto].
  - rewrite Hw. split; [intros [[H _]|[_ H]]; [discriminate|exact H]|tauto].
  - intros e He. apply Hw in He. tauto.
Qed.

Lemma pipelines_fail_only_on_loading_witness :
  (path_exists (Host := SyntheticFailures.no_files) "ground_floor.png"
   = false
   /\ RoomDetection.process_floorplan
        (cv := Synthetic.opencv Synthetic.one_room)
        (host := SyntheticFailures.no_files) "ground_floor.png"
      = Raise FileNotFoundError)
  /\ (path_exists (Host := Synthetic.host) "ground_floor.png" = true
      /\ imread (OpenCV := SyntheticFailures.unreadable) "ground_floor.png"
         = None
      /\ EnhancedRoomDetection.process_floor_plan
           (cv := SyntheticFailures.unreadable) (host := Synthetic.host)
           "ground_floor.png"
         = Raise ValueError).
Proof.
  split.
  - assert (H : path_exists (Host := SyntheticFailures.no_files)
                  "ground_floor.png" = false) by reflexivity.
    split; [exact H|].
    exact (proj2 (proj1 (pipelines_fail_only_on_loading
                           (Synthetic.opencv Synthetic.one_room)
                           SyntheticFailures.no_files "ground_floor.png"))
             H).
  - assert (H1 : path_exists (Host := Synthetic.host) "ground_floor.png"
                 = true) by reflexivity.
    assert (H2 : imread (OpenCV := SyntheticFailures.unreadable)
                   "ground_floor.png" = None) by reflexivity.
    split; [exact H1|]. split; [exact H2|].
    destruct (pipelines_fail_only_on_loading SyntheticFailures.unreadable
                Synthetic.host "ground_floor.png")
      as [_ [_ [_ [_ [Hv _]]]]].
    exact (proj2 Hv (conj H1 H2)).
Defined.

(** ** The room records that the pipelines build *)

Lemma str_injective (n m : nat) : Py.str n = Py.str m -> n = m.
Proof.
  unfold Py.str. intros H.
  apply DecimalNat.Unsigned.to_uint_inj.
  assert (Hs : Some (Nat.to_uint n) = Some (Nat.to_uint m)).
  { rewrite <- (NilEmpty.usu (Nat.to_uint n)),
      <- (NilEmpty.usu (Nat.to_uint m)).
    now rewrite H. }
  now injection Hs.
Qed.

Section SeedRecords.
Context {cv : OpenCV} {host : Host}.

(** The room that [add_room] appends. *)
Lemma add_room_appended (total_area : Z) (c : Contour)
  (rooms : list RoomDetection.Room) (calls : nat) (r : RoomDetection.Room) :
  RoomDetection.add_room total_area c (rooms, calls)
  = Ok (rooms ++ [r], S calls) ->
  RoomDetection.name r = ("Room " ++ Py.str (List.length rooms + 1))%string
  /\ RoomDetection.id r
     = ("room-" ++ String.substring 0 8 (uuid4 calls))%string
  /\ RoomDetection.confidence r = 0.85
  /\ RoomDetection.classify_room_type (contourArea c)
       (RoomDetection.aspect_ratio r) (Py.float total_area)
     = Ok (RoomDetection.type r).
Proof.
  unfold RoomDetection.add_room.
  destruct (boundingRect c) as [[[x y] w] h].
  set (ar := if (0 <? h)%Z then Py.float w / Py.float h else 0).
  assert (Hno : Ok (rooms, calls) = Ok (rooms ++ [r], S calls) -> False).
  { intros H. injection H as _ H. now apply n_Sn in H. }
  destruct ((Py.lt (Py.float total_area * 0.003) (contourArea c)
             && Py.lt (contourArea c) (Py.float total_area * 0.6)
             && Py.lt 0.1 ar && Py.lt ar 10)%bool);
    [|intros H; destruct (Hno H)].
  destruct (RoomDetection.classify_room_type (contourArea c) ar
              (Py.float total_area)) as [room_type|e] eqn:Ec; simpl;
    [|discriminate].
  intros H. injection H as H. apply app_inj_tail in H.
  destruct H as [_ <-]. simpl. now repeat split.
Qed.

Lemma detect_rooms_numbered (original : Image) (total_area : Z)
  (regions : list (Z * Z * Z * Z)) :
  forall rooms calls rooms' calls',
    calls = List.length rooms ->
    (forall i r, nth_error rooms i = Some r ->
       RoomDetection.name r = ("Room " ++ Py.str (i + 1))%string
       /\ RoomDetection.id r
          = ("room-" ++ String.substring 0 8 (uuid4 i))%string
       /\ RoomDetection.confidence r = 0.85
       /\ In (RoomDetection.type r) SeedBands.labels) ->
    RoomDetection.detect_rooms original total_area regions (rooms, calls)
    = Ok (rooms', calls') ->
    calls' = List.length rooms'
    /\ forall i r, nth_error rooms' i = Some r ->
         RoomDetection.name r = ("Room " ++ Py.str (i + 1))%string
         /\ RoomDetection.id r
            = ("room-" ++ String.substring 0 8 (uuid4 i))%string
         /\ RoomDetection.confidence r = 0.85
         /\ In (RoomDetection.type r) SeedBands.labels.
Proof.
  induction regions as [|region rest IH];
    intros rooms calls rooms' calls' Hc Hn Hrun.
  - simpl in Hrun. injection Hrun as <- <-. now split.
  - cbn [RoomDetection.detect_rooms] in Hrun.
    destruct (RoomDetection.get_room_contour original region)
      as [[c|]|e]; cbn [bind] in Hrun; [| |discriminate].
    + destruct (add_room_cases total_area c rooms calls)
        as [H|[r [H [_ [_ [_ [Hmin [Hmax _]]]]]]]];
        rewrite H in Hrun; cbn [bind] in Hrun.
      * exact (IH _ _ _ _ Hc Hn Hrun).
      * destruct (add_room_appended _ _ _ _ _ H) as [Hname [Hid [Hcf Hty]]].
        apply (IH (rooms ++ [r]) (S calls) rooms' calls');
          [rewrite length_app; simpl; lia| |exact Hrun].
        intros i r' Hi.
        destruct (Nat.lt_ge_cases i (List.length rooms)) as [Hlt|Hge].
        -- rewrite nth_error_app1 in Hi by exact Hlt. now apply Hn.
        -- rewrite nth_error_app2 in Hi by exact Hge.
           destruct (i - List.length rooms)%nat as [|k] eqn:Ek;
             [|destruct k; discriminate].
           simpl in Hi. injection Hi as <-.
           assert (i = List.length rooms) by lia. subst i.
           rewrite Hname, Hid, <- Hc. repeat split; try reflexivity;
             try assumption.
           assert (Ht : ~ Py.float total_area == 0).
           { intros H0. rewrite H0 in Hmin, Hmax. lra. }
           destruct (seed_classify_branch (contourArea c)
                       (RoomDetection.aspect_ratio r)
                       (Py.float total_area) Ht) as [b [_ [_ Hb]]].
           rewrite Hb in Hty. injection Hty as <-.
           destruct b; simpl; tauto.
    + exact (IH _ _ _ _ Hc Hn Hrun).
Qed.

End SeedRecords.

(** X8.  The region loop of [process_floorplan] numbers its rooms: the
    room at position [i] of the list it builds is named ["Room i+1"], its
    id is ["room-"] followed by the first eight characters of the [i]-th
    UUID drawn, its confidence is 0.85 and its type is one of the nine
    labels of the classifier; one UUID is drawn per room. *)
Theorem detect_rooms_numbers_its_rooms :
  forall (cv : OpenCV) (host : Host) (original : Image) (total_area : Z)
         (text_regions : list (Z * Z * Z * Z))
         (rooms : list RoomDetection.Room) (calls : nat),
    RoomDetection.detect_rooms original total_area text_regions ([], 0%nat)
    = Ok (rooms, calls) ->
    calls = List.length rooms
    /\ forall i r, nth_error rooms i = Some r ->
         RoomDetection.name r = ("Room " ++ Py.str (i + 1))%string
         /\ RoomDetection.id r
            = ("room-" ++ String.substring 0 8 (uuid4 i))%string
         /\ RoomDetection.confidence r = 0.85
         /\ In (RoomDetection.type r) SeedBands.labels.
Proof.
  intros cv host original total_area regions rooms calls Hrun.
  apply (detect_rooms_numbered original total_area regions [] 0%nat);
    [reflexivity| |exact Hrun].
  intros i r Hi. destruct i; discriminate.
Qed.

Lemma detect_rooms_numbers_its_rooms_witness :
  exists r,
    RoomDetection.detect_rooms (cv := Synthetic.opencv Synthetic.one_room)
      (host := Synthetic.host) Synthetic.one_room (300 * 400)
      [(180, 140, 30, 12)%Z] ([], 0%nat)
    = Ok ([r], 1%nat)
    /\ RoomDetection.name r = "Room 1"
    /\ RoomDetection.id r = "room-0f3a9c2d".
Proof.
  eexists.
  assert (Hrun : RoomDetection.detect_rooms
                   (cv := Synthetic.opencv Synthetic.one_room)
                   (host := Synthetic.host) Synthetic.one_room (300 * 400)
                   [(180, 140, 30, 12)%Z] ([], 0%nat)
                 = Ok ([_], 1%nat)) by (vm_compute; reflexivity).
  split; [exact Hrun|].
  destruct (detect_rooms_numbers_its_rooms _ _ _ _ _ _ _ Hrun) as [_ Hn].
  destruct (Hn 0%nat _ eq_refl) as [Hname [Hid _]].
  split; [exact Hname|exact Hid].
Defined.

Lemma subsequence_map {A B : Type} (f : A -> B) (kept l : list A) :
  Selection.subsequence kept l ->
  Selection.subsequence (map f kept) (map f l).
Proof.
  induction 1; simpl; constructor; assumption.
Qed.

Lemma subsequence_nodup {A : Type} (kept l : list A) :
  Selection.subsequence kept l -> NoDup l -> NoDup kept.
Proof.
  induction 1 as [|a kept l H IH|a kept l H IH]; intros Hn.
  - constructor.
  - inversion Hn; subst. now apply IH.
  - inversion Hn as [|? ? Ha Hl]; subst. constructor; [|now apply IH].
    intros Hin. apply Ha. eapply subsequence_in; eassumption.
Qed.

Lemma numbered_names_nodup (rooms : list RoomDetection.Room) :
  (forall i r, nth_error rooms i = Some r ->
     RoomDetection.name r = ("Room " ++ Py.str (i + 1))%string) ->
  NoDup (map RoomDetection.name rooms).
Proof.
  intros Hn. apply NoDup_nth_error. intros i j Hi Hij.
  rewrite length_map in Hi.
  rewrite !nth_error_map in Hij.
  destruct (nth_error rooms i) as [ri|] eqn:Ei;
    [|apply nth_error_None in Ei; lia].
  destruct (nth_error rooms j) as [rj|] eqn:Ej; [|discriminate].
  simpl in Hij. injection Hij as Hij.
  rewrite (Hn _ _ Ei), (Hn _ _ Ej) in Hij.
  injection Hij as Hij. apply str_injective in Hij. lia.
Qed.

(** X9.  In the result of the seed-anchored pipeline every room has
    confidence 0.85 and a type among the nine labels of the classifier, and
    no two rooms have the same name. *)
Theorem seed_result_rooms_are_annotated :
  forall (cv : OpenCV) (host : Host) (image_path : string)
         (res : RoomDetection.Result.t)
         (filtered_rooms : list RoomDetection.Room),
    RoomDetection.process_floorplan image_path = Ok (res, filtered_rooms) ->
    NoDup (map RoomDetection.name filtered_rooms)
    /\ forall r, In r filtered_rooms ->
         RoomDetection.confidence r = 0.85
         /\ In (RoomDetection.type r) SeedBands.labels.
Proof.
  intros cv host image_path res filtered Hrun.
  destruct (process_floorplan_cases image_path)
    as [[e [_ He]]|[original [[rooms calls] [_ [Hd [_ Hok]]]]]];
    [congruence|].
  rewrite Hok in Hrun. injection Hrun as _ <-. simpl.
  assert (Hn : forall i r, nth_error rooms i = Some r ->
                 RoomDetection.name r = ("Room " ++ Py.str (i + 1))%string
                 /\ RoomDetection.id r
                    = ("room-" ++ String.substring 0 8 (uuid4 i))%string
                 /\ RoomDetection.confidence r = 0.85
                 /\ In (RoomDetection.type r) SeedBands.labels).
  { eapply (detect_rooms_numbered original _ _ [] 0%nat rooms calls
              eq_refl); [|exact Hd].
    intros i r Hi. destruct i; discriminate. }
  split.
  - eapply subsequence_nodup.
    + apply subsequence_map. apply seed_result_kept.
    + eapply Permutation_NoDup.
      * apply Permutation_map. apply sorted_reverse_perm.
      * apply numbered_names_nodup. intros i r Hi. now apply Hn.
  - intros r Hr. apply remove_duplicates_incl in Hr.
    apply In_nth_error in Hr. destruct Hr as [i Hi].
    destruct (Hn i r Hi) as [_ [_ [Hc Ht]]]. now split.
Qed.

Lemma seed_result_rooms_are_annotated_witness :
  exists res r,
    RoomDetection.process_floorplan
      (cv := Synthetic.opencv Synthetic.one_room) (host := Synthetic.host)
      "ground_floor.png" = Ok (res, [r])
    /\ RoomDetection.confidence r = 0.85
    /\ In (RoomDetection.type r) SeedBands.labels.
Proof.
  eexists. eexists.
  assert (Hrun : RoomDetection.process_floorplan
                   (cv := Synthetic.opencv Synthetic.one_room)
                   (host := Synthetic.host) "ground_floor.png"
                 = Ok (_, [_])) by (vm_compute; reflexivity).
  split; [exact Hrun|].
  destruct (seed_result_rooms_are_annotated _ _ _ _ _ Hrun) as [_ H].
  apply H. now left.
Defined.

Section WallRecords.
Context {cv : OpenCV} {host : Host}.

Lemma annotate_spec (total_area : Z)
  (room_polygons : list EnhancedRoomDetection.Polygon) :
  forall calls rooms,
    EnhancedRoomDetection.annotate total_area room_polygons calls
    = Ok rooms ->
    List.length rooms = List.length room_polygons
    /\ forall i p,
         nth_error room_polygons i = Some p ->
         exists r,
           nth_error rooms i = Some r
           /\ EnhancedRoomDetection.contour r
              = EnhancedRoomDetection.p_contour p
           /\ (EnhancedRoomDetection.x r, EnhancedRoomDetection.y r,
               EnhancedRoomDetection.width r, EnhancedRoomDetection.height r)
              = (EnhancedRoomDetection.p_x p, EnhancedRoomDetection.p_y p,
                 EnhancedRoomDetection.p_width p,
                 EnhancedRoomDetection.p_height p)
           /\ EnhancedRoomDetection.area r = EnhancedRoomDetection.p_area p
           /\ EnhancedRoomDetection.aspect_ratio r
              = EnhancedRoomDetection.p_aspect_ratio p
           /\ EnhancedRoomDetection.classify_room_type
                (EnhancedRoomDetection.p_area p)
                (EnhancedRoomDetection.p_aspect_ratio p)
                (Py.float total_area)
              = Ok (EnhancedRoomDetection.type r)
           /\ EnhancedRoomDetection.id r
              = ("room-"
                 ++ String.substring 0 8 (uuid4 (calls + 2 * i)))%string
           /\ EnhancedRoomDetection.name r
              = ("Room " ++ Py.capitalize (EnhancedRoomDetection.type r)
                 ++ " "
                 ++ String.substring 0 4 (uuid4 (calls + 2 * i + 1)))%string
           /\ EnhancedRoomDetection.confidence r = 0.85.
Proof.
  induction room_polygons as [|p0 polys IH]; intros calls rooms Hrun.
  - simpl in Hrun. injection Hrun as <-. split; [reflexivity|].
    intros i p Hi. destruct i; discriminate.
  - cbn [EnhancedRoomDetection.annotate] in Hrun.
    destruct (EnhancedRoomDetection.classify_room_type
                (EnhancedRoomDetection.p_area p0)
                (EnhancedRoomDetection.p_aspect_ratio p0)
                (Py.float total_area)) as [room_type|e] eqn:Ec;
      cbn [bind] in Hrun; [|discriminate].
    destruct (EnhancedRoomDetection.annotate total_area polys (S (S calls)))
      as [rest|e] eqn:Er; cbn [bind] in Hrun; [|discriminate].
    injection Hrun as <-.
    destruct (IH _ _ Er) as [Hlen Hnth].
    split; [simpl; now rewrite Hlen|].
    intros i p Hi. destruct i as [|i].
    + simpl in Hi. injection Hi as <-. eexists. split; [reflexivity|].
      simpl. rewrite !Nat.add_0_r, Nat.add_1_r.
      now repeat split.
    + simpl in Hi. destruct (Hnth i p Hi) as [r [Hr H]].
      exists r. split; [exact Hr|].
      replace (calls + 2 * S i)%nat with (S (S calls) + 2 * i)%nat by lia.
      exact H.
Qed.

End WallRecords.

(** X10.  The annotation loop of [process_floor_plan] keeps the number and
    order of the polygons and their geometry; the room at position [i] gets
    the label of the classifier for its area and aspect ratio, the id
    ["room-"] with the first eight characters of UUID number [2i], the name
    ["Room "] with the capitalised type and the first four characters of
    UUID number [2i+1], and confidence 0.85. *)
Theorem annotate_keeps_polygons_and_labels :
  forall (host : Host) (total_area : Z)
         (room_polygons : list EnhancedRoomDetection.Polygon)
         (rooms : list EnhancedRoomDetection.Room),
    EnhancedRoomDetection.annotate total_area room_polygons 0 = Ok rooms ->
    List.length rooms = List.length room_polygons
    /\ forall i p,
         nth_error room_polygons i = Some p ->
         exists r,
           nth_error rooms i = Some r
           /\ EnhancedRoomDetection.contour r
              = EnhancedRoomDetection.p_contour p
           /\ (EnhancedRoomDetection.x r, EnhancedRoomDetection.y r,
               EnhancedRoomDetection.width r, EnhancedRoomDetection.height r)
              = (EnhancedRoomDetection.p_x p, EnhancedRoomDetection.p_y p,
                 EnhancedRoomDetection.p_width p,
                 EnhancedRoomDetection.p_height p)
           /\ EnhancedRoomDetection.area r = EnhancedRoomDetection.p_area p
           /\ EnhancedRoomDetection.aspect_ratio r
              = EnhancedRoomDetection.p_aspect_ratio p
           /\ EnhancedRoomDetection.classify_room_type
                (EnhancedRoomDetection.p_area p)
                (EnhancedRoomDetection.p_aspect_ratio p)
                (Py.float total_area)
              = Ok (EnhancedRoomDetection.type r)
           /\ EnhancedRoomDetection.id r
              = ("room-" ++ String.substring 0 8 (uuid4 (2 * i)))%string
           /\ EnhancedRoomDetection.name r
              = ("Room " ++ Py.capitalize (EnhancedRoomDetection.type r)
                 ++ " " ++ String.substring 0 4 (uuid4 (2 * i + 1)))%string
           /\ EnhancedRoomDetection.confidence r = 0.85.
Proof.
  intros host total_area polys rooms Hrun.
  exact (annotate_spec total_area polys 0%nat rooms Hrun).
Qed.

Lemma annotate_keeps_polygons_and_labels_witness :
  exists r,
    EnhancedRoomDetection.annotate (host := Synthetic.host) (300 * 400)
      (Filter.polygons_of (cv := Synthetic.opencv Synthetic.one_room)
         Synthetic.one_room) 0
    = Ok [r]
    /\ EnhancedRoomDetection.type r = "office"
    /\ EnhancedRoomDetection.name r = "Room Office 1f3a"
    /\ EnhancedRoomDetection.id r = "room-0f3a9c2d".
Proof.
  eexists.
  assert (Hrun : EnhancedRoomDetection.annotate
                   (host := Synthetic.host) (300 * 400)
                   (Filter.polygons_of
                      (cv := Synthetic.opencv Synthetic.one_room)
                      Synthetic.one_room) 0
                 = Ok [_]) by (vm_compute; reflexivity).
  split; [exact Hrun|].
  destruct (annotate_keeps_polygons_and_labels _ _ _ _ Hrun) as [_ Hn].
  destruct (Hn 0%nat _ eq_refl) as [r [Hr [_ [_ [_ [_ [Hty [Hid [Hname _]]]]]]]]].
  simpl in Hr. injection Hr as <-.
  split; [reflexivity|]. split; [exact Hname|exact Hid].
Defined.

(** ** The floor read off the file name *)

Lemma contains_tail (sub : string) (c : ascii) (s : string) :
  Py.contains sub s = true -> Py.contains sub (String c s) = true.
Proof.
  intros H. cbn [Py.contains]. rewrite H. apply orb_true_r.
Qed.

Lemma contains_prefix (sub s : string) :
  String.prefix sub s = true -> Py.contains sub s = true.
Proof.
  intros H. destruct s; cbn [Py.contains]; rewrite H; reflexivity.
Qed.

Lemma search_alternatives_some (alts : list string) (s a : string) :
  Py.search_alternatives alts s = Some a ->
  In a alts /\ Py.contains a s = true.
Proof.
  induction s as [|c s IH]; cbn [Py.search_alternatives].
  - destruct (find (fun a0 => String.prefix a0 "") alts) as [a0|] eqn:E;
      [|discriminate].
    intros H. injection H as <-. apply find_some in E.
    destruct E as [Hin Hp]. split; [exact Hin|].
    now apply contains_prefix.
  - destruct (find (fun a0 => String.prefix a0 (String c s)) alts)
      as [a0|] eqn:E.
    + intros H. injection H as <-. apply find_some in E.
      destruct E as [Hin Hp]. split; [exact Hin|].
      now apply contains_prefix.
    + intros H. destruct (IH H) as [Hin Hc]. split; [exact Hin|].
      now apply contains_tail.
Qed.

Lemma search_alternatives_none (alts : list string) (s : string) :
  Py.search_alternatives alts s = None ->
  forall a, In a alts -> Py.contains a s = false.
Proof.
  induction s as [|c s IH]; cbn [Py.search_alternatives].
  - destruct (find (fun a0 => String.prefix a0 "") alts) as [a0|] eqn:E;
      [discriminate|].
    intros _ a Ha. cbn [Py.contains].
    rewrite (find_none _ _ E a Ha). reflexivity.
  - destruct (find (fun a0 => String.prefix a0 (String c s)) alts)
      as [a0|] eqn:E; [discriminate|].
    intros H a Ha. cbn [Py.contains].
    rewrite (find_none _ _ E a Ha). simpl. now apply IH.
Qed.

Lemma find_first {A : Type} (f : A -> bool) (l : list A) (a : A) :
  find f l = Some a ->
  exists pre post,
    l = pre ++ a :: post /\ f a = true /\ forall b, In b pre -> f b = false.
Proof.
  induction l as [|b l IH]; simpl; [discriminate|].
  destruct (f b) eqn:E.
  - intros H. injection H as <-. exists [], l.
    split; [reflexivity|]. split; [exact E|]. intros b' [].
  - intros H. destruct (IH H) as [pre [post [-> [Ha Hpre]]]].
    exists (b :: pre), post. split; [reflexivity|]. split; [exact Ha|].
    intros b' [<-|Hb']; [exact E|now apply Hpre].
Qed.

Lemma seed_floor_type_cases {host : Host} (image_path : string) :
  let words :=
    ["ground"; "mezzanine"; "first"; "second"; "third"; "fourth"; "fifth"]
  in
  (RoomDetection.floor_type_of image_path = "unknown"
   <-> forall w, In w words ->
         Py.contains w (Py.lower (stem image_path)) = false)
  /\ (RoomDetection.floor_type_of image_path <> "unknown" ->
      In (RoomDetection.floor_type_of image_path) words
      /\ Py.contains (RoomDetection.floor_type_of image_path)
           (Py.lower (stem image_path)) = true).
Proof.
  intros words. unfold RoomDetection.floor_type_of.
  fold words.
  destruct (Py.search_alternatives words (Py.lower (stem image_path)))
    as [w|] eqn:E.
  - destruct (search_alternatives_some _ _ _ E) as [Hin Hc]. split.
    + split.
      * intros ->. exfalso. simpl in Hin.
        repeat (destruct Hin as [Hin|Hin]; [discriminate|]). exact Hin.
      * intros H. rewrite (H w Hin) in Hc. discriminate.
    + intros _. now split.
  - split.
    + split; [intros _; now apply search_alternatives_none|reflexivity].
    + intros H. now destruct H.
Qed.

(** X11.  The floor that the seed-anchored script reads off a file name is
    ["unknown"] exactly when none of the seven floor words occurs in the
    lower-cased stem; otherwise it is one of the seven words and occurs in
    the lower-cased stem. *)
Theorem seed_floor_type_is_a_word_of_the_stem :
  forall (host : Host) (image_path : string),
    let words :=
      ["ground"; "mezzanine"; "first"; "second"; "third"; "fourth"; "fifth"]
    in
    (RoomDetection.floor_type_of image_path = "unknown"
     <-> forall w, In w words ->
           Py.contains w (Py.lower (stem image_path)) = false)
    /\ (RoomDetection.floor_type_of image_path <> "unknown" ->
        In (RoomDetection.floor_type_of image_path) words
        /\ Py.contains (RoomDetection.floor_type_of image_path)
             (Py.lower (stem image_path)) = true).
Proof.
  intros host image_path. apply seed_floor_type_cases.
Qed.

Lemma seed_floor_type_is_a_word_of_the_stem_witness :
  RoomDetection.floor_type_of (host := Synthetic.host)
    "Second_Floor_Ground_Wing" = "second"
  /\ Py.contains "second" (Py.lower "Second_Floor_Ground_Wing") = true.
Proof.
  assert (Hne : RoomDetection.floor_type_of (host := Synthetic.host)
                  "Second_Floor_Ground_Wing" <> "unknown")
    by (vm_compute; discriminate).
  split; [reflexivity|].
  exact (proj2 (proj2 (seed_floor_type_is_a_word_of_the_stem Synthetic.host
                         "Second_Floor_Ground_Wing") Hne)).
Defined.

(** X12.  The wall-reconstruction script takes the first of its six floor
    words, in the order of its list, that occurs in the lower-cased stem,
    and ["unknown"] when none does.  Its list has no ["first"]: a stem for
    which it answers ["unknown"] is ["unknown"] or ["first"] for the
    seed-anchored script, and a stem that is ["unknown"] for the
    seed-anchored script is ["unknown"] for it too. *)
Theorem wall_floor_type_is_first_listed_word :
  forall (host : Host) (image_path : string),
    let words := ["ground"; "mezzanine"; "second"; "third"; "fourth"; "fifth"]
    in
    let stem_lower := Py.lower (stem image_path) in
    (EnhancedRoomDetection.floor_type_of image_path = "unknown"
     <-> forall w, In w words -> Py.contains w stem_lower = false)
    /\ (EnhancedRoomDetection.floor_type_of image_path <> "unknown" ->
        exists before after,
          words
          = before ++ EnhancedRoomDetection.floor_type_of image_path :: after
          /\ Py.contains (EnhancedRoomDetection.floor_type_of image_path)
               stem_lower = true
          /\ forall w, In w before -> Py.contains w stem_lower = false)
    /\ (EnhancedRoomDetection.floor_type_of image_path = "unknown" ->
        RoomDetection.floor_type_of image_path = "unknown"
        \/ RoomDetection.floor_type_of image_path = "first")
    /\ (RoomDetection.floor_type_of image_path = "unknown" ->
        EnhancedRoomDetection.floor_type_of image_path = "unknown").
Proof.
  intros host image_path words stem_lower.
  assert (Hu : EnhancedRoomDetection.floor_type_of image_path = "unknown"
               <-> forall w, In w words -> Py.contains w stem_lower = false).
  { unfold EnhancedRoomDetection.floor_type_of. fold words stem_lower.
    destruct (find (fun floor => Py.contains floor stem_lower) words)
      as [w|] eqn:E.
    - apply find_some in E. destruct E as [Hin Hc]. split.
      + intros ->. exfalso. simpl in Hin.
        repeat (destruct Hin as [Hin|Hin]; [discriminate|]). exact Hin.
      + intros H. rewrite (H w Hin) in Hc. discriminate.
    - split; [intros _ w Hw; exact (find_none _ _ E w Hw)|reflexivity]. }
  split; [exact Hu|]. split; [|split].
  - unfold EnhancedRoomDetection.floor_type_of. fold words stem_lower.
    destruct (find (fun floor => Py.contains floor stem_lower) words)
      as [w|] eqn:E; [|intros H; now destruct H].
    intros _. apply find_first in E.
    destruct E as [pre [post [Hw [Hc Hpre]]]].
    exists pre, post. now repeat split.
  - intros H0. pose proof (proj1 Hu H0) as H.
    destruct (string_dec (RoomDetection.floor_type_of image_path) "unknown")
      as [Hk|Hk]; [now left|right].
    destruct (proj2 (seed_floor_type_cases image_path) Hk) as [Hin Hc].
    fold stem_lower in Hc. simpl in Hin.
    destruct Hin as [Hin|[Hin|[Hin|[Hin|[Hin|[Hin|[Hin|[]]]]]]]];
      try (symmetry; exact Hin);
      rewrite <- Hin in Hc; rewrite H in Hc; try discriminate;
      simpl; tauto.
  - intros H. apply (proj2 Hu). intros w Hw.
    apply (proj1 (proj1 (seed_floor_type_cases image_path)) H).
    simpl in Hw |- *. tauto.
Qed.

Lemma wall_floor_type_is_first_listed_word_witness :
  EnhancedRoomDetection.floor_type_of (host := Synthetic.host)
    "First_Floor_Plan" = "unknown"
  /\ RoomDetection.floor_type_of (host := Synthetic.host) "First_Floor_Plan"
     = "first".
Proof.
  assert (Hu : EnhancedRoomDetection.floor_type_of (host := Synthetic.host)
                 "First_Floor_Plan" = "unknown") by reflexivity.
  split; [exact Hu|].
  destruct (wall_floor_type_is_first_listed_word Synthetic.host
              "First_Floor_Plan") as [_ [_ [H _]]].
  destruct (H Hu) as [Hs|Hs]; [|exact Hs].
  vm_compute in Hs. discriminate Hs.
Defined.

(** ** Bounding boxes of the rooms *)

Lemma aspect_positive_box (w h : Z) (lo : Q) :
  0 < lo ->
  lo < (if (0 <? h)%Z then Py.float w / Py.float h else 0) ->
  (0 < w)%Z /\ (0 < h)%Z.
Proof.
  intros Hlo H. destruct (0 <? h)%Z eqn:Eh; [|lra].
  apply Z.ltb_lt in Eh. split; [|exact Eh].
  assert (Hh : 0 < Py.float h) by (unfold Py.float; now rewrite <- (Zlt_Qlt 0)).
  assert (Hq : 0 < Py.float w / Py.float h) by lra.
  assert (Hw : 0 < Py.float w).
  { apply (Qmult_lt_r _ _ _ Hh).
    assert (E : Py.float w / Py.float h * Py.float h == Py.float w)
      by (field; lra).
    rewrite Qmult_0_l.
    setoid_replace (Py.float w * Py.float h)
      with (Py.float w / Py.float h * (Py.float h * Py.float h))
      by (field; lra).
    apply Qmult_lt_0_compat; [exact Hq|].
    now apply Qmult_lt_0_compat. }
  unfold Py.float in Hw. now rewrite <- (Zlt_Qlt 0) in Hw.
Qed.

Section Boxes.
Context {cv : OpenCV} {host : Host}.

Lemma add_room_box (total_area : Z) (c : Contour)
  (rooms : list RoomDetection.Room) (calls : nat) (r : RoomDetection.Room) :
  RoomDetection.add_room total_area c (rooms, calls)
  = Ok (rooms ++ [r], S calls) ->
  (0 < RoomDetection.width r)%Z /\ (0 < RoomDetection.height r)%Z
  /\ RoomDetection.aspect_ratio r
     = Py.float (RoomDetection.width r) / Py.float (RoomDetection.height r).
Proof.
  unfold RoomDetection.add_room.
  destruct (boundingRect c) as [[[x y] w] h].
  assert (Hno : Ok (rooms, calls) = Ok (rooms ++ [r], S calls) -> False).
  { intros H. injection H as _ H. now apply n_Sn in H. }
  destruct (Py.lt (Py.float total_area * 0.003) (contourArea c));
    [|intros H; destruct (Hno H)].
  destruct (Py.lt (contourArea c) (Py.float total_area * 0.6));
    [|intros H; destruct (Hno H)].
  destruct (Py.lt 0.1 (if (0 <? h)%Z then Py.float w / Py.float h else 0))
    eqn:E3; [|intros H; destruct (Hno H)].
  destruct (Py.lt (if (0 <? h)%Z then Py.float w / Py.float h else 0) 10);
    [|intros H; destruct (Hno H)].
  apply lt_true in E3.
  destruct (aspect_positive_box w h 0.1) as [Hw Hh]; [reflexivity|exact E3|].
  cbn [andb].
  destruct (RoomDetection.classify_room_type (contourArea c)
              (if (0 <? h)%Z then Py.float w / Py.float h else 0)
              (Py.float total_area)) as [room_type|e]; cbn [bind];
    [|discriminate].
  intros H. injection H as H. apply app_inj_tail in H.
  destruct H as [_ <-]. simpl.
  split; [exact Hw|]. split; [exact Hh|].
  now rewrite (proj2 (Z.ltb_lt 0 h) Hh).
Qed.

Lemma room_polygons_of_box (min_area max_area : Q)
  (contours : list Contour) :
  forall p, In p (EnhancedRoomDetection.room_polygons_of min_area max_area
                    contours) ->
    (0 < EnhancedRoomDetection.p_width p)%Z
    /\ (0 < EnhancedRoomDetection.p_height p)%Z
    /\ EnhancedRoomDetection.p_aspect_ratio p
       = Py.float (EnhancedRoomDetection.p_width p)
         / Py.float (EnhancedRoomDetection.p_height p).
Proof.
  induction contours as [|c contours IH]; intros p Hp; [destruct Hp|].
  cbn [EnhancedRoomDetection.room_polygons_of] in Hp.
  destruct ((Py.lt min_area (contourArea c)
             && Py.lt (contourArea c) max_area)%bool); [|now apply IH].
  destruct (boundingRect (approxPolyDP c (0.01 * arcLength c)))
    as [[[x y] w] h].
  destruct (Py.lt 0.2 (if (0 <? h)%Z then Py.float w / Py.float h else 0))
    eqn:E3; [|now apply IH].
  destruct (Py.lt (if (0 <? h)%Z then Py.float w / Py.float h else 0) 5.0);
    [|now apply IH].
  cbn [andb] in Hp. destruct Hp as [<-|Hp]; [|now apply IH].
  apply lt_true in E3.
  destruct (aspect_positive_box w h 0.2) as [Hw Hh]; [reflexivity|exact E3|].
  simpl. split; [exact Hw|]. split; [exact Hh|].
  now rewrite (proj2 (Z.ltb_lt 0 h) Hh).
Qed.

End Boxes.

(** X13.  Every room in the result of either pipeline has a bounding box
    of positive width and height, and its stored aspect ratio is its width
    divided by its height. *)
Theorem result_rooms_have_proper_boxes :
  forall (cv : OpenCV) (host : Host) (image_path : string),
    (forall res filtered_rooms,
        RoomDetection.process_floorplan image_path
        = Ok (res, filtered_rooms) ->
        forall r, In r filtered_rooms ->
          (0 < RoomDetection.width r)%Z /\ (0 < RoomDetection.height r)%Z
          /\ RoomDetection.aspect_ratio r
             = Py.float (RoomDetection.width r)
               / Py.float (RoomDetection.height r))
    /\ (forall res filtered_rooms,
           EnhancedRoomDetection.process_floor_plan image_path
           = Ok (res, filtered_rooms) ->
           forall r, In r filtered_rooms ->
             (0 < EnhancedRoomDetection.width r)%Z
             /\ (0 < EnhancedRoomDetection.height r)%Z
             /\ EnhancedRoomDetection.aspect_ratio r
                = Py.float (EnhancedRoomDetection.width r)
                  / Py.float (EnhancedRoomDetection.height r)).
Proof.
  intros cv host image_path. split.
  - intros res filtered Hrun r Hr.
    destruct (process_floorplan_cases image_path)
      as [[e [_ He]]|[original [st [_ [Hd [_ Hok]]]]]]; [congruence|].
    rewrite Hok in Hrun. injection Hrun as _ <-.
    apply remove_duplicates_incl in Hr.
    destruct (detect_rooms_invariant
                (fun r =>
                   (0 < RoomDetection.width r)%Z
                   /\ (0 < RoomDetection.height r)%Z
                   /\ RoomDetection.aspect_ratio r
                      = Py.float (RoomDetection.width r)
                        / Py.float (RoomDetection.height r))
                original (fst (shape original) * snd (shape original))
                (fun c rooms calls r H _ => add_room_box _ c rooms calls r H)
                (RoomDetection.detect_text_regions
                   (snd (RoomDetection.preprocess_for_text_detection
                           original)))
                ([], 0%nat) (Forall_nil _))
      as [st' [Hd' Hall]].
    rewrite Hd in Hd'. injection Hd' as <-.
    rewrite Forall_forall in Hall. now apply Hall.
  - intros res filtered Hrun r Hr.
    destruct (process_floor_plan_cases image_path)
      as [[e [_ He]]|[original [rooms [_ [Ha [_ Hok]]]]]]; [congruence|].
    rewrite Hok in Hrun. injection Hrun as _ <-.
    apply remove_overlapping_rooms_incl in Hr.
    destruct (annotate_spec _ _ _ _ Ha) as [Hlen Hnth].
    apply In_nth_error in Hr. destruct Hr as [i Hi].
    destruct (nth_error (Filter.polygons_of original) i) as [p|] eqn:Ep.
    + destruct (Hnth i p Ep) as [r' [Hr' [_ [Hbox [_ [Har _]]]]]].
      rewrite Hi in Hr'. injection Hr' as <-.
      assert (Hp : In p (Filter.polygons_of original))
        by (eapply nth_error_In; exact Ep).
      unfold Filter.polygons_of, EnhancedRoomDetection.find_room_polygons
        in Hp.
      destruct (shape original) as [height width].
      apply room_polygons_of_box in Hp.
      injection Hbox as _ _ Hw Hh. rewrite Har, Hw, Hh. exact Hp.
    + exfalso. apply nth_error_None in Ep.
      assert (i < List.length rooms)%nat
        by (apply nth_error_Some; congruence).
      lia.
Qed.

Lemma result_rooms_have_proper_boxes_witness :
  exists res r,
    EnhancedRoomDetection.process_floor_plan
      (cv := Synthetic.opencv Synthetic.one_room) (host := Synthetic.host)
      "ground_floor.png" = Ok (res, [r])
    /\ (0 < EnhancedRoomDetection.width r)%Z
    /\ (0 < EnhancedRoomDetection.height r)%Z.
Proof.
  eexists. eexists.
  assert (Hrun : EnhancedRoomDetection.process_floor_plan
                   (cv := Synthetic.opencv Synthetic.one_room)
                   (host := Synthetic.host) "ground_floor.png"
                 = Ok (_, [_])) by (vm_compute; reflexivity).
  split; [exact Hrun|].
  destruct (proj2 (result_rooms_have_proper_boxes _ _ _) _ _ Hrun _
              (or_introl eq_refl)) as [Hw [Hh _]].
  split; [exact Hw|exact Hh].
Defined.

(** [int(n * a/b)] for a non-negative [n] is the integer quotient. *)
Lemma int_scaled (n a : Z) (b : positive) :
  (0 <= n)%Z -> (0 <= a)%Z ->
  Py.int (Py.float n * (a # b)) = (n * a / Zpos b)%Z.
Proof.
  intros Hn Ha. unfold Py.int, Py.float, Qmult, inject_Z. simpl.
  rewrite Z.quot_div_nonneg by lia. reflexivity.
Qed.

(** X14.  For an image of non-negative height [h] and width [w],
    [determine_region_of_interest] masks with the rectangle of corners
    [(m, m)], [(w - m, m)], [(w - m, h - m)], [(m, h - m)], where the margin
    [m] is a twentieth of the smaller side, rounded down.  The rectangle
    lies inside the image: the margin is non-negative and the left and top
    edges are not beyond the right and bottom edges. *)
Theorem region_of_interest_is_inside_the_image :
  forall (cv : OpenCV) (image : Raster),
    let height := fst (raster_shape image) in
    let width := snd (raster_shape image) in
    let margin := (Z.min width height / 20)%Z in
    (0 <= height)%Z -> (0 <= width)%Z ->
    EnhancedRoomDetection.determine_region_of_interest image
    = bitwise_and image
        (fillPoly (zeros_like image)
           [ (margin, margin);
             ((width - margin)%Z, margin);
             ((width - margin)%Z, (height - margin)%Z);
             (margin, (height - margin)%Z) ]
           255)
    /\ (0 <= margin)%Z
    /\ (20 * margin <= Z.min width height < 20 * (margin + 1))%Z
    /\ (margin <= width - margin)%Z
    /\ (margin <= height - margin)%Z.
Proof.
  intros cv image.
  unfold EnhancedRoomDetection.determine_region_of_interest.
  destruct (raster_shape image) as [height width]. cbn [fst snd].
  intros Hh Hw.
  change 0.05 with (5 # 100).
  rewrite int_scaled by lia.
  replace (Z.min width height * 5 / 100)%Z with (Z.min width height / 20)%Z
    by (symmetry; apply (Z.div_mul_cancel_r _ 20 5); discriminate).
  split; [reflexivity|].
  pose proof (Z.div_mod (Z.min width height) 20) as Hd.
  pose proof (Z.mod_pos_bound (Z.min width height) 20) as Hm.
  set (margin := (Z.min width height / 20)%Z) in *. clearbody margin.
  repeat split; lia.
Qed.

(** A plan of 300 rows and 400 columns: the margin is 15. *)
Lemma region_of_interest_is_inside_the_image_witness :
  (0 <= 300)%Z /\ (0 <= 400)%Z
  /\ EnhancedRoomDetection.determine_region_of_interest
       (cv := Synthetic.opencv Synthetic.one_room) Synthetic.one_room
     = bitwise_and (OpenCV := Synthetic.opencv Synthetic.one_room)
         Synthetic.one_room
         (fillPoly (OpenCV := Synthetic.opencv Synthetic.one_room)
            (zeros_like (OpenCV := Synthetic.opencv Synthetic.one_room)
               Synthetic.one_room)
            [ (15, 15); (385, 15); (385, 285); (15, 285) ]%Z 255)
  /\ (20 * 15 <= Z.min 400 300 < 20 * (15 + 1))%Z.
Proof.
  assert (H1 : (0 <= 300)%Z) by discriminate.
  assert (H2 : (0 <= 400)%Z) by discriminate.
  split; [exact H1|]. split; [exact H2|].
  destruct (region_of_interest_is_inside_the_image
              (Synthetic.opencv Synthetic.one_room) Synthetic.one_room H1 H2)
    as [Hrun [_ [H20 _]]].
  split; [exact Hrun|exact H20].
Defined.

(** ** The palettes *)

Lemma seed_room_colors_nodup : NoDup Visualization.seed_room_colors.
Proof.
  unfold Visualization.seed_room_colors.
  repeat (constructor;
          [simpl; intros H;
           repeat (destruct H as [H|H]; [discriminate H|]); exact H|]).
  constructor.
Qed.

Lemma wall_room_colors_nodup : NoDup Visualization.wall_room_colors.
Proof.
  unfold Visualization.wall_room_colors.
  repeat (constructor;
          [simpl; intros H;
           repeat (destruct H as [H|H]; [discriminate H|]); exact H|]).
  constructor.
Qed.

Lemma color_of_spec (room_colors : list (Z * Z * Z)) :
  room_colors <> [] -> NoDup room_colors ->
  forall i : nat,
    (exists c,
        Visualization.color_of room_colors i = Some c /\ In c room_colors)
    /\ Visualization.color_of room_colors (i + List.length room_colors)
       = Visualization.color_of room_colors i
    /\ forall j,
         (i < List.length room_colors)%nat ->
         (j < List.length room_colors)%nat -> i <> j ->
         Visualization.color_of room_colors i
         <> Visualization.color_of room_colors j.
Proof.
  intros Hne Hnd i. unfold Visualization.color_of.
  assert (Hlen : List.length room_colors <> 0%nat)
    by (destruct room_colors; [congruence|discriminate]).
  split; [|split].
  - destruct (nth_error room_colors (i mod List.length room_colors))
      as [c|] eqn:E.
    + exists c. split; [reflexivity|]. eapply nth_error_In; exact E.
    + exfalso. apply nth_error_None in E.
      pose proof (Nat.mod_upper_bound i _ Hlen). lia.
  - replace (i + List.length room_colors)%nat
      with (i + 1 * List.length room_colors)%nat by lia.
    now rewrite Nat.Div0.mod_add.
  - intros j Hi Hj Hij H.
    rewrite !Nat.mod_small in H by assumption.
    apply Hij. eapply (proj1 (NoDup_nth_error room_colors) Hnd); eassumption.
Qed.

(** X15.  The colour of the [i]-th room in either visualisation is always
    an entry of the palette (the index is never out of range), the colours
    repeat with the length of the palette, 14 and 9, and the rooms of one
    period get pairwise different colours. *)
Theorem room_colours_cycle_through_the_palette :
  forall i : nat,
    ((exists c,
         Visualization.color_of Visualization.seed_room_colors i = Some c
         /\ In c Visualization.seed_room_colors)
     /\ Visualization.color_of Visualization.seed_room_colors (i + 14)
        = Visualization.color_of Visualization.seed_room_colors i
     /\ forall j, (i < 14)%nat -> (j < 14)%nat -> i <> j ->
          Visualization.color_of Visualization.seed_room_colors i
          <> Visualization.color_of Visualization.seed_room_colors j)
    /\ ((exists c,
            Visualization.color_of Visualization.wall_room_colors i = Some c
            /\ In c Visualization.wall_room_colors)
        /\ Visualization.color_of Visualization.wall_room_colors (i + 9)
           = Visualization.color_of Visualization.wall_room_colors i
        /\ forall j, (i < 9)%nat -> (j < 9)%nat -> i <> j ->
             Visualization.color_of Visualization.wall_room_colors i
             <> Visualization.color_of Visualization.wall_room_colors j).
Proof.
  intros i. split.
  - apply (color_of_spec Visualization.seed_room_colors);
      [discriminate|apply seed_room_colors_nodup].
  - apply (color_of_spec Visualization.wall_room_colors);
      [discriminate|apply wall_room_colors_nodup].
Qed.

Lemma room_colours_cycle_through_the_palette_witness :
  (3 < 14)%nat /\ (12 < 14)%nat /\ 3%nat <> 12%nat
  /\ Visualization.color_of Visualization.seed_room_colors 3
     <> Visualization.color_of Visualization.seed_room_colors 12
  /\ Visualization.color_of Visualization.wall_room_colors (3 + 9)
     = Some (255, 255, 0)%Z.
Proof.
  assert (H1 : (3 < 14)%nat) by lia.
  assert (H2 : (12 < 14)%nat) by lia.
  assert (H3 : 3%nat <> 12%nat) by discriminate.
  destruct (room_colours_cycle_through_the_palette 3) as [[_ [_ Hs]] [_ [Hw _]]].
  repeat (split; [assumption|]).
  split; [exact (Hs 12%nat H1 H2 H3)|].
  rewrite Hw. reflexivity.
Defined.

(** ** The text remover *)

(** X16.  Every region that [identify_text_regions] returns is the bounding
    box of a contour found on the inverse-thresholded image, at least 20
    pixels wide and 10 pixels high, in which the recogniser read a
    non-empty text that matches one of the patterns. *)
Theorem identified_text_regions_are_matching_boxes :
  forall (cv : OpenCV) (pre : Preprocessing cv) (image : Image)
         (x y w h : Z),
    In (x, y, w, h) (TextRemover.identify_text_regions image) ->
    (exists contour,
        In contour
          (findContours
             (threshold (cvtColor_BGR2GRAY image) 150 255 THRESH_BINARY_INV))
        /\ boundingRect contour = (x, y, w, h))
    /\ (20 <= w)%Z /\ (10 <= h)%Z
    /\ image_to_string (cvtColor_BGR2GRAY image) (x, y, w, h) <> ""
    /\ matches_text_pattern
         (image_to_string (cvtColor_BGR2GRAY image) (x, y, w, h))
       = true.
Proof.
  intros cv pre image x y w h. unfold TextRemover.identify_text_regions.
  generalize (findContours
                (threshold (cvtColor_BGR2GRAY image) 150 255
                   THRESH_BINARY_INV)).
  generalize (cvtColor_BGR2GRAY image). intros gray contours.
  induction contours as [|c contours IH]; intros Hin; [destruct Hin|].
  cbn [TextRemover.text_regions_of] in Hin.
  destruct (boundingRect c) as [[[x0 y0] w0] h0] eqn:Eb.
  assert (Hrest :
            In (x, y, w, h) (TextRemover.text_regions_of gray contours) ->
            (exists contour,
                In contour (c :: contours)
                /\ boundingRect contour = (x, y, w, h))
            /\ (20 <= w)%Z /\ (10 <= h)%Z
            /\ image_to_string gray (x, y, w, h) <> ""
            /\ matches_text_pattern (image_to_string gray (x, y, w, h))
               = true).
  { intros H. destruct (IH H) as [[c' [Hc' Hb']] Hr].
    split; [exists c'; split; [now right|exact Hb']|exact Hr]. }
  destruct ((w0 <? 20)%Z || (h0 <? 10)%Z)%bool eqn:Es; [now apply Hrest|].
  apply orb_false_iff in Es. destruct Es as [Ew Eh].
  apply Z.ltb_ge in Ew, Eh.
  destruct (negb (String.eqb (image_to_string gray (x0, y0, w0, h0)) "")
            && matches_text_pattern
                 (image_to_string gray (x0, y0, w0, h0)))%bool eqn:Et;
    [|now apply Hrest].
  destruct Hin as [Heq|Hin]; [|now apply Hrest].
  injection Heq as <- <- <- <-.
  apply andb_true_iff in Et. destruct Et as [Ene Em].
  apply negb_true_iff, String.eqb_neq in Ene.
  split; [exists c; split; [now left|exact Eb]|]. now repeat split.
Qed.

Lemma identified_text_regions_are_matching_boxes_witness :
  In (100, 380, 60, 12)%Z
    (TextRemover.identify_text_regions
       (pre := SyntheticScripts.preprocessing SyntheticScripts.portrait)
       SyntheticScripts.portrait)
  /\ (20 <= 60)%Z /\ (10 <= 12)%Z.
Proof.
  assert (Hin : In (100, 380, 60, 12)%Z
                  (TextRemover.identify_text_regions
                     (pre := SyntheticScripts.preprocessing
                               SyntheticScripts.portrait)
                     SyntheticScripts.portrait)) by (now left).
  split; [exact Hin|].
  destruct (identified_text_regions_are_matching_boxes _ _ _ _ _ _ _ Hin)
    as [_ [Hw [Hh _]]].
  split; [exact Hw|exact Hh].
Defined.

(** X17.  For a text region that lies inside the image, the rectangle that
    [remove_text] blanks contains the region, stays within the image
    bounds, and extends beyond the region by at most a tenth of the
    region's width on the left and right and a tenth of its height above
    and below. *)
Theorem removed_rectangle_covers_region_within_image :
  forall (height width x y w h : Z),
    (0 <= x)%Z -> (0 <= y)%Z -> (0 <= w)%Z -> (0 <= h)%Z ->
    (x + w <= width)%Z -> (y + h <= height)%Z ->
    let '((x1, y1), (x2, y2)) :=
      TextRemover.padded_corners (height, width) (x, y, w, h) in
    ((0 <= x1 <= x)%Z /\ (x + w <= x2 <= width)%Z
     /\ (0 <= y1 <= y)%Z /\ (y + h <= y2 <= height)%Z)
    /\ (10 * (x - x1) <= w)%Z /\ (10 * (x2 - (x + w)) <= w)%Z
    /\ (10 * (y - y1) <= h)%Z /\ (10 * (y2 - (y + h)) <= h)%Z.
Proof.
  intros height width x y w h Hx Hy Hw Hh Hxw Hyh.
  unfold TextRemover.padded_corners. cbn [fst snd].
  assert (Hpad : forall n : Z,
             (0 <= n)%Z ->
             (0 <= Py.int (Py.float n * 0.1))%Z
             /\ (10 * Py.int (Py.float n * 0.1) <= n)%Z).
  { intros n Hn.
    assert (Hq : 0 <= Py.float n * 0.1).
    { unfold Py.float.
      assert (0 <= inject_Z n) by (now rewrite <- (Zle_Qle 0)). lra. }
    destruct (int_bounds _ Hq) as [Hle Hgt].
    generalize dependent (Py.int (Py.float n * 0.1)). intros p Hle Hgt.
    unfold Py.float in *. split.
    - apply Z.lt_succ_r. rewrite Zlt_Qlt. unfold Z.succ.
      rewrite inject_Z_plus.
      change (inject_Z 1) with 1. change (inject_Z 0) with 0. lra.
    - rewrite Zle_Qle, inject_Z_mult. change (inject_Z 10) with 10. lra. }
  destruct (Hpad w Hw) as [Hxp0 Hxp]. destruct (Hpad h Hh) as [Hyp0 Hyp].
  generalize dependent (Py.int (Py.float w * 0.1)).
  generalize dependent (Py.int (Py.float h * 0.1)).
  intros y_pad Hyp0 Hyp x_pad Hxp0 Hxp.
  repeat split; lia.
Qed.

Lemma removed_rectangle_covers_region_within_image_witness :
  (0 <= 100)%Z /\ (0 <= 380)%Z /\ (0 <= 60)%Z /\ (0 <= 12)%Z
  /\ (100 + 60 <= 300)%Z /\ (380 + 12 <= 400)%Z
  /\ TextRemover.padded_corners (400, 300)%Z (100, 380, 60, 12)%Z
     = ((94, 379), (166, 393))%Z
  /\ ((0 <= 94 <= 100)%Z /\ (100 + 60 <= 166 <= 300)%Z
      /\ (0 <= 379 <= 380)%Z /\ (380 + 12 <= 393 <= 400)%Z).
Proof.
  assert (H1 : (0 <= 100)%Z) by lia. assert (H2 : (0 <= 380)%Z) by lia.
  assert (H3 : (0 <= 60)%Z) by lia. assert (H4 : (0 <= 12)%Z) by lia.
  assert (H5 : (100 + 60 <= 300)%Z) by lia.
  assert (H6 : (380 + 12 <= 400)%Z) by lia.
  repeat (split; [assumption|]). split; [reflexivity|].
  exact (proj1 (removed_rectangle_covers_region_within_image
                  400 300 100 380 60 12 H1 H2 H3 H4 H5 H6)).
Defined.

(** X18.  When the quarter turn exchanges height and width, as
    [cv2.rotate] does, [ensure_landscape] returns an image that is at least
    as wide as it is high, leaves a landscape image as it is, and applied
    twice does the same as applied once. *)
Theorem ensure_landscape_makes_landscape :
  forall (cv : OpenCV) (pre : Preprocessing cv),
    (forall image : Image,
        shape (rotate_90_clockwise image)
        = (snd (shape image), fst (shape image))) ->
    forall image : Image,
      (fst (shape (TextRemover.ensure_landscape image))
       <= snd (shape (TextRemover.ensure_landscape image)))%Z
      /\ ((fst (shape image) <= snd (shape image))%Z ->
          TextRemover.ensure_landscape image = image)
      /\ TextRemover.ensure_landscape (TextRemover.ensure_landscape image)
         = TextRemover.ensure_landscape image.
Proof.
  intros cv pre Hrot image.
  assert (Hkeep : forall im : Image,
             (fst (shape im) <= snd (shape im))%Z ->
             TextRemover.ensure_landscape im = im).
  { intros im Hle. unfold TextRemover.ensure_landscape.
    destruct (shape im) as [h w]. cbn [fst snd] in Hle.
    destruct (h >? w)%Z eqn:E; [|reflexivity].
    apply Z.gtb_lt in E. lia. }
  assert (Hland : (fst (shape (TextRemover.ensure_landscape image))
                   <= snd (shape (TextRemover.ensure_landscape image)))%Z).
  { unfold TextRemover.ensure_landscape.
    destruct (shape image) as [h w] eqn:Es.
    destruct (h >? w)%Z eqn:E.
    - rewrite Hrot, Es. cbn [fst snd]. apply Z.gtb_lt in E. lia.
    - rewrite Es. cbn [fst snd]. rewrite Z.gtb_ltb in E.
      now apply Z.ltb_ge in E. }
  split; [exact Hland|]. split; [apply Hkeep|]. now apply Hkeep.
Qed.

Lemma ensure_landscape_makes_landscape_witness :
  (forall image : Synthetic.scene,
      shape (OpenCV := Synthetic.opencv SyntheticScripts.portrait)
        (rotate_90_clockwise
           (Preprocessing :=
              SyntheticScripts.preprocessing SyntheticScripts.portrait)
           image)
      = (snd (shape (OpenCV := Synthetic.opencv SyntheticScripts.portrait)
                image),
         fst (shape (OpenCV := Synthetic.opencv SyntheticScripts.portrait)
                image)))
  /\ shape (OpenCV := Synthetic.opencv SyntheticScripts.portrait)
       SyntheticScripts.portrait = (400, 300)%Z
  /\ (fst (shape (OpenCV := Synthetic.opencv SyntheticScripts.portrait)
             (TextRemover.ensure_landscape
                (pre := SyntheticScripts.preprocessing
                          SyntheticScripts.portrait)
                SyntheticScripts.portrait))
      <= snd (shape (OpenCV := Synthetic.opencv SyntheticScripts.portrait)
                (TextRemover.ensure_landscape
                   (pre := SyntheticScripts.preprocessing
                             SyntheticScripts.portrait)
                   SyntheticScripts.portrait)))%Z.
Proof.
  assert (Hrot : forall image : Synthetic.scene,
             shape (OpenCV := Synthetic.opencv SyntheticScripts.portrait)
               (rotate_90_clockwise
                  (Preprocessing :=
                     SyntheticScripts.preprocessing SyntheticScripts.portrait)
                  image)
             = (snd (shape
                       (OpenCV := Synthetic.opencv SyntheticScripts.portrait)
                       image),
                fst (shape
                       (OpenCV := Synthetic.opencv SyntheticScripts.portrait)
                       image)))
    by (intros image; reflexivity).
  split; [exact Hrot|]. split; [reflexivity|].
  exact (proj1 (ensure_landscape_makes_landscape
                  (Synthetic.opencv SyntheticScripts.portrait)
                  (SyntheticScripts.preprocessing SyntheticScripts.portrait)
                  Hrot SyntheticScripts.portrait)).
Defined.








(** ** The wall isolation script: text and symbols *)

Lemma is_likely_text_cases (gray_shape : Z * Z) (box : Z * Z * Z * Z)
  (area : Q) :
  (fst gray_shape = 0%Z
   /\ WallIsolation.is_likely_text gray_shape box area
      = Raise ZeroDivisionError)
  \/ (fst gray_shape <> 0%Z
      /\ exists likely,
           WallIsolation.is_likely_text gray_shape box area = Ok likely
           /\ (likely = true -> area < 3000)).
Proof.
  destruct box as [[[x y] w] h]. unfold WallIsolation.is_likely_text.
  destruct (Z.eq_dec (fst gray_shape) 0) as [E|E].
  - left. split; [exact E|]. rewrite E.
    rewrite truediv_zero by reflexivity. reflexivity.
  - right. split; [exact E|].
    rewrite truediv_ok.
    + cbn [bind]. eexists. split; [reflexivity|].
      intros H.
      repeat match type of H with
      | (_ || _)%bool = true =>
          apply orb_true_iff in H; destruct H as [H|H]
      end;
      repeat match goal with
      | H : (_ && _)%bool = true |- _ =>
          apply andb_true_iff in H; destruct H
      end;
      repeat match goal with
      | H : Py.lt _ _ = true |- _ => apply lt_true in H
      end; lra.
    + unfold Py.float. intros H. apply E.
      apply (proj1 (inject_Z_injective _ 0)). exact H.
Qed.

(** X20.  The test [is_likely_text] of [remove_text_and_symbols] never
    marks a contour of area 3000 or more.  It divides by the height of the
    image: on an image of height zero it raises [ZeroDivisionError], on any
    other image it returns. *)
Theorem likely_text_has_small_area :
  forall (gray_shape : Z * Z) (box : Z * Z * Z * Z) (area : Q),
    (fst gray_shape <> 0%Z ->
     exists likely,
       WallIsolation.is_likely_text gray_shape box area = Ok likely
       /\ (likely = true -> area < 3000))
    /\ (fst gray_shape = 0%Z ->
        WallIsolation.is_likely_text gray_shape box area
        = Raise ZeroDivisionError).
Proof.
  intros gray_shape box area.
  destruct (is_likely_text_cases gray_shape box area)
    as [[E H]|[E H]]; split; intros E'; try contradiction; assumption.
Qed.

Lemma likely_text_has_small_area_witness :
  (300 <> 0)%Z
  /\ WallIsolation.is_likely_text (300, 400)%Z (20, 20, 40, 10)%Z 350
     = Ok true
  /\ 350 < 3000
  /\ WallIsolation.is_likely_text (0, 400)%Z (20, 20, 40, 10)%Z 350
     = Raise ZeroDivisionError.
Proof.
  assert (Hne : (300 <> 0)%Z) by discriminate.
  split; [exact Hne|].
  destruct (proj1 (likely_text_has_small_area (300, 400)%Z
                     (20, 20, 40, 10)%Z 350) Hne) as [likely [Hrun Hsmall]].
  assert (Hl : likely = true).
  { vm_compute in Hrun. now injection Hrun as <-. }
  subst likely. split; [exact Hrun|]. split; [now apply Hsmall|].
  exact (proj2 (likely_text_has_small_area (0, 400)%Z (20, 20, 40, 10)%Z 350)
           eq_refl).
Defined.

Section WallIsolationRun.
Context {cv : OpenCV} {pre : Preprocessing cv}.

Lemma text_mask_of_returns (gray_shape : Z * Z) (contours : list Contour) :
  fst gray_shape <> 0%Z ->
  forall text_mask,
    exists mask,
      WallIsolation.text_mask_of gray_shape contours text_mask = Ok mask.
Proof.
  intros Hne. induction contours as [|c contours IH]; intros text_mask.
  - exists text_mask. reflexivity.
  - cbn [WallIsolation.text_mask_of].
    destruct (boundingRect c) as [[[x y] w] h].
    destruct (is_likely_text_cases gray_shape (x, y, w, h) (contourArea c))
      as [[E _]|[_ [likely [H _]]]]; [contradiction|].
    rewrite H. cbn [bind]. destruct likely; [|apply IH].
    destruct ((y <? 150)%Z || (y >? fst gray_shape - 150)%Z)%bool;
      [|apply IH].
    destruct (WallIsolation.header_strip gray_shape (x, y, w, h)) as [p1 p2].
    apply IH.
Qed.

Lemma text_mask_of_raises (gray_shape : Z * Z) (c : Contour)
  (contours : list Contour) (text_mask : Raster) :
  fst gray_shape = 0%Z ->
  WallIsolation.text_mask_of gray_shape (c :: contours) text_mask
  = Raise ZeroDivisionError.
Proof.
  intros E. cbn [WallIsolation.text_mask_of].
  destruct (boundingRect c) as [[[x y] w] h].
  destruct (is_likely_text_cases gray_shape (x, y, w, h) (contourArea c))
    as [[_ H]|[Hne _]]; [|contradiction].
  now rewrite H.
Qed.

End WallIsolationRun.

(** X21.  [remove_text_and_symbols] raises [cv2.error] on an image without
    rows or without columns, at the conversion to grayscale.  On every
    other image it returns the inpainted image, provided the conversion to
    grayscale keeps the shape: the division by the height of the grayscale
    image is never a division by zero. *)
Theorem remove_text_and_symbols_fails_only_on_empty_image :
  forall (cv : OpenCV) (pre : Preprocessing cv),
    (forall image : Image,
        raster_shape (cvtColor_BGR2GRAY image) = shape image) ->
    forall image : Image,
      ((fst (shape image) = 0 \/ snd (shape image) = 0)%Z ->
       WallIsolation.remove_text_and_symbols image = Raise CvError)
      /\ (fst (shape image) <> 0%Z -> snd (shape image) <> 0%Z ->
          exists text_mask,
            WallIsolation.remove_text_and_symbols image
            = Ok (inpaint image (dilate_by text_mask 5 3))).
Proof.
  intros cv pre Hshape image.
  unfold WallIsolation.remove_text_and_symbols, cvtColor_gray.
  pose proof (Hshape image) as Hs.
  destruct (shape image) as [height width]. cbn [fst snd].
  split.
  - intros [-> | ->]; [reflexivity|].
    now rewrite Z.eqb_refl, orb_true_r.
  - intros Hh Hw.
    apply Z.eqb_neq in Hh, Hw. rewrite Hh, Hw. cbn [orb bind].
    apply Z.eqb_neq in Hh.
    assert (Hne : fst (raster_shape (cvtColor_BGR2GRAY image)) <> 0%Z)
      by (now rewrite Hs).
    destruct (text_mask_of_returns
                (raster_shape (cvtColor_BGR2GRAY image))
                (findContours
                   (morphologyEx
                      (threshold (cvtColor_BGR2GRAY image) 150 255
                         THRESH_BINARY_INV) MORPH_OPEN 2))
                Hne (zeros_like (cvtColor_BGR2GRAY image)))
      as [mask Hm].
    rewrite Hm. cbn [bind]. exists mask. reflexivity.
Qed.

(** A portrait plan with two contours, and a plan without rows on which a
    contour is reported all the same. *)
Lemma remove_text_and_symbols_fails_only_on_empty_image_witness :
  (forall image : @Image (Synthetic.opencv SyntheticScripts.portrait),
      raster_shape (cvtColor_BGR2GRAY image) = shape image)
  /\ (fst (shape (OpenCV := Synthetic.opencv SyntheticScripts.portrait)
             SyntheticScripts.portrait) <> 0%Z
      /\ snd (shape (OpenCV := Synthetic.opencv SyntheticScripts.portrait)
                SyntheticScripts.portrait) <> 0%Z
      /\ WallIsolation.remove_text_and_symbols
           (pre := SyntheticScripts.preprocessing SyntheticScripts.portrait)
           SyntheticScripts.portrait
         = Ok SyntheticScripts.portrait)
  /\ (fst (shape (OpenCV := Synthetic.opencv SyntheticScripts.portrait)
             SyntheticScripts.no_rows) = 0%Z
      /\ WallIsolation.remove_text_and_symbols
           (pre := SyntheticScripts.preprocessing SyntheticScripts.portrait)
           SyntheticScripts.no_rows
         = Raise CvError).
Proof.
  assert (Hshape :
            forall image : @Image (Synthetic.opencv SyntheticScripts.portrait),
              raster_shape (cvtColor_BGR2GRAY image) = shape image)
    by reflexivity.
  split; [exact Hshape|]. split.
  - assert (Hh : fst (shape
                        (OpenCV := Synthetic.opencv SyntheticScripts.portrait)
                        SyntheticScripts.portrait) <> 0%Z) by discriminate.
    assert (Hw : snd (shape
                        (OpenCV := Synthetic.opencv SyntheticScripts.portrait)
                        SyntheticScripts.portrait) <> 0%Z) by discriminate.
    split; [exact Hh|]. split; [exact Hw|].
    destruct (proj2 (remove_text_and_symbols_fails_only_on_empty_image
                       (Synthetic.opencv SyntheticScripts.portrait)
                       (SyntheticScripts.preprocessing
                          SyntheticScripts.portrait)
                       Hshape SyntheticScripts.portrait) Hh Hw)
      as [text_mask Hc].
    rewrite Hc. reflexivity.
  - assert (Hh : fst (shape
                        (OpenCV := Synthetic.opencv SyntheticScripts.portrait)
                        SyntheticScripts.no_rows) = 0%Z) by reflexivity.
    split; [exact Hh|].
    exact (proj1 (remove_text_and_symbols_fails_only_on_empty_image
                    (Synthetic.opencv SyntheticScripts.portrait)
                    (SyntheticScripts.preprocessing
                       SyntheticScripts.portrait)
                    Hshape SyntheticScripts.no_rows) (or_introl Hh)).
Defined.

(** ** The batch loops *)

Section BatchLoops.
Context {cv : OpenCV} {host : Host} {fs : FileSystem}.

Lemma seed_loop_spec (filenames : list string) :
  forall log,
    exists effects,
      Batch.seed_loop filenames log = log ++ effects
      /\ Forall2
           (fun filename eff =>
              match eff with
              | Batch.Written image_path record =>
                  image_path = join [Batch.FLOORPLAN_DIR; filename]
                  /\ exists rooms,
                       RoomDetection.process_floorplan image_path
                       = Ok (record, rooms)
              | Batch.Reported name e =>
                  name = filename
                  /\ RoomDetection.process_floorplan
                       (join [Batch.FLOORPLAN_DIR; filename])
                     = Raise e
              end)
           (filter
              (fun filename =>
                 PyStr.endswith_any filename [".jpg"; ".jpeg"; ".png"]
                 && negb (PyStr.startswith filename "placeholder"))%bool
              filenames)
           effects.
Proof.
  induction filenames as [|filename rest IH]; intros log.
  - exists []. rewrite app_nil_r. split; [reflexivity|constructor].
  - cbn [Batch.seed_loop filter].
    destruct (PyStr.endswith_any filename [".jpg"; ".jpeg"; ".png"]
              && negb (PyStr.startswith filename "placeholder"))%bool.
    + destruct (RoomDetection.process_floorplan
                  (join [Batch.FLOORPLAN_DIR; filename]))
        as [[record rooms]|e] eqn:Ep.
      * destruct (IH (log ++ [Batch.Written
                                (join [Batch.FLOORPLAN_DIR; filename])
                                record]))
          as [effects [Hl Hf]].
        eexists. rewrite Hl, <- app_assoc. split; [reflexivity|].
        constructor; [|exact Hf]. split; [reflexivity|].
        exists rooms. exact Ep.
      * destruct (IH (log ++ [Batch.Reported filename e]))
          as [effects [Hl Hf]].
        eexists. rewrite Hl, <- app_assoc. split; [reflexivity|].
        constructor; [|exact Hf]. now split.
    + apply IH.
Qed.

Lemma wall_loop_spec (root : string) (filenames : list string) :
  forall log,
    exists effects,
      Batch.wall_loop root filenames log = log ++ effects
      /\ Forall2
           (fun filename eff =>
              match eff with
              | Batch.Written image_path record =>
                  image_path = join [Batch.SOURCE_DIR root; filename]
                  /\ exists rooms,
                       EnhancedRoomDetection.process_floor_plan image_path
                       = Ok (record, rooms)
              | Batch.Reported name e =>
                  name = filename
                  /\ EnhancedRoomDetection.process_floor_plan
                       (join [Batch.SOURCE_DIR root; filename])
                     = Raise e
              end)
           filenames effects.
Proof.
  induction filenames as [|filename rest IH]; intros log.
  - exists []. rewrite app_nil_r. split; [reflexivity|constructor].
  - cbn [Batch.wall_loop].
    destruct (EnhancedRoomDetection.process_floor_plan
                (join [Batch.SOURCE_DIR root; filename]))
      as [[record rooms]|e] eqn:Ep.
    + destruct (IH (log ++ [Batch.Written
                              (join [Batch.SOURCE_DIR root; filename])
                              record]))
        as [effects [Hl Hf]].
      eexists. rewrite Hl, <- app_assoc. split; [reflexivity|].
      constructor; [|exact Hf]. split; [reflexivity|].
      exists rooms. exact Ep.
    + destruct (IH (log ++ [Batch.Reported filename e]))
        as [effects [Hl Hf]].
      eexists. rewrite Hl, <- app_assoc. split; [reflexivity|].
      constructor; [|exact Hf]. now split.
Qed.

End BatchLoops.

(** X22.  A batch run does nothing when its directory is missing.
    Otherwise it attempts every eligible entry of the directory exactly
    once and in listing order, whatever happened to the entries before it:
    for each one it either writes the record that the pipeline returns for
    the joined path, or reports the exception that the pipeline raises.
    Eligible for [roomDetection.py] are the names ending in [.jpg], [.jpeg]
    or [.png] that do not start with [placeholder]; for
    [enhancedRoomDetection.py] the ending is tested on the lower-cased name
    and the name must also contain [processed]. *)
Theorem batch_attempts_every_eligible_file :
  forall (cv : OpenCV) (host : Host) (fs : FileSystem)
         (WORKSPACE_ROOT : string),
    (dir_exists Batch.FLOORPLAN_DIR = false ->
     Batch.process_all_floorplans = [])
    /\ (dir_exists Batch.FLOORPLAN_DIR = true ->
        Forall2
          (fun filename eff =>
             match eff with
             | Batch.Written image_path record =>
                 image_path = join [Batch.FLOORPLAN_DIR; filename]
                 /\ exists rooms,
                      RoomDetection.process_floorplan image_path
                      = Ok (record, rooms)
             | Batch.Reported name e =>
                 name = filename
                 /\ RoomDetection.process_floorplan
                      (join [Batch.FLOORPLAN_DIR; filename])
                    = Raise e
             end)
          (filter
             (fun filename =>
                PyStr.endswith_any filename [".jpg"; ".jpeg"; ".png"]
                && negb (PyStr.startswith filename "placeholder"))%bool
             (listdir Batch.FLOORPLAN_DIR))
          Batch.process_all_floorplans)
    /\ (dir_exists (Batch.SOURCE_DIR WORKSPACE_ROOT) = false ->
        Batch.process_all_floor_plans WORKSPACE_ROOT = [])
    /\ (dir_exists (Batch.SOURCE_DIR WORKSPACE_ROOT) = true ->
        Forall2
          (fun filename eff =>
             match eff with
             | Batch.Written image_path record =>
                 image_path
                 = join [Batch.SOURCE_DIR WORKSPACE_ROOT; filename]
                 /\ exists rooms,
                      EnhancedRoomDetection.process_floor_plan image_path
                      = Ok (record, rooms)
             | Batch.Reported name e =>
                 name = filename
                 /\ EnhancedRoomDetection.process_floor_plan
                      (join [Batch.SOURCE_DIR WORKSPACE_ROOT; filename])
                    = Raise e
             end)
          (filter
             (fun f =>
                PyStr.endswith_any (Py.lower f) [".jpg"; ".jpeg"; ".png"]
                && negb (PyStr.startswith f "placeholder")
                && Py.contains "processed" f)%bool
             (listdir (Batch.SOURCE_DIR WORKSPACE_ROOT)))
          (Batch.process_all_floor_plans WORKSPACE_ROOT)).
Proof.
  intros cv host fs root.
  unfold Batch.process_all_floorplans, Batch.process_all_floor_plans.
  split; [|split; [|split]].
  - intros ->. reflexivity.
  - intros ->. cbn [negb].
    destruct (seed_loop_spec (listdir Batch.FLOORPLAN_DIR) [])
      as [effects [-> Hf]]. exact Hf.
  - intros ->. reflexivity.
  - intros ->. cbn [negb].
    destruct (wall_loop_spec root (Batch.floor_plans root) [])
      as [effects [-> Hf]]. exact Hf.
Qed.

Lemma batch_attempts_every_eligible_file_witness :
  dir_exists (FileSystem := SyntheticScripts.files)
    (Batch.FLOORPLAN_DIR (fs := SyntheticScripts.files)) = true
  /\ List.length
       (Batch.process_all_floorplans
          (cv := Synthetic.opencv Synthetic.one_room)
          (host := Synthetic.host) (fs := SyntheticScripts.files))
     = 2%nat
  /\ List.length
       (Batch.process_all_floor_plans
          (cv := Synthetic.opencv Synthetic.one_room)
          (host := Synthetic.host) (fs := SyntheticScripts.files) "/srv")
     = 1%nat.
Proof.
  assert (Hd : dir_exists (FileSystem := SyntheticScripts.files)
                 (Batch.FLOORPLAN_DIR (fs := SyntheticScripts.files))
               = true) by reflexivity.
  destruct (batch_attempts_every_eligible_file
              (Synthetic.opencv Synthetic.one_room) Synthetic.host
              SyntheticScripts.files "/srv") as [_ [Hs [_ Hw]]].
  split; [exact Hd|]. split.
  - rewrite <- (Forall2_length (Hs Hd)). reflexivity.
  - rewrite <- (Forall2_length (Hw eq_refl)). reflexivity.
Defined.

(** ** The labels that are actually assigned *)

Lemma seed_classify_label (a r t : Q) (l : string) :
  RoomDetection.classify_room_type a r t = Ok l -> In l SeedBands.labels.
Proof.
  intros H. destruct (Qeq_bool t 0) eqn:E.
  - apply Qeq_bool_iff in E.
    unfold RoomDetection.classify_room_type in H.
    rewrite (truediv_zero _ _ E) in H. discriminate.
  - apply Qeq_bool_neq in E.
    destruct (seed_classify_branch a r t E) as [b [_ [_ Hb]]].
    rewrite Hb in H. injection H as <-. destruct b; simpl; tauto.
Qed.

Lemma wall_classify_label (a r t : Q) (l : string) :
  EnhancedRoomDetection.classify_room_type a r t = Ok l ->
  In l [ "office"; "classroom"; "conference"; "hallway"; "storage";
         "restroom"; "utility" ].
Proof.
  intros H. destruct (Qeq_bool t 0) eqn:E.
  - apply Qeq_bool_iff in E.
    unfold EnhancedRoomDetection.classify_room_type in H.
    rewrite (truediv_zero _ _ E) in H. discriminate.
  - apply Qeq_bool_neq in E.
    destruct (wall_classify_branch a r t E) as [b [_ [_ Hb]]].
    rewrite Hb in H. injection H as <-. destruct b; simpl; tauto.
Qed.

(** X23.  The labels that the classifiers can assign are exactly these:
    the seed-anchored classifier returns each of its nine labels for some
    input and nothing else; the wall-reconstruction classifier returns each
    of seven values of [ROOM_TYPES] for some input and nothing else, so
    that the value [reception] of the key [entrance] is never assigned. *)
Theorem classifier_ranges :
  (forall l : string,
      (exists a r t, RoomDetection.classify_room_type a r t = Ok l)
      <-> In l SeedBands.labels)
  /\ (forall l : string,
         (exists a r t,
             EnhancedRoomDetection.classify_room_type a r t = Ok l)
         <-> In l [ "office"; "classroom"; "conference"; "hallway";
                    "storage"; "restroom"; "utility" ])
  /\ (forall a r t,
         EnhancedRoomDetection.classify_room_type a r t <> Ok "reception").
Proof.
  split; [|split].
  - intros l. split.
    + intros [a [r [t H]]]. exact (seed_classify_label a r t l H).
    + simpl. intros [<-|[<-|[<-|[<-|[<-|[<-|[<-|[<-|[<-|[]]]]]]]]]].
      * now exists 30, 4, 100.
      * now exists 30, 1, 100.
      * now exists 20, 1, 100.
      * now exists 20, 1.5, 100.
      * now exists 10, 1, 100.
      * now exists 10, 2, 100.
      * now exists 3, 1, 100.
      * now exists 3, 3, 100.
      * now exists 1, 1, 100.
  - intros l. split.
    + intros [a [r [t H]]]. exact (wall_classify_label a r t l H).
    + simpl. intros [<-|[<-|[<-|[<-|[<-|[<-|[<-|[]]]]]]]].
      * now exists 20, 1, 100.
      * now exists 20, 2, 100.
      * now exists 10, 1, 100.
      * now exists 10, 4, 100.
      * now exists 3, 1, 100.
      * now exists 3, 2, 100.
      * now exists 0.5, 1, 100.
  - intros a r t H. apply wall_classify_label in H. simpl in H.
    repeat (destruct H as [H|H]; [discriminate H|]). exact H.
Qed.

Lemma classifier_ranges_witness :
  In "laboratory" SeedBands.labels
  /\ (exists a r t, RoomDetection.classify_room_type a r t = Ok "laboratory")
  /\ EnhancedRoomDetection.classify_room_type 20 1 100 = Ok "office"
  /\ In "office" [ "office"; "classroom"; "conference"; "hallway";
                   "storage"; "restroom"; "utility" ].
Proof.
  destruct classifier_ranges as [Hs [Hw _]].
  assert (Hin : In "laboratory" SeedBands.labels) by (simpl; tauto).
  split; [exact Hin|]. split; [exact (proj2 (Hs "laboratory") Hin)|].
  assert (Hrun : EnhancedRoomDetection.classify_room_type 20 1 100
                 = Ok "office") by reflexivity.
  split; [exact Hrun|].
  apply (proj1 (Hw "office")). now exists 20, 1, 100.
Defined.

(** X24.  In the result of the wall-reconstruction pipeline every room has
    confidence 0.85 and one of the seven labels that the classifier
    assigns, and its name is ["Room "] followed by the capitalised label, a
    space and four characters. *)
Theorem wall_result_rooms_are_annotated :
  forall (cv : OpenCV) (host : Host) (image_path : string)
         (res : EnhancedRoomDetection.Result.t)
         (filtered_rooms : list EnhancedRoomDetection.Room),
    EnhancedRoomDetection.process_floor_plan image_path
    = Ok (res, filtered_rooms) ->
    forall r, In r filtered_rooms ->
      EnhancedRoomDetection.confidence r = 0.85
      /\ In (EnhancedRoomDetection.type r)
           [ "office"; "classroom"; "conference"; "hallway"; "storage";
             "restroom"; "utility" ]
      /\ exists n : nat,
           EnhancedRoomDetection.name r
           = ("Room " ++ Py.capitalize (EnhancedRoomDetection.type r)
              ++ " " ++ String.substring 0 4 (uuid4 n))%string.
Proof.
  intros cv host image_path res filtered Hrun r Hr.
  destruct (process_floor_plan_cases image_path)
    as [[e [_ He]]|[original [rooms [_ [Ha [_ Hok]]]]]]; [congruence|].
  rewrite Hok in Hrun. injection Hrun as _ <-.
  apply remove_overlapping_rooms_incl in Hr.
  destruct (annotate_spec _ _ _ _ Ha) as [Hlen Hnth].
  apply In_nth_error in Hr. destruct Hr as [i Hi].
  destruct (nth_error (Filter.polygons_of original) i) as [p|] eqn:Ep.
  - destruct (Hnth i p Ep)
      as [r' [Hr' [_ [_ [_ [_ [Hty [_ [Hname Hcf]]]]]]]]].
    rewrite Hi in Hr'. injection Hr' as <-.
    split; [exact Hcf|]. split; [exact (wall_classify_label _ _ _ _ Hty)|].
    eexists. exact Hname.
  - exfalso. apply nth_error_None in Ep.
    assert (i < List.length rooms)%nat by (apply nth_error_Some; congruence).
    lia.
Qed.

Lemma wall_result_rooms_are_annotated_witness :
  exists res r,
    EnhancedRoomDetection.process_floor_plan
      (cv := Synthetic.opencv Synthetic.one_room) (host := Synthetic.host)
      "ground_floor.png" = Ok (res, [r])
    /\ EnhancedRoomDetection.confidence r = 0.85
    /\ In (EnhancedRoomDetection.type r)
         [ "office"; "classroom"; "conference"; "hallway"; "storage";
           "restroom"; "utility" ].
Proof.
  eexists. eexists.
  assert (Hrun : EnhancedRoomDetection.process_floor_plan
                   (cv := Synthetic.opencv Synthetic.one_room)
                   (host := Synthetic.host) "ground_floor.png"
                 = Ok (_, [_])) by (vm_compute; reflexivity).
  split; [exact Hrun|].
  destruct (wall_result_rooms_are_annotated _ _ _ _ _ Hrun _
              (or_introl eq_refl)) as [Hc [Ht _]].
  split; [exact Hc|exact Ht].
Defined.

(** ** The preprocessing script: margins and text contours *)

(** X25.  [remove_text_regions] raises [cv2.error] on an image without rows
    or without columns.  On an image of height [h] and width [w] it
    whitens, after the text mask has been applied, the rows from
    [9h div 10] on, the rows before [h div 10], the columns before
    [w div 20] and the columns from [19w div 20] on.  The margins do not
    cross: the top margin ends at or before the start of the bottom margin
    and the left margin at or before the start of the right margin, all
    inside the image. *)
Theorem removed_margins_do_not_cross :
  forall (cv : OpenCV) (pre : Preprocessing cv) (image : Image),
    let h := fst (shape image) in
    let w := snd (shape image) in
    ((h = 0 \/ w = 0)%Z ->
     Preprocess.remove_text_regions image = Raise CvError)
    /\ ((0 < h)%Z -> (0 < w)%Z ->
        let gray := cvtColor_BGR2GRAY image in
        let mask :=
          dilate_by
            (Preprocess.text_mask_of
               (findContours (threshold gray 180 255 THRESH_BINARY_INV))
               (zeros_like gray)) 5 2 in
        let inner :=
          whiten_where_255 (mask_channels image (bitwise_not mask)) mask in
        Preprocess.remove_text_regions image
        = Ok (whiten_cols
                (whiten_cols
                   (whiten_rows
                      (whiten_rows inner (Some (h * 9 / 10)%Z) None)
                      None (Some (h / 10)%Z))
                   None (Some (w / 20)%Z))
                (Some (w * 19 / 20)%Z) None)
        /\ (0 <= h / 10 <= h * 9 / 10)%Z /\ (h * 9 / 10 <= h)%Z
        /\ (0 <= w / 20 <= w * 19 / 20)%Z /\ (w * 19 / 20 <= w)%Z).
Proof.
  intros cv pre image.
  unfold Preprocess.remove_text_regions, cvtColor_gray.
  destruct (shape image) as [h w]. cbn [fst snd]. split.
  - intros [-> | ->]; [reflexivity|].
    now rewrite Z.eqb_refl, orb_true_r.
  - intros Hh Hw.
    assert (Eh : Z.eqb h 0 = false) by (apply Z.eqb_neq; lia).
    assert (Ew : Z.eqb w 0 = false) by (apply Z.eqb_neq; lia).
    rewrite Eh, Ew. cbn [orb bind].
    change 0.9 with (9 # 10). change 0.1 with (1 # 10).
    change 0.05 with (5 # 100). change 0.95 with (95 # 100).
    rewrite !int_scaled by lia.
    rewrite Z.mul_1_r.
    replace (w * 5 / 100)%Z with (w / 20)%Z
      by (symmetry; apply (Z.div_mul_cancel_r w 20 5); discriminate).
    replace (w * 95 / 100)%Z with (w * 19 / 20)%Z.
    2:{ replace (w * 95)%Z with (w * 19 * 5)%Z by lia.
        symmetry. apply (Z.div_mul_cancel_r (w * 19) 20 5); discriminate. }
    split; [reflexivity|].
    pose proof (Z.div_le_mono h (h * 9) 10).
    pose proof (Z.div_le_mono w (w * 19) 20).
    pose proof (Z.div_pos h 10). pose proof (Z.div_pos w 20).
    assert ((h * 9 / 10 <= h)%Z)
      by (apply Z.div_le_upper_bound; lia).
    assert ((w * 19 / 20 <= w)%Z)
      by (apply Z.div_le_upper_bound; lia).
    repeat split; lia.
Qed.

(** A dark portrait plan of 400 x 300 pixels: afterwards the rows 0 to 39
    and 360 to 399 and the columns 0 to 14 and 285 to 299 are light, and
    the pixels inside are as dark as they were. *)
Lemma removed_margins_do_not_cross_witness :
  ((0 = 0 \/ 300 = 0)%Z
   /\ Preprocess.remove_text_regions
        (cv := Synthetic.opencv SyntheticScripts.dark_portrait)
        (pre := SyntheticScripts.preprocessing
                  SyntheticScripts.dark_portrait)
        SyntheticScripts.no_rows
      = Raise CvError)
  /\ (0 < 400)%Z /\ (0 < 300)%Z
  /\ exists cleaned : Synthetic.scene,
       Preprocess.remove_text_regions
         (cv := Synthetic.opencv SyntheticScripts.dark_portrait)
         (pre := SyntheticScripts.preprocessing
                   SyntheticScripts.dark_portrait)
         SyntheticScripts.dark_portrait
       = Ok cleaned
       /\ Synthetic.light cleaned 39 150 = true
       /\ Synthetic.light cleaned 40 150 = false
       /\ Synthetic.light cleaned 359 150 = false
       /\ Synthetic.light cleaned 360 150 = true
       /\ Synthetic.light cleaned 200 14 = true
       /\ Synthetic.light cleaned 200 15 = false
       /\ Synthetic.light cleaned 200 284 = false
       /\ Synthetic.light cleaned 200 285 = true.
Proof.
  assert (H0 : (0 = 0 \/ 300 = 0)%Z) by (left; reflexivity).
  assert (H1 : (0 < 400)%Z) by reflexivity.
  assert (H2 : (0 < 300)%Z) by reflexivity.
  split.
  { split; [exact H0|].
    exact (proj1 (removed_margins_do_not_cross
                    (Synthetic.opencv SyntheticScripts.dark_portrait)
                    (SyntheticScripts.preprocessing
                       SyntheticScripts.dark_portrait)
                    SyntheticScripts.no_rows) H0). }
  split; [exact H1|]. split; [exact H2|].
  destruct (proj2 (removed_margins_do_not_cross
                     (Synthetic.opencv SyntheticScripts.dark_portrait)
                     (SyntheticScripts.preprocessing
                        SyntheticScripts.dark_portrait)
                     SyntheticScripts.dark_portrait) H1 H2)
    as [Hrun _].
  eexists. split; [exact Hrun|].
  repeat split; vm_compute; reflexivity.
Defined.
